(** * tooie-shelf: icon resolution, extraction, caching and rendering

    A shallow embedding of the Go sources of tooie-shelf
    (internal/sys/android.go, internal/graphics/apk_extract.go,
    internal/graphics/sixel.go, internal/config/config.go and the
    loader of package config, internal/app/model.go,
    internal/app/update.go) together with the properties the
    specification states about them and further properties of the
    code.

    Conventions.
    - Go [int] is a 64-bit two's complement integer: a [Z] kept in range
      by [Go.wrap] after every arithmetic operation.
    - A Go [string] is a sequence of bytes: a Rocq [string].
    - Go maps are [gmap]s; a map that is ranged over takes its iteration
      order as an argument, since Go leaves that order unspecified.
    - Calls that leave the process (pm, aapt2, rish, the file system, the
      clock) are inputs of the functions that make them.
    - A result of type [option] is [None] where the Go code panics:
      an index out of range, a division by zero, an image whose pixel
      buffer has no length that fits an int.  Running out of memory is
      not modelled.
    - Debug logging (logDebug, logIconExtraction) has no effect on any
      result and is left out. *)

From Stdlib Require Import ZArith Lia Bool Ascii String List.
From Stdlib Require Import DecimalString DecimalZ.
From Stdlib Require Import PrimFloat FloatOps SpecFloat FloatAxioms Uint63.
From stdpp Require Import gmap strings list.

Local Open Scope Z_scope.

(** * The Go runtime and library functions the sources call *)

Module Go.

(** ** int *)

Definition minInt : Z := - 2 ^ 63.
Definition maxInt : Z := 2 ^ 63 - 1.

Definition wrap (z : Z) : Z := (z + 2 ^ 63) mod 2 ^ 64 - 2 ^ 63.

Definition int_add (a b : Z) : Z := wrap (a + b).
Definition int_sub (a b : Z) : Z := wrap (a - b).
Definition int_mul (a b : Z) : Z := wrap (a * b).

(** [a / b] truncates toward zero; the caller guards [b <> 0]. *)
Definition int_quo (a b : Z) : Z := wrap (Z.quot a b).

Definition in_int (z : Z) : Prop := minInt <= z <= maxInt.

(** ** Results of fallible calls *)

Inductive Result (A : Type) : Type :=
| Ok (a : A)
| Err (msg : string).
Arguments Ok {A} a.
Arguments Err {A} msg.

Definition is_ok {A} (r : Result A) : bool :=
  match r with Ok _ => true | Err _ => false end.

(** ** Bytes and strings *)

Definition byte_val (c : ascii) : Z := Z.of_N (N_of_ascii c).

Definition len (s : string) : Z := wrap (Z.of_nat (String.length s)).

(** [s[:n]] and [s[n:]] for [n] within bounds. *)
Fixpoint slice_to (n : nat) (s : string) : string :=
  match n, s with
  | S k, String c s' => String c (slice_to k s')
  | _, _ => ""
  end.

Fixpoint slice_from (n : nat) (s : string) : string :=
  match n, s with
  | S k, String _ s' => slice_from k s'
  | _, _ => s
  end.

Fixpoint HasPrefix (s prefix : string) : bool :=
  match prefix, s with
  | "", _ => true
  | String p prefix', String c s' => Ascii.eqb c p && HasPrefix s' prefix'
  | String _ _, "" => false
  end.

Definition HasSuffix (s suffix : string) : bool :=
  (String.length suffix <=? String.length s)%nat &&
  String.eqb (slice_from (String.length s - String.length suffix) s) suffix.

Definition TrimPrefix (s prefix : string) : string :=
  if HasPrefix s prefix then slice_from (String.length prefix) s else s.

Definition TrimSuffix (s suffix : string) : string :=
  if HasSuffix s suffix
  then slice_to (String.length s - String.length suffix) s
  else s.

(** Byte index of the first occurrence of [substr] in [s], or -1. *)
Fixpoint Index (s substr : string) : Z :=
  if HasPrefix s substr then 0
  else match s with
       | "" => -1
       | String _ s' =>
           let i := Index s' substr in
           if i <? 0 then -1 else i + 1
       end.

Definition Contains (s substr : string) : bool := 0 <=? Index s substr.

(** ** UTF-8: the width of the first encoded rune
    (utf8.DecodeRuneInString; an invalid or short sequence has width 1) *)

Definition is_cont (lo hi : Z) (c : ascii) : bool :=
  (lo <=? byte_val c) && (byte_val c <=? hi).

Definition rune_size (s : string) : nat :=
  match s with
  | "" => 0%nat
  | String c0 rest =>
      let b0 := byte_val c0 in
      if b0 <? 0x80 then 1%nat
      else if b0 <? 0xC2 then 1%nat
      else if b0 <? 0xE0 then
        match rest with
        | String c1 _ => if is_cont 0x80 0xBF c1 then 2%nat else 1%nat
        | _ => 1%nat
        end
      else if b0 <? 0xF0 then
        let lo := if b0 =? 0xE0 then 0xA0 else 0x80 in
        let hi := if b0 =? 0xED then 0x9F else 0xBF in
        match rest with
        | String c1 (String c2 _) =>
            if is_cont lo hi c1 && is_cont 0x80 0xBF c2 then 3%nat else 1%nat
        | _ => 1%nat
        end
      else if b0 <? 0xF5 then
        let lo := if b0 =? 0xF0 then 0x90 else 0x80 in
        let hi := if b0 =? 0xF4 then 0x8F else 0xBF in
        match rest with
        | String c1 (String c2 (String c3 _)) =>
            if is_cont lo hi c1 && is_cont 0x80 0xBF c2 && is_cont 0x80 0xBF c3
            then 4%nat else 1%nat
        | _ => 1%nat
        end
      else 1%nat
  end.

(** strings.explode: one string per UTF-8 sequence, invalid bytes one by
    one.  Every step consumes at least one byte, so [length s] steps
    suffice. *)
Fixpoint explode_go (fuel : nat) (s : string) : list string :=
  match fuel, s with
  | S fuel', String _ _ =>
      let n := rune_size s in
      slice_to n s :: explode_go fuel' (slice_from n s)
  | _, _ => []
  end.

Definition explode (s : string) : list string :=
  explode_go (String.length s) s.

(** strings.Split for a non-empty separator: [skip] counts the bytes of a
    matched separator still to pass over, [cur] is the piece being read,
    reversed. *)
Fixpoint split_go (sep : string) (skip : nat) (cur : string) (s : string)
  : list string :=
  match s with
  | "" => [String.rev cur]
  | String c s' =>
      match skip with
      | S k => split_go sep k cur s'
      | O =>
          if HasPrefix s sep
          then String.rev cur :: split_go sep (String.length sep - 1) "" s'
          else split_go sep 0 (String c cur) s'
      end
  end.

Definition Split (s sep : string) : list string :=
  match sep with
  | "" => explode s
  | _ => split_go sep 0 "" s
  end.

(** strings.SplitN(s, sep, 2) for a non-empty separator. *)
Definition SplitN2 (s sep : string) : list string :=
  let i := Index s sep in
  if i <? 0 then [s]
  else [slice_to (Z.to_nat i) s;
        slice_from (Z.to_nat i + String.length sep) s].

(** strings.ReplaceAll. *)
Fixpoint replace_go (old new : string) (skip : nat) (s : string) : string :=
  match s with
  | "" => ""
  | String c s' =>
      match skip with
      | S k => replace_go old new k s'
      | O =>
          if HasPrefix s old
          then new +:+ replace_go old new (String.length old - 1) s'
          else String c (replace_go old new 0 s')
      end
  end.

Definition ReplaceAll (s old new : string) : string :=
  match old with
  | "" => new +:+ String.concat "" (map (fun r => r +:+ new) (explode s))
  | _ => replace_go old new 0 s
  end.

(** strings.Trim(s, cutset) for a cutset of one ASCII byte. *)
Fixpoint trim_left_byte (c : ascii) (s : string) : string :=
  match s with
  | String a s' => if Ascii.eqb a c then trim_left_byte c s' else s
  | "" => ""
  end.

Definition Trim1 (s : string) (c : ascii) : string :=
  String.rev (trim_left_byte c (String.rev (trim_left_byte c s))).

(** strconv.Atoi with the error dropped ([n, _ := strconv.Atoi(s)]).
    The digits are read left to right into a uint64: a byte that is not a
    digit ends the scan with a syntax error, a value that no longer fits
    ends it with a range error, whichever comes first.  A syntax error
    gives 0; otherwise the signed value is clamped to the int range. *)
Definition digit_val (c : ascii) : option Z :=
  let b := byte_val c in
  if (48 <=? b) && (b <=? 57) then Some (b - 48) else None.

Inductive Scanned : Type :=
| Value (n : Z)
| OutOfRange
| BadSyntax.

Definition maxUint64 : Z := 2 ^ 64 - 1.

Fixpoint ParseUint (n : Z) (s : string) : Scanned :=
  match s with
  | "" => Value n
  | String c s' =>
      match digit_val c with
      | None => BadSyntax
      | Some d =>
          if maxUint64 / 10 + 1 <=? n then OutOfRange
          else
            let n1 := n * 10 + d in
            if maxUint64 <? n1 then OutOfRange else ParseUint n1 s'
      end
  end.

Definition clamp_int (z : Z) : Z := Z.max minInt (Z.min maxInt z).

Definition Atoi (s : string) : Z :=
  let '(neg, body) :=
    match s with
    | String "-" s' => (true, s')
    | String "+" s' => (false, s')
    | _ => (false, s)
    end in
  match body with
  | "" => 0
  | _ => match ParseUint 0 body with
         | Value un => clamp_int (if neg then - un else un)
         | OutOfRange => if neg then minInt else maxInt
         | BadSyntax => 0
         end
  end.

(** The ASCII fast paths of strings.ToLower and strings.TrimSpace.  They
    are what Go computes on strings without bytes above 0x7F; on other
    strings Go consults the Unicode tables, so the embedded functions take
    [ToLower] and [TrimSpace] as arguments and these two instantiate them
    on ASCII inputs. *)
Definition lower_byte (c : ascii) : ascii :=
  let b := byte_val c in
  if (65 <=? b) && (b <=? 90) then ascii_of_N (Z.to_N (b + 32)) else c.

Fixpoint asciiToLower (s : string) : string :=
  match s with
  | "" => ""
  | String c s' => String (lower_byte c) (asciiToLower s')
  end.

Definition asciiSpace (c : ascii) : bool :=
  let b := byte_val c in
  (b =? 9) || (b =? 10) || (b =? 11) || (b =? 12) || (b =? 13) || (b =? 32).

Fixpoint trim_left_space (s : string) : string :=
  match s with
  | String a s' => if asciiSpace a then trim_left_space s' else s
  | "" => ""
  end.

Definition asciiTrimSpace (s : string) : string :=
  String.rev (trim_left_space (String.rev (trim_left_space s))).

Definition isASCII (s : string) : bool :=
  forallb (fun c => byte_val c <? 0x80) (list_ascii_of_string s).

(** fmt's %d verb: the decimal numeral, with a minus sign when negative. *)
Definition fmt_d (z : Z) : string := NilZero.string_of_int (Z.to_int z).

(** fmt's %.2f verb on a float64: the exact value rounded to hundredths,
    ties to the even neighbour; the sign is kept. *)
Definition roundHalfEven (n d : Z) : Z :=
  let q := n / d in
  let r := n mod d in
  if d <? 2 * r then q + 1
  else if (2 * r =? d) && Z.odd q then q + 1
  else q.

Definition twoDigits (n : Z) : string :=
  (if n <? 10 then "0" else "") +:+ fmt_d n.

Definition fmt_2f (f : float) : string :=
  match Prim2SF f with
  | S754_nan => "NaN"
  | S754_infinity s => if s then "-Inf" else "+Inf"
  | S754_zero s => (if s then "-" else "") +:+ "0.00"
  | S754_finite s m e =>
      let hundredths :=
        match e with
        | Zneg _ => roundHalfEven (Zpos m * 100) (2 ^ (- e))
        | _ => Zpos m * 100 * 2 ^ e
        end in
      (if s then "-" else "") +:+ fmt_d (hundredths / 100) +:+ "."
        +:+ twoDigits (hundredths mod 100)
  end.

(** ** time *)

(** An instant in nanoseconds since the Unix epoch; a Duration is an int
    count of nanoseconds and Time.Sub saturates. *)
Definition Time : Type := Z.
Definition Duration : Type := Z.

Definition zeroTime : Time := -62135596800 * 1000000000.
Definition Hour : Duration := 3600 * 1000000000.
Definition Sub (t u : Time) : Duration := clamp_int (t - u).
Definition Since (now t : Time) : Duration := Sub now t.

End Go.

Import Go.

(** * internal/sys/android.go: the identity resolver *)

Module Sys.

(** The three package-level maps of the resolver. *)
Record ResolverCache : Type := mkResolverCache {
  packageCache : gmap string string;
  activityCache : gmap string string;
  cacheExpiry : gmap string Time
}.

Definition cacheDuration : Duration := 24 * Hour.

(** [cacheExpiry[key]]: a missing key reads as the zero Time. *)
Definition expiryOf (c : ResolverCache) (key : string) : Time :=
  default zeroTime (cacheExpiry c !! key).

Definition MAIN : string := "android.intent.action.MAIN".
Definition LAUNCHER : string := "android.intent.category.LAUNCHER".

(** calculateMatchScore. *)
Definition charStep (pkgNoDots : string) (score : Z) (part : string) : Z :=
  if (2 <? len part) && Contains pkgNoDots part
  then int_add score 5 else score.

Definition calculateMatchScore (pkg search : string) : Z :=
  let pkgNoDots := ReplaceAll pkg "." "" in
  if String.eqb pkgNoDots search then 100
  else
    let score := 0 in
    let score := if Contains pkgNoDots search then int_add score 50 else score in
    let score := if Contains search pkgNoDots then int_add score 30 else score in
    let searchParts := Split search "" in
    let score := fold_left (charStep pkgNoDots) searchParts score in
    int_sub score (int_quo (len pkg) 10).

Section WithUnicode.

Variable ToLower : string -> string.
Variable TrimSpace : string -> string.

Definition normalizeName (appName : string) : string :=
  let searchName := ToLower appName in
  let searchName := ReplaceAll searchName " " "" in
  ReplaceAll searchName "-" "".

(** One iteration of the loop over the lines of [pm list packages]. *)
Definition scanLine (searchName : string) (best : string * Z) (line : string)
  : string * Z :=
  let '(bestMatch, bestScore) := best in
  let line := TrimSpace line in
  let line := TrimPrefix line "package:" in
  if String.eqb line "" then best
  else
    let pkgLower := ToLower line in
    let score := calculateMatchScore pkgLower searchName in
    if bestScore <? score then (line, score) else best.

(** AutoDetectPackage.  [now] is the clock when the cache is consulted,
    [pm] the output of [pm list packages] ([Err] when the command fails)
    and [stored] the clock when the result is cached. *)
Definition AutoDetectPackage (c : ResolverCache) (now : Time)
    (pm : Result string) (stored : Time) (appName : string)
  : Result string * ResolverCache :=
  let fresh :=
    match packageCache c !! appName with
    | Some cached =>
        if Since now (expiryOf c appName) <? cacheDuration
        then Some cached else None
    | None => None
    end in
  match fresh with
  | Some cached => (Ok cached, c)
  | None =>
      match pm with
      | Err e => (Err ("failed to list packages: " +:+ e), c)
      | Ok output =>
          let searchName := normalizeName appName in
          let lines := Split output (String "010" "") in
          let '(bestMatch, bestScore) :=
            fold_left (scanLine searchName) lines ("", 0) in
          if String.eqb bestMatch "" || (bestScore <? 2)
          then (Err ("no matching package found for '" +:+ appName +:+ "'"), c)
          else
            (Ok bestMatch,
             {| packageCache := <[appName := bestMatch]> (packageCache c);
                activityCache := activityCache c;
                cacheExpiry := <[appName := stored]> (cacheExpiry c) |})
      end
  end.

(** parseMainActivity: the scanner state is (inMainFilter, currentActivity);
    a step either returns the activity found or carries the state on. *)
Definition activityName (line pkg : string) : string :=
  let idx := Index line pkg in
  if idx <? 0 then ""
  else
    let rest := slice_from (Z.to_nat idx) line in
    let spaceIdx := Index rest " " in
    let rest := if spaceIdx <? 0 then rest
                else slice_to (Z.to_nat spaceIdx) rest in
    if Contains rest "/" then
      match Split rest "/" with
      | [p0; p1] => if HasPrefix p1 "." then p0 +:+ p1 else p1
      | _ => ""
      end
    else "".

Definition scanActivityLine (pkg : string) (st : bool * string) (line : string)
  : string + bool * string :=
  let '(inMainFilter, currentActivity) := st in
  let line := TrimSpace line in
  let at_decl :=
    if HasPrefix line "Activity #" then
      if inMainFilter && negb (String.eqb currentActivity "")
      then inl currentActivity
      else inr (false, activityName line pkg)
    else inr st in
  match at_decl with
  | inl found => inl found
  | inr (inMainFilter, currentActivity) =>
      let inMainFilter :=
        if Contains line MAIN then true else inMainFilter in
      if Contains line LAUNCHER && inMainFilter
           && negb (String.eqb currentActivity "")
      then inl currentActivity
      else inr (inMainFilter, currentActivity)
  end.

Fixpoint scanActivities (pkg : string) (st : bool * string)
    (lines : list string) : string :=
  match lines with
  | [] =>
      let '(inMainFilter, currentActivity) := st in
      if inMainFilter && negb (String.eqb currentActivity "")
      then currentActivity else ""
  | line :: rest =>
      match scanActivityLine pkg st line with
      | inl found => found
      | inr st' => scanActivities pkg st' rest
      end
  end.

Definition parseMainActivity (output pkg : string) : string :=
  scanActivities pkg (false, "") (Split output (String "010" "")).

(** AutoDetectActivity; [dump] is the output of [pm dump pkg]. *)
Definition AutoDetectActivity (c : ResolverCache) (now : Time)
    (dump : Result string) (stored : Time) (pkg : string)
  : Result string * ResolverCache :=
  let cacheKey := pkg in
  let fresh :=
    match activityCache c !! cacheKey with
    | Some cached =>
        if Since now (expiryOf c (cacheKey +:+ "_act")) <? cacheDuration
        then Some cached else None
    | None => None
    end in
  match fresh with
  | Some cached => (Ok cached, c)
  | None =>
      match dump with
      | Err e => (Err ("pm dump failed: " +:+ e), c)
      | Ok output =>
          let activity := parseMainActivity output pkg in
          if String.eqb activity ""
          then (Err ("no main activity found for package " +:+ pkg), c)
          else
            (Ok activity,
             {| packageCache := packageCache c;
                activityCache := <[cacheKey := activity]> (activityCache c);
                cacheExpiry :=
                  <[cacheKey +:+ "_act" := stored]> (cacheExpiry c) |})
      end
  end.

(** GetAppInfo: the package, the activity and the error ([None] is nil).
    [pm_dump] gives the output of [pm dump] for a package; the clocks are
    those of the two detections in turn. *)
Definition GetAppInfo (c : ResolverCache) (now1 : Time) (pm : Result string)
    (stored1 now2 : Time) (pm_dump : string -> Result string) (stored2 : Time)
    (appName : string)
  : string * string * option string * ResolverCache :=
  match AutoDetectPackage c now1 pm stored1 appName with
  | (Err e, c1) => ("", "", Some ("package detection failed: " +:+ e), c1)
  | (Ok pkg, c1) =>
      match AutoDetectActivity c1 now2 (pm_dump pkg) stored2 pkg with
      | (Err e, c2) =>
          (pkg, "", Some ("activity detection failed: " +:+ e), c2)
      | (Ok activity, c2) => (pkg, activity, None, c2)
      end
  end.

End WithUnicode.

(** GetCachedAppInfo; [now1] and [now2] are the clocks of its two
    freshness checks. *)
Definition GetCachedAppInfo (c : ResolverCache) (now1 now2 : Time)
    (appName : string) : string * string * bool :=
  match packageCache c !! appName with
  | None => ("", "", false)
  | Some pkg =>
      if cacheDuration <=? Since now1 (expiryOf c appName)
      then ("", "", false)
      else
        match activityCache c !! pkg with
        | None => (pkg, "", false)
        | Some activity =>
            if cacheDuration <=? Since now2 (expiryOf c (pkg +:+ "_act"))
            then (pkg, "", false)
            else (pkg, activity, true)
        end
  end.

Definition ClearAppInfoCache : ResolverCache :=
  {| packageCache := ∅; activityCache := ∅; cacheExpiry := ∅ |}.

End Sys.

(** * internal/graphics: icon extraction, hint cache, scaling, encoding *)

Module Graphics.

(** ** The file system, as far as the caches see it *)

Record FileEntry : Type := mkFileEntry {
  data : string;
  modTime : Time;
  readable : bool
}.

(** [dirs] holds the directories that exist, [protected] the paths that
    cannot be created or written even where their directory exists or is
    made. *)
Record FS : Type := mkFS {
  entries : gmap string FileEntry;
  protected : gset string;
  dirs : gset string
}.

Definition Stat (fs : FS) (path : string) : option FileEntry :=
  entries fs !! path.

Definition ReadFile (fs : FS) (path : string) : Result string :=
  match entries fs !! path with
  | Some e => if readable e then Ok (data e) else Err "permission denied"
  | None => Err "no such file or directory"
  end.

(** An entry of a zip archive: its name, its declared uncompressed size
    and what opening it yields. *)
Record ZipFile : Type := mkZipFile {
  Name : string;
  UncompressedSize64 : Z;
  Open : Result string
}.

(** The processes the extraction starts and the archives it opens. *)
Record Tools : Type := mkTools {
  rish_pm_dump : string -> Result string;
  aapt2_dump_badging : string -> Result string;
  zip_OpenReader : string -> Result (list ZipFile)
}.

(** Cache TTL for the icon path cache (7 days). *)
Definition iconPathCacheTTL : Duration := 7 * 24 * Hour.

(** extractResolution ranges over a map literal; [densityRange] is the
    order in which the range visits it. *)
Definition densityMap : list (string * Z) :=
  [("ldpi", 120); ("mdpi", 160); ("hdpi", 240); ("xhdpi", 320);
   ("xxhdpi", 480); ("xxxhdpi", 640); ("anydpi", 0)].

Fixpoint extractResolution_go (range : list (string * Z)) (path : string) : Z :=
  match range with
  | [] => 0
  | (name, dpi) :: rest =>
      if Contains path ("-" +:+ name) then dpi
      else extractResolution_go rest path
  end.

(** getIconPathFromAAPT2, after the aapt2 call: the scan of the
    "application:" lines, then the scan of the "application-icon-" lines. *)
Definition applicationIcon (line : string) : option string :=
  if negb (HasPrefix line "application:") then None
  else
    let idx := Index line "icon='" in
    if idx <? 0 then None
    else
      let start := (Z.to_nat idx + 6)%nat in
      let tail := slice_from start line in
      let e := Index tail "'" in
      if e <? 0 then None
      else
        let iconPath := slice_to (Z.to_nat e) tail in
        if HasSuffix iconPath ".xml"
        then Some (TrimSuffix iconPath ".xml" +:+ ".png")
        else if HasSuffix iconPath ".png" then Some iconPath
        else None.

Fixpoint firstApplicationIcon (lines : list string) : option string :=
  match lines with
  | [] => None
  | line :: rest =>
      match applicationIcon line with
      | Some p => Some p
      | None => firstApplicationIcon rest
      end
  end.

(** One step of the fallback loop; the state is
    (highestResIcon, highestRes). *)
Definition densityStep (st : string * Z) (line : string) : string * Z :=
  let '(highestResIcon, highestRes) := st in
  if negb (HasPrefix line "application-icon-") then st
  else
    match SplitN2 line ":" with
    | [p0; p1] =>
        let resPart := TrimPrefix p0 "application-icon-" in
        let res := Atoi resPart in
        let path := Trim1 p1 "'" in
        if HasSuffix path ".png" then
          if highestRes <? res then (path, res) else st
        else if HasSuffix path ".xml" && String.eqb highestResIcon "" then
          (TrimSuffix path ".xml" +:+ ".png", res)
        else st
    | _ => st
    end.

Definition parseBadging (output : string) : Result string :=
  let lines := Split output (String "010" "") in
  match firstApplicationIcon lines with
  | Some p => Ok p
  | None =>
      let '(highestResIcon, _) := fold_left densityStep lines ("", 0) in
      if String.eqb highestResIcon "" then Err "no icon found via aapt2"
      else Ok highestResIcon
  end.

Definition getIconPathFromAAPT2 (tools : Tools) (apkPath : string)
  : Result string :=
  match aapt2_dump_badging tools apkPath with
  | Err e => Err ("aapt2 failed: " +:+ e)
  | Ok output => parseBadging output
  end.

Section WithPlatform.

(** What the platform and the Go library decide: the home directory,
    path/filepath.Join and Dir, strings.TrimSpace beyond ASCII, the order of a
    range over the density map and over the archive index, and the image
    libraries. *)
Variable home : string.
Variable Join : list string -> string.
Variable Dir : string -> string.
Variable TrimSpace : string -> string.
Variable densityRange : list (string * Z).
Variable rangeFiles : gmap string ZipFile -> list (string * ZipFile).
Variable Pixels : Type.

(** An image: the extent of its bounds and its pixels. *)
Record Image : Type := mkImage {
  Dx : Z;
  Dy : Z;
  pixels : Pixels
}.

(** image.Decode, the CatmullRom kernel of golang.org/x/image/draw and
    the go-sixel encoder. *)
Variable image_Decode : string -> Result Image.
Variable CatmullRom_Scale : Image -> Z -> Z -> Pixels.
Variable sixel_Encode : Image -> Result string.

Definition extractResolution (path : string) : Z :=
  extractResolution_go densityRange path.

(** ** The two disk caches *)

(** A directory with the directories above it, up to the one that is
    its own parent. *)
Fixpoint withParents (n : nat) (dir : string) : list string :=
  match n with
  | O => [dir]
  | S n' =>
      if String.eqb (Dir dir) dir then [dir]
      else dir :: withParents n' (Dir dir)
  end.

(** os.MkdirAll(dir, 0755), whose error both callers drop.  It is taken
    to make the directory: a file whose directory cannot be made is
    among the [protected] paths, so that the write after it fails. *)
Definition MkdirAll (fs : FS) (dir : string) : FS :=
  {| entries := entries fs;
     protected := protected fs;
     dirs := dirs fs ∪ list_to_set (withParents (String.length dir) dir) |}.

(** os.WriteFile(path, data, 0644) at clock [t]. *)
Definition WriteFile (fs : FS) (t : Time) (path content : string)
  : Result FS :=
  if decide (Dir path ∈ dirs fs) then
    if decide (path ∈ protected fs) then Err "permission denied"
    else Ok {| entries :=
                 <[path := {| data := content; modTime := t;
                              readable := true |}]> (entries fs);
               protected := protected fs;
               dirs := dirs fs |}
  else Err "no such file or directory".

Definition getCachedIconPath (pkg : string) : string :=
  Join [home; ".config"; "tooie-shelf"; "icons"; pkg +:+ ".png"].

Definition getIconPathCachePath (pkg : string) : string :=
  Join [home; ".config"; "tooie-shelf"; "icon-paths"; pkg +:+ ".txt"].

(** getCachedIconPathWithTTL, read at clock [now]. *)
Definition getCachedIconPathWithTTL (fs : FS) (now : Time) (pkg : string)
  : string :=
  let cachePath := getIconPathCachePath pkg in
  match Stat fs cachePath with
  | None => ""
  | Some info =>
      if iconPathCacheTTL <? Since now (modTime info) then ""
      else
        match ReadFile fs cachePath with
        | Err _ => ""
        | Ok content => TrimSpace content
        end
  end.

(** saveIconPathCache, written at clock [t]; when the write fails no
    file has changed. *)
Definition saveIconPathCache (fs : FS) (t : Time) (pkg iconPath : string)
  : Result unit * FS :=
  let cachePath := getIconPathCachePath pkg in
  let made := MkdirAll fs (Dir cachePath) in
  match WriteFile made t cachePath iconPath with
  | Ok fs' => (Ok tt, fs')
  | Err e => (Err e, made)
  end.

(** parseIconFromPMDump; the state is (bestIcon, highestRes). *)
Definition pmDumpStep (st : string * Z) (line : string) : string * Z :=
  let '(bestIcon, highestRes) := st in
  let line := TrimSpace line in
  if negb (Contains line "icon=") then st
  else
    match Split line "icon=" with
    | _ :: p1 :: _ =>
        let iconPart := TrimSpace p1 in
        let idx := Index iconPart " " in
        let iconPart :=
          if idx <? 0 then iconPart else slice_to (Z.to_nat idx) iconPart in
        if HasSuffix iconPart ".png" then
          let res := extractResolution iconPart in
          if highestRes <? res then (iconPart, res) else st
        else if HasSuffix iconPart ".xml" && String.eqb bestIcon "" then
          (TrimSuffix iconPart ".xml" +:+ ".png", highestRes)
        else st
    | _ => st
    end.

Definition parseIconFromPMDump (output : string) : string :=
  fst (fold_left pmDumpStep (Split output (String "010" "")) ("", 0)).

(** getIconPathViaADB: the hint cache is read at [now]; a fresh answer is
    saved at [saved]. *)
Definition getIconPathViaADB (tools : Tools) (fs : FS) (now saved : Time)
    (pkg : string) : Result string * FS :=
  let cached := getCachedIconPathWithTTL fs now pkg in
  if negb (String.eqb cached "") then (Ok cached, fs)
  else
    let rishPath := Join [home; ".rish"; "rish"] in
    match Stat fs rishPath with
    | None => (Err ("rish not found at " +:+ rishPath), fs)
    | Some _ =>
        match rish_pm_dump tools pkg with
        | Err e => (Err ("rish pm dump failed: " +:+ e), fs)
        | Ok output =>
            let iconPath := parseIconFromPMDump output in
            if String.eqb iconPath ""
            then (Err "no icon found in pm dump output", fs)
            else (Ok iconPath, snd (saveIconPathCache fs saved pkg iconPath))
        end
    end.

(** ** extractIconFromAPK *)

Definition mipmapPatterns : list string :=
  ["res/mipmap-xxxhdpi-v4/ic_launcher.webp";
   "res/mipmap-xxxhdpi/ic_launcher.webp";
   "res/mipmap-xxhdpi-v4/ic_launcher.webp";
   "res/mipmap-xxhdpi/ic_launcher.webp";
   "res/mipmap-xhdpi-v4/ic_launcher.webp";
   "res/mipmap-xhdpi/ic_launcher.webp";
   "res/mipmap-hdpi-v4/ic_launcher.webp";
   "res/mipmap-hdpi/ic_launcher.webp";
   "res/mipmap-mdpi-v4/ic_launcher.webp";
   "res/mipmap-mdpi/ic_launcher.webp";
   "res/mipmap/ic_launcher.webp";
   "res/mipmap-xxxhdpi-v4/ic_launcher.png";
   "res/mipmap-xxxhdpi/ic_launcher.png";
   "res/mipmap-xxhdpi-v4/ic_launcher.png";
   "res/mipmap-xxhdpi/ic_launcher.png";
   "res/mipmap-xhdpi-v4/ic_launcher.png";
   "res/mipmap-xhdpi/ic_launcher.png";
   "res/mipmap-hdpi-v4/ic_launcher.png";
   "res/mipmap-hdpi/ic_launcher.png";
   "res/mipmap-mdpi-v4/ic_launcher.png";
   "res/mipmap-mdpi/ic_launcher.png";
   "res/mipmap/ic_launcher.png";
   "res/mipmap-xxxhdpi-v4/app_icon.webp";
   "res/mipmap-xxxhdpi/app_icon.webp";
   "res/mipmap-xxhdpi-v4/app_icon.webp";
   "res/mipmap-xxhdpi/app_icon.webp";
   "res/mipmap-xhdpi-v4/app_icon.webp";
   "res/mipmap-xhdpi/app_icon.webp";
   "res/mipmap-hdpi-v4/app_icon.webp";
   "res/mipmap-hdpi/app_icon.webp";
   "res/mipmap-mdpi-v4/app_icon.webp";
   "res/mipmap-mdpi/app_icon.webp";
   "res/mipmap/app_icon.webp";
   "res/mipmap-xxxhdpi-v4/app_icon.png";
   "res/mipmap-xxxhdpi/app_icon.png";
   "res/mipmap-xxhdpi-v4/app_icon.png";
   "res/mipmap-xxhdpi/app_icon.png";
   "res/mipmap-xhdpi-v4/app_icon.png";
   "res/mipmap-xhdpi/app_icon.png";
   "res/mipmap-hdpi-v4/app_icon.png";
   "res/mipmap-hdpi/app_icon.png";
   "res/mipmap-mdpi-v4/app_icon.png";
   "res/mipmap-mdpi/app_icon.png";
   "res/mipmap/app_icon.png"].

Definition drawablePatterns : list string :=
  ["res/drawable-xxxhdpi-v4/ic_launcher.png";
   "res/drawable-xxxhdpi/ic_launcher.png";
   "res/drawable-xxhdpi-v4/ic_launcher.png";
   "res/drawable-xxhdpi/ic_launcher.png";
   "res/drawable-xhdpi-v4/ic_launcher.png";
   "res/drawable-xhdpi/ic_launcher.png";
   "res/drawable-hdpi-v4/ic_launcher.png";
   "res/drawable-hdpi/ic_launcher.png";
   "res/drawable-mdpi-v4/ic_launcher.png";
   "res/drawable-mdpi/ic_launcher.png";
   "res/drawable/ic_launcher.png";
   "res/drawable-xxxhdpi-v4/ic_launcher.webp";
   "res/drawable-xxxhdpi/ic_launcher.webp";
   "res/drawable-xxhdpi-v4/ic_launcher.webp";
   "res/drawable-xxhdpi/ic_launcher.webp";
   "res/drawable-xhdpi-v4/ic_launcher.webp";
   "res/drawable-xhdpi/ic_launcher.webp";
   "res/drawable-hdpi-v4/ic_launcher.webp";
   "res/drawable-hdpi/ic_launcher.webp";
   "res/drawable-mdpi-v4/ic_launcher.webp";
   "res/drawable-mdpi/ic_launcher.webp";
   "res/drawable/ic_launcher.webp"].

(** Build the index of the archive: a later entry of the same name
    replaces an earlier one. *)
Definition buildFileMap (files : list ZipFile) : gmap string ZipFile :=
  fold_left (fun m f => <[Name f := f]> m) files ∅.

(** [f.Open()] followed by [image.Decode]. *)
Definition openAndDecode (f : ZipFile) : option Image :=
  match Open f with
  | Ok bytes =>
      match image_Decode bytes with
      | Ok img => Some img
      | Err _ => None
      end
  | Err _ => None
  end.

(** Priorities 1 and 4: the first listed path that is in the archive and
    decodes. *)
Fixpoint lookupPatterns (fileMap : gmap string ZipFile)
    (patterns : list string) : option (Image * string) :=
  match patterns with
  | [] => None
  | pattern :: rest =>
      match fileMap !! pattern with
      | Some f =>
          match openAndDecode f with
          | Some img => Some (img, pattern)
          | None => lookupPatterns fileMap rest
          end
      | None => lookupPatterns fileMap rest
      end
  end.

Definition decodeAt (fileMap : gmap string ZipFile) (path : string)
  : option (Image * string) :=
  match fileMap !! path with
  | Some f =>
      match openAndDecode f with
      | Some img => Some (img, path)
      | None => None
      end
  | None => None
  end.

(** Priorities 2 and 3 once a path was obtained: the path itself, then
    the .png beside a .xml path. *)
Definition lookupIconPath (fileMap : gmap string ZipFile) (iconPath : string)
  : option (Image * string) :=
  match decodeAt fileMap iconPath with
  | Some r => Some r
  | None =>
      if HasSuffix iconPath ".xml"
      then decodeAt fileMap (TrimSuffix iconPath ".xml" +:+ ".png")
      else None
  end.

Definition fromTool (fileMap : gmap string ZipFile) (answer : Result string)
  : option (Image * string) :=
  match answer with
  | Ok iconPath =>
      if String.eqb iconPath "" then None else lookupIconPath fileMap iconPath
  | Err _ => None
  end.

(** Priority 5: the largest mipmap image, in the order of the range. *)
Definition isMipmapImage (name : string) : bool :=
  Contains name "mipmap" && (HasSuffix name ".png" || HasSuffix name ".webp").

Definition largestStep (st : option (string * ZipFile) * Z)
    (kv : string * ZipFile) : option (string * ZipFile) * Z :=
  let '(largestMipmap, largestMipmapSize) := st in
  let '(name, f) := kv in
  if isMipmapImage name && (largestMipmapSize <? UncompressedSize64 f)
  then (Some (name, f), UncompressedSize64 f)
  else st.

Definition largestMipmap (fileMap : gmap string ZipFile)
  : option (Image * string) :=
  match fst (fold_left largestStep (rangeFiles fileMap) (None, 0)) with
  | Some (name, f) =>
      match openAndDecode f with
      | Some img => Some (img, name)
      | None => None
      end
  | None => None
  end.

(** The five priorities in the order the function tries them; each is
    evaluated only when those before it found nothing.  The second one
    also carries the file system on, since a fresh introspection answer
    is saved to the hint cache.  The function returns the image and the
    path it was decoded from; [strategy] records in addition which of
    the five blocks returned. *)
Inductive Strategy : Type :=
| DirectMipmap
| ViaADB
| ViaAAPT2
| DrawableFallback
| LargestMipmap.

Record Extracted : Type := mkExtracted {
  icon : Image;
  iconSource : string;
  strategy : Strategy
}.

Definition found (s : Strategy) (r : Image * string) : Extracted :=
  {| icon := fst r; iconSource := snd r; strategy := s |}.

Definition extractIconFromAPK (tools : Tools) (fs : FS) (now saved : Time)
    (apkPath pkg : string) : Result Extracted * FS :=
  match zip_OpenReader tools apkPath with
  | Err e => (Err ("failed to open APK: " +:+ e), fs)
  | Ok files =>
      let fileMap := buildFileMap files in
      match lookupPatterns fileMap mipmapPatterns with
      | Some r => (Ok (found DirectMipmap r), fs)
      | None =>
          let '(adb, fs) :=
            if negb (String.eqb pkg "")
            then getIconPathViaADB tools fs now saved pkg
            else (Err "", fs) in
          match fromTool fileMap adb with
          | Some r => (Ok (found ViaADB r), fs)
          | None =>
              match fromTool fileMap (getIconPathFromAAPT2 tools apkPath) with
              | Some r => (Ok (found ViaAAPT2 r), fs)
              | None =>
                  match lookupPatterns fileMap drawablePatterns with
                  | Some r => (Ok (found DrawableFallback r), fs)
                  | None =>
                      let last :=
                        if negb (Contains apkPath "split_config.")
                        then largestMipmap fileMap else None in
                      match last with
                      | Some r => (Ok (found LargestMipmap r), fs)
                      | None => (Err "no icon found in APK", fs)
                      end
                  end
              end
          end
      end
  end.


(** ** Scaling (float64 is the kernel's binary64) *)

(** [float64(n)] for an int [n]. *)
Definition float64_of_int (z : Z) : float :=
  let mag (m : Z) : float :=
    if m <? 2 ^ 63 then PrimFloat.of_uint63 (Uint63.of_Z m)
    else 0x1p+63%float in
  match z with
  | Z0 => 0%float
  | Zpos _ => mag z
  | Zneg _ => PrimFloat.opp (mag (- z))
  end.

(** [int(f)] for a float64 [f]: truncation toward zero.  Go leaves the
    result open when the value does not fit; arm64, the platform of the
    program, saturates and sends NaN to 0. *)
Definition int_of_float64 (f : float) : Z :=
  match Prim2SF f with
  | S754_zero _ => 0
  | S754_nan => 0
  | S754_infinity s => if s then minInt else maxInt
  | S754_finite s m e =>
      let mag := match e with
                 | Z0 => Zpos m
                 | Zpos _ => Z.shiftl (Zpos m) e
                 | Zneg _ => Z.shiftr (Zpos m) (- e)
                 end in
      clamp_int (if s then - mag else mag)
  end.

(** image.NewRGBA(image.Rect(0, 0, w, h)) panics when [mul3NonNeg 4 w h],
    the length of its pixel buffer, is negative.  [mul3NonNeg] is the
    image package's own: -1 when an argument is negative or the product
    does not fit an int. *)
Definition mul3NonNeg (x y z : Z) : Z :=
  if (x <? 0) || (y <? 0) || (z <? 0) then -1
  else if 2 ^ 64 <=? x * y then -1
  else if 2 ^ 64 <=? x * y * z then -1
  else
    let a := wrap (x * y * z) in
    if a <? 0 then -1 else a.

Definition NewRGBA (w h : Z) : option (Z * Z) :=
  if mul3NonNeg 4 w h <? 0 then None else Some (w, h).

(** ScaleImage; [None] is the panic of NewRGBA. *)
Definition ScaleImage (src : Image) (targetW targetH : Z) : option Image :=
  if (targetW <=? 0) || (targetH <=? 0) then Some src
  else
    match NewRGBA targetW targetH with
    | None => None
    | Some (w, h) =>
        Some {| Dx := w; Dy := h;
                pixels := CatmullRom_Scale src targetW targetH |}
    end.

(** The target size ScaleImageAspectFit computes for positive bounds. *)
Definition fitScale (srcW srcH maxW maxH : Z) : float :=
  let scaleW := PrimFloat.div (float64_of_int maxW) (float64_of_int srcW) in
  let scaleH := PrimFloat.div (float64_of_int maxH) (float64_of_int srcH) in
  if PrimFloat.ltb scaleH scaleW then scaleH else scaleW.

Definition atLeastOne (n : Z) : Z := if n <=? 0 then 1 else n.

Definition fitSize (srcW srcH maxW maxH : Z) : Z * Z :=
  let scale := fitScale srcW srcH maxW maxH in
  let targetW := int_of_float64 (PrimFloat.mul (float64_of_int srcW) scale) in
  let targetH := int_of_float64 (PrimFloat.mul (float64_of_int srcH) scale) in
  (atLeastOne targetW, atLeastOne targetH).

(** ScaleImageAspectFit. *)
Definition ScaleImageAspectFit (src : Image) (maxW maxH : Z) : option Image :=
  if (maxW <=? 0) || (maxH <=? 0) then Some src
  else
    let '(targetW, targetH) := fitSize (Dx src) (Dy src) maxW maxH in
    ScaleImage src targetW targetH.

(** ** internal/graphics/sixel.go *)

(** What [sys.CellDim] carries: the pixel size of one terminal cell. *)
Record CellDim : Type := mkCellDim {
  Width : Z;
  Height : Z
}.

Record SixelResult : Type := mkSixelResult {
  Sixel : string;
  PixelWidth : Z;
  PixelHeight : Z
}.

Definition noSixel : SixelResult :=
  {| Sixel := ""; PixelWidth := 0; PixelHeight := 0 |}.

(** RenderSixelWithDimensions; the second component lists the images
    handed to the encoder, in order.  [None] is the panic of the
    scaling. *)
Definition RenderSixelWithDimensions (src : Image) (widthCells heightCells : Z)
    (cellPx : CellDim) : option (SixelResult * list Image) :=
  let targetW := int_mul widthCells (Width cellPx) in
  let targetH := int_mul heightCells (Height cellPx) in
  if (targetW <=? 0) || (targetH <=? 0) then Some (noSixel, [])
  else
    match ScaleImageAspectFit src targetW targetH with
    | None => None
    | Some scaled =>
        match sixel_Encode scaled with
        | Err _ => Some (noSixel, [scaled])
        | Ok s =>
            Some ({| Sixel := s; PixelWidth := Dx scaled;
                     PixelHeight := Dy scaled |}, [scaled])
        end
    end.


(** ** The decoded-icon cache and the extraction over all archives *)

(** png.Encode, and image/draw's Draw of a source into a rectangle
    (x, y, width, height) of a destination. *)
Variable png_Encode : Image -> Result string.
Variable draw_Over : Pixels -> Z * Z * Z * Z -> Image -> Pixels.
Variable transparent : Z -> Pixels.

(** getAPKPaths; [pm_path] gives the output of [pm path] for a package. *)
Definition addPath (paths : list string) (line : string) : list string :=
  let line := TrimSpace line in
  let line := TrimPrefix line "package:" in
  if negb (String.eqb line "") then paths ++ [line] else paths.

Definition getAPKPaths (pm_path : string -> Result string) (pkg : string)
  : Result (list string) :=
  match pm_path pkg with
  | Err e => Err ("pm path failed: " +:+ e)
  | Ok output =>
      let paths := fold_left addPath (Split output (String "010" "")) [] in
      match paths with
      | [] => Err ("could not find APK for package " +:+ pkg)
      | _ => Ok paths
      end
  end.

(** LoadImage: os.Open, then image.Decode. *)
Definition LoadImage (fs : FS) (path : string) : Result Image :=
  match ReadFile fs path with
  | Err e => Err e
  | Ok bytes => image_Decode bytes
  end.

(** SaveImage at clock [t]: os.Create, then png.Encode into the file.
    The encoder checks the image before it writes, so a refused image
    leaves the created file empty. *)
Definition SaveImage (fs : FS) (t : Time) (img : Image) (path : string)
  : Result unit * FS :=
  match WriteFile fs t path "" with
  | Err e => (Err e, fs)
  | Ok created =>
      match png_Encode img with
      | Err e => (Err e, created)
      | Ok bytes =>
          match WriteFile created t path bytes with
          | Ok fs' => (Ok tt, fs')
          | Err e => (Err e, created)
          end
      end
  end.

(** The loop of ExtractAPKIcon over the archives; [clock i] holds the two
    clocks of the extraction from the archive at position [i], and
    [lastErr] the error of the archive before. *)
Fixpoint tryArchives (tools : Tools) (fs : FS) (clock : nat -> Time * Time)
    (i : nat) (apkPaths : list string) (pkg : string) (lastErr : string)
  : Result Extracted * FS :=
  match apkPaths with
  | [] => (Err lastErr, fs)
  | apkPath :: rest =>
      match extractIconFromAPK tools fs (fst (clock i)) (snd (clock i))
              apkPath pkg with
      | (Ok e, fs') => (Ok e, fs')
      | (Err err, fs') => tryArchives tools fs' clock (S i) rest pkg err
      end
  end.

(** ExtractAPKIcon; the icon is saved to the cache at clock [written]. *)
Definition ExtractAPKIcon (tools : Tools) (pm_path : string -> Result string)
    (fs : FS) (clock : nat -> Time * Time) (written : Time) (pkg : string)
  : Result Image * FS :=
  if String.eqb pkg "" then (Err "empty package name", fs)
  else
    let cachePath := getCachedIconPath pkg in
    match LoadImage fs cachePath with
    | Ok cached => (Ok cached, fs)
    | Err _ =>
        match getAPKPaths pm_path pkg with
        | Err e => (Err e, fs)
        | Ok apkPaths =>
            match tryArchives tools fs clock 0 apkPaths pkg "" with
            | (Err lastErr, fs') =>
                (Err ("could not extract icon from any APK: " +:+ lastErr), fs')
            | (Ok e, fs') =>
                let made := MkdirAll fs' (Dir cachePath) in
                (Ok (icon e), snd (SaveImage made written (icon e) cachePath))
            end
        end
    end.

(** StandardizeImage: where the scaled source is pasted, as
    (x, y, width, height), and the square it is pasted into. *)
Definition squareSize (size : Z) : Z := if size <=? 0 then 256 else size.

Definition pasteRect (src : Image) (size : Z) : Z * Z * Z * Z :=
  let size := squareSize size in
  let '(scaledW, scaledH) := fitSize (Dx src) (Dy src) size size in
  let offsetX := int_quo (int_sub size scaledW) 2 in
  let offsetY := int_quo (int_sub size scaledH) 2 in
  (offsetX, offsetY, scaledW, scaledH).

Definition StandardizeImage (src : Image) (size : Z) : option Image :=
  let '(offsetX, offsetY, scaledW, scaledH) := pasteRect src size in
  let size := squareSize size in
  match NewRGBA size size with
  | None => None
  | Some (w, h) =>
      match ScaleImage src scaledW scaledH with
      | None => None
      | Some scaled =>
          Some {| Dx := w; Dy := h;
                  pixels := draw_Over (transparent size)
                              (offsetX, offsetY, scaledW, scaledH) scaled |}
      end
  end.

End WithPlatform.

End Graphics.

(** * internal/config/config.go *)

Module Config.

Record BehaviorConfig : Type := mkBehaviorConfig {
  CloseOnLaunch : bool
}.

Record GridConfig : Type := mkGridConfig {
  Rows : Z;
  Columns : Z
}.

Record StyleConfig : Type := mkStyleConfig {
  Border : bool;
  Padding : Z;
  IconScale : float;
  BorderColor : string;
  HighlightColor : string
}.

(** The per-app scale is the field IconScale of AppConfig. *)
Record AppConfig : Type := mkAppConfig {
  Name : string;
  Icon : string;
  Package : string;
  Activity : string;
  Command : string;
  AppIconScale : float
}.

Record Config : Type := mkConfig {
  Display : list string;
  Grid : GridConfig;
  Style : StyleConfig;
  Behavior : BehaviorConfig;
  Apps : list AppConfig
}.

Definition IsCommand (a : AppConfig) : bool := negb (String.eqb (Command a) "").

(** The float64 nearest to 0.1. *)
Definition tenth : float := 0x1.999999999999ap-4%float.

Definition clampScale (s : float) : float :=
  if PrimFloat.ltb s tenth then tenth
  else if PrimFloat.ltb 1%float s then 1%float
  else s.

Definition GetIconScale (c : Config) (app : AppConfig) : float :=
  if PrimFloat.ltb 0%float (AppIconScale app) then clampScale (AppIconScale app)
  else if PrimFloat.ltb 0%float (IconScale (Style c))
       then clampScale (IconScale (Style c))
  else 1%float.

Definition GetBorderColor (c : Config) : string :=
  if String.eqb (BorderColor (Style c)) ""
     || String.eqb (BorderColor (Style c)) "default"
  then "240"
  else BorderColor (Style c).

Definition GetDisplayApps (c : Config) : list AppConfig :=
  match Display c with
  | [] => Apps c
  | names =>
      let appMap : gmap string AppConfig :=
        fold_left (fun m app => <[Name app := app]> m) (Apps c) ∅ in
      omap (fun name => appMap !! name) names
  end.


(** DefaultConfig. *)
Definition DefaultConfig : Config :=
  {| Display := [];
     Grid := {| Rows := 1; Columns := 5 |};
     Style := {| Border := true; Padding := 1; IconScale := 1;
                 BorderColor := "240"; HighlightColor := "96" |};
     Behavior := {| CloseOnLaunch := false |};
     Apps := [] |}.

(** ** The loader: Load, autoDetectAppInfo, expandPath, validate *)

Definition setIcon (app : AppConfig) (icon : string) : AppConfig :=
  {| Name := Name app; Icon := icon; Package := Package app;
     Activity := Activity app; Command := Command app;
     AppIconScale := AppIconScale app |}.

Definition setPackage (app : AppConfig) (pkg : string) : AppConfig :=
  {| Name := Name app; Icon := Icon app; Package := pkg;
     Activity := Activity app; Command := Command app;
     AppIconScale := AppIconScale app |}.

Definition setActivity (app : AppConfig) (activity : string) : AppConfig :=
  {| Name := Name app; Icon := Icon app; Package := Package app;
     Activity := activity; Command := Command app;
     AppIconScale := AppIconScale app |}.

Definition setApps (cfg : Config) (apps : list AppConfig) : Config :=
  {| Display := Display cfg; Grid := Grid cfg; Style := Style cfg;
     Behavior := Behavior cfg; Apps := apps |}.

(** What one auto-detection sees of the device: the clock at the two
    cache reads and at the two cache writes, the output of
    [pm list packages] and that of [pm dump] for a package. *)
Record Probe : Type := mkProbe {
  packagesRead : Time;
  packagesList : Result string;
  packagesStored : Time;
  activityRead : Time;
  activityDump : string -> Result string;
  activityStored : Time
}.

Section WithSystem.

Variable ToLower : string -> string.
Variable TrimSpace : string -> string.
Variable Join : list string -> string.
Variable UserHomeDir : Result string.

(** yaml.Unmarshal(data, &cfg): the configuration as the decoder leaves
    it and the error it reports. *)
Variable Unmarshal : string -> Config -> Config * option string.

(** autoDetectAppInfo.  The app is changed in place, so a package that
    was detected stays in it when the detection of the activity fails. *)
Definition autoDetectAppInfo (c : Sys.ResolverCache) (p : Probe)
    (app : AppConfig) : AppConfig * option string * Sys.ResolverCache :=
  if negb (String.eqb (Package app) "") && negb (String.eqb (Activity app) "")
  then (app, None, c)
  else if negb (String.eqb (Command app) "") then (app, None, c)
  else
    let detected : AppConfig * option string * Sys.ResolverCache :=
      if String.eqb (Package app) "" then
        match Sys.AutoDetectPackage ToLower TrimSpace c (packagesRead p)
                (packagesList p) (packagesStored p) (Name app) with
        | (Err e, c1) =>
            (app,
             Some ("could not auto-detect package for '" +:+ Name app
                   +:+ "': " +:+ e), c1)
        | (Ok pkg, c1) => (setPackage app pkg, None, c1)
        end
      else (app, None, c) in
    match detected with
    | (app1, Some e, c1) => (app1, Some e, c1)
    | (app1, None, c1) =>
        if String.eqb (Activity app1) "" then
          match Sys.AutoDetectActivity TrimSpace c1 (activityRead p)
                  (activityDump p (Package app1)) (activityStored p)
                  (Package app1) with
          | (Err e, c2) =>
              (app1,
               Some ("could not auto-detect activity for '" +:+ Name app1
                     +:+ "' (" +:+ Package app1 +:+ "): " +:+ e), c2)
          | (Ok activity, c2) => (setActivity app1 activity, None, c2)
          end
        else (app1, None, c1)
    end.

(** expandPath. *)
Definition expandPath (path : string) : string :=
  if HasPrefix path "~/" then
    match UserHomeDir with
    | Err _ => path
    | Ok home => Join [home; slice_from 2 path]
    end
  else path.

(** The body of the loop of Load over the apps; a failed detection is
    reported as a warning and the loop goes on. *)
Definition prepareApp (c : Sys.ResolverCache) (p : Probe) (app : AppConfig)
  : AppConfig * Sys.ResolverCache :=
  let app := setIcon app (expandPath (Icon app)) in
  if String.eqb (Command app) ""
     && (String.eqb (Package app) "" || String.eqb (Activity app) "")
  then
    let '(app', _, c') := autoDetectAppInfo c p app in (app', c')
  else (app, c).

Fixpoint prepareApps (c : Sys.ResolverCache) (probes : nat -> Probe)
    (i : nat) (apps : list AppConfig) : list AppConfig * Sys.ResolverCache :=
  match apps with
  | [] => ([], c)
  | app :: rest =>
      let '(app', c1) := prepareApp c (probes i) app in
      let '(rest', c2) := prepareApps c1 probes (S i) rest in
      (app' :: rest', c2)
  end.

(** validate; [None] is the nil error. *)
Definition isSpecialSource (icon : string) : bool :=
  HasPrefix icon "dashboard:" || HasPrefix icon "http://"
  || HasPrefix icon "https://".

Definition validateApp (fs : Graphics.FS) (i : Z) (app : AppConfig)
  : option string :=
  let missing (what : string) : option string :=
    Some ("app " +:+ fmt_d i +:+ " (" +:+ Name app +:+ "): " +:+ what
          +:+ " for Android apps (or use auto-detect by omitting package/activity)") in
  if String.eqb (Command app) "" && String.eqb (Package app) ""
  then missing "package name is required"
  else if String.eqb (Command app) "" && String.eqb (Activity app) ""
  then missing "activity is required"
  else if negb (String.eqb (Icon app) "") && negb (isSpecialSource (Icon app))
  then
    match Graphics.Stat fs (Icon app) with
    | Some _ => None
    | None =>
        Some ("app " +:+ fmt_d i +:+ " (" +:+ Name app
              +:+ "): icon file not found: " +:+ Icon app)
    end
  else None.

Fixpoint validateApps (fs : Graphics.FS) (i : Z) (apps : list AppConfig)
  : option string :=
  match apps with
  | [] => None
  | app :: rest =>
      match validateApp fs i app with
      | Some e => Some e
      | None => validateApps fs (i + 1) rest
      end
  end.

Definition validate (fs : Graphics.FS) (cfg : Config) : option string :=
  if Rows (Grid cfg) <? 1 then Some "grid.rows must be at least 1"
  else if Columns (Grid cfg) <? 1 then Some "grid.columns must be at least 1"
  else validateApps fs 0 (Apps cfg).

(** Load: the configuration, the error and the resolver cache as the
    detections leave it. *)
Definition Load (fs : Graphics.FS) (c : Sys.ResolverCache)
    (probes : nat -> Probe) (path : string)
  : Config * option string * Sys.ResolverCache :=
  let cfg := DefaultConfig in
  match Graphics.entries fs !! path with
  | None => (cfg, None, c)
  | Some _ =>
      match Graphics.ReadFile fs path with
      | Err e => (cfg, Some ("failed to read config: " +:+ e), c)
      | Ok data =>
          match Unmarshal data cfg with
          | (cfg, Some e) => (cfg, Some ("failed to parse config: " +:+ e), c)
          | (cfg, None) =>
              let '(apps, c') := prepareApps c probes 0 (Apps cfg) in
              let cfg := setApps cfg apps in
              (cfg, validate fs cfg, c')
          end
      end
  end.

End WithSystem.


End Config.

(** * internal/app: the model, hit testing, the render cache, Update *)

Module App.
Import Graphics Config.

Section WithImages.

Variable Pixels : Type.
Variable CatmullRom_Scale : Image Pixels -> Z -> Z -> Pixels.
Variable sixel_Encode : Image Pixels -> Result string.

Abbreviation Image := (Graphics.Image Pixels).
Abbreviation RenderSixelWithDimensions :=
  (Graphics.RenderSixelWithDimensions Pixels CatmullRom_Scale sixel_Encode).

(** Model.  A nil entry of Icons is [None]. *)
Record Model : Type := mkModel {
  Config : Config.Config;
  DisplayApps : list AppConfig;
  TermWidth : Z;
  TermHeight : Z;
  CellPx : CellDim;
  Icons : list (option Image);
  SixelCache : gmap string SixelResult;
  ErrorFlash : list bool;
  Selected : Z;
  Ready : bool;
  NeedsFullRedraw : bool;
  SixelsDrawn : bool
}.

Definition lenOf {A} (l : list A) : Z := wrap (Z.of_nat (List.length l)).

Definition NewModel (cfg : Config.Config) : Model :=
  let displayApps := GetDisplayApps cfg in
  let numApps := List.length displayApps in
  {| Config := cfg;
     DisplayApps := displayApps;
     TermWidth := 0;
     TermHeight := 0;
     CellPx := {| Width := 0; Height := 0 |};
     Icons := replicate numApps None;
     SixelCache := ∅;
     ErrorFlash := replicate numApps false;
     Selected := -1;
     Ready := false;
     NeedsFullRedraw := true;
     SixelsDrawn := false |}.

Definition setSixelCache (m : Model) (cache : gmap string SixelResult)
  : Model :=
  {| Config := Config m; DisplayApps := DisplayApps m;
     TermWidth := TermWidth m; TermHeight := TermHeight m;
     CellPx := CellPx m; Icons := Icons m; SixelCache := cache;
     ErrorFlash := ErrorFlash m; Selected := Selected m; Ready := Ready m;
     NeedsFullRedraw := NeedsFullRedraw m; SixelsDrawn := SixelsDrawn m |}.

Definition setSixelsDrawn (m : Model) (b : bool) : Model :=
  {| Config := Config m; DisplayApps := DisplayApps m;
     TermWidth := TermWidth m; TermHeight := TermHeight m;
     CellPx := CellPx m; Icons := Icons m; SixelCache := SixelCache m;
     ErrorFlash := ErrorFlash m; Selected := Selected m; Ready := Ready m;
     NeedsFullRedraw := NeedsFullRedraw m; SixelsDrawn := b |}.

(** ClearCache. *)
Definition ClearCache (m : Model) : Model := setSixelCache m ∅.

(** GridCellSize. *)
Definition GridCellSize (m : Model) : Z * Z :=
  let grid := Grid (Config m) in
  if (Columns grid <=? 0) || (Rows grid <=? 0) then (0, 0)
  else (int_quo (TermWidth m) (Columns grid),
        int_quo (int_sub (TermHeight m) 1) (Rows grid)).

(** IconCellSize. *)
Definition IconCellSize (m : Model) : Z * Z :=
  let '(cellW, cellH) := GridCellSize m in
  let padding := Padding (Style (Config m)) in
  let borderSize := if Border (Style (Config m)) then 2 else 0 in
  let width := int_sub (int_sub cellW (int_mul 2 padding)) borderSize in
  let height := int_sub (int_sub cellH (int_mul 2 padding)) borderSize in
  (if width <? 1 then 1 else width, if height <? 1 then 1 else height).

(** HitTest. *)
Definition HitTest (m : Model) (x y : Z) : Z :=
  let '(cellW, cellH) := GridCellSize m in
  if (cellW <=? 0) || (cellH <=? 0) then -1
  else
    let col := int_quo x cellW in
    let row := int_quo y cellH in
    let grid := Grid (Config m) in
    if (col <? 0) || (Columns grid <=? col) then -1
    else if (row <? 0) || (Rows grid <=? row) then -1
    else
      let index := int_add (int_mul row (Columns grid)) col in
      if lenOf (DisplayApps m) <=? index then -1
      else index.

(** GetIconScale. *)
Definition GetIconScale (m : Model) (index : Z) : float :=
  if (index <? 0) || (lenOf (DisplayApps m) <=? index) then 1%float
  else
    match DisplayApps m !! Z.to_nat index with
    | Some app => Config.GetIconScale (Config m) app
    | None => 1%float
    end.

(** The key of the render cache: fmt.Sprintf("%d_%d_%d_%.2f", ...). *)
Definition cacheKey (index widthCells heightCells : Z) (scale : float)
  : string :=
  fmt_d index +:+ "_" +:+ fmt_d widthCells +:+ "_" +:+ fmt_d heightCells
    +:+ "_" +:+ fmt_2f scale.

(** getSixelContentWithDimensions: the result, the model with the cache
    as the call leaves it, and the images handed to the encoder.  [None]
    is the run-time panic of indexing Icons below zero, or of the
    rendering. *)
Definition getSixelContentWithDimensions (m : Model)
    (index widthCells heightCells : Z) (scale : float)
  : option (SixelResult * Model * list Image) :=
  let key := cacheKey index widthCells heightCells scale in
  match SixelCache m !! key with
  | Some cached => Some (cached, m, [])
  | None =>
      let rendered :=
        if index <? lenOf (Icons m) then
          if index <? 0 then None
          else
            match Icons m !! Z.to_nat index with
            | Some (Some icon) =>
                RenderSixelWithDimensions icon widthCells heightCells
                  (CellPx m)
            | _ => Some (noSixel, [])
            end
        else Some (noSixel, []) in
      match rendered with
      | None => None
      | Some (result, encoded) =>
          Some (result, setSixelCache m (<[key := result]> (SixelCache m)),
                encoded)
      end
  end.

(** drawSixelsDirectly.  A drawing is the cursor position (row, column)
    and the sixel string written there. *)
Definition Drawing : Type := Z * Z * string.

Definition scaledCells (cells : Z) (scale : float) : Z :=
  let n := int_of_float64 (PrimFloat.mul (float64_of_int cells) scale) in
  if n <? 1 then 1 else n.

(** Where a non-empty sixel goes: the cursor position that centres it in
    the icon area of the cell at ([row], [col]).  [None] is the panic of a
    division by a zero cell size. *)
Definition placeSixel (m : Model) (row col : Z) (sixelResult : SixelResult)
  : option (list Drawing) :=
  let '(cellW, cellH) := GridCellSize m in
  let '(iconW, iconH) := IconCellSize m in
  if String.eqb (Sixel sixelResult) "" then Some []
  else if (Width (CellPx m) =? 0) || (Height (CellPx m) =? 0) then None
  else
    let borderOffset := if Border (Style (Config m)) then 1 else 0 in
    let padOffset := Padding (Style (Config m)) in
    let sixelWidthCells :=
      int_quo (PixelWidth sixelResult) (Width (CellPx m)) in
    let sixelHeightCells :=
      int_quo (PixelHeight sixelResult) (Height (CellPx m)) in
    let centerOffsetX := int_quo (int_sub iconW sixelWidthCells) 2 in
    let centerOffsetY := int_quo (int_sub iconH sixelHeightCells) 2 in
    let posX :=
      int_add (int_add (int_add (int_add (int_mul col cellW)
        borderOffset) padOffset) centerOffsetX) 1 in
    let posY :=
      int_add (int_add (int_add (int_add (int_mul row cellH)
        borderOffset) padOffset) centerOffsetY) 1 in
    let posX := if posX <? 1 then 1 else posX in
    let posY := if posY <? 1 then 1 else posY in
    Some [(posY, posX, Sixel sixelResult)].

(** [m.Icons[appIndex] != nil] behind its bounds check; [None] is the
    panic of an index below zero. *)
Definition iconLoaded (m : Model) (appIndex : Z) : option bool :=
  if appIndex <? lenOf (Icons m) then
    if appIndex <? 0 then None
    else match Icons m !! Z.to_nat appIndex with
         | Some (Some _) => Some true
         | _ => Some false
         end
  else Some false.

(** One pass of the inner loop body, before [appIndex++]. *)
Definition drawSlot (m : Model) (row col appIndex : Z)
  : option (Model * list Drawing) :=
  match iconLoaded m appIndex with
  | None => None
  | Some false => Some (m, [])
  | Some true =>
      let '(iconW, iconH) := IconCellSize m in
      let scale := GetIconScale m appIndex in
      let scaledIconW := scaledCells iconW scale in
      let scaledIconH := scaledCells iconH scale in
      match getSixelContentWithDimensions m appIndex scaledIconW scaledIconH
              scale with
      | None => None
      | Some (sixelResult, m', _) =>
          match placeSixel m' row col sixelResult with
          | None => None
          | Some drawn => Some (m', drawn)
          end
      end
  end.

(** The loop state is the model, [appIndex] and the drawings so far. *)
Definition LoopState : Type := Model * Z * list Drawing.

Definition colStep (row : Z) (st : option LoopState) (col : Z)
  : option LoopState :=
  match st with
  | None => None
  | Some (m, appIndex, out) =>
      if appIndex <? lenOf (DisplayApps m) then
        match drawSlot m row col appIndex with
        | None => None
        | Some (m', drawn) => Some (m', int_add appIndex 1, out ++ drawn)
        end
      else st
  end.

Definition rowStep (st : option LoopState) (row : Z) : option LoopState :=
  match st with
  | None => None
  | Some (m, appIndex, out) =>
      if appIndex <? lenOf (DisplayApps m)
      then fold_left (colStep row) (seqZ 0 (Columns (Grid (Config m)))) st
      else st
  end.

Definition drawSixelsDirectly (m : Model) : option (Model * list Drawing) :=
  if negb (existsb (fun icon => match icon with Some _ => true | None => false end)
             (Icons m))
  then Some (m, [])
  else
    let '(cellW, cellH) := GridCellSize m in
    if (cellW <=? 0) || (cellH <=? 0) then Some (m, [])
    else
      match fold_left rowStep (seqZ 0 (Rows (Grid (Config m))))
              (Some (m, 0, [])) with
      | None => None
      | Some (m', _, out) => Some (setSixelsDrawn m' true, out)
      end.

(** One cell of View's first pass, as it is handed to lipgloss: the
    inner size and, with a border, the colour of the border. *)
Record CellFrame : Type := mkCellFrame {
  FrameWidth : Z;
  FrameHeight : Z;
  FrameBorder : option string
}.

(** renderCellFrame; [None] is the panic of indexing ErrorFlash out of
    range. *)
Definition renderCellFrame (m : Model) (index innerW innerH : Z)
  : option CellFrame :=
  if Border (Style (Config m)) then
    if (index <? 0) || (lenOf (ErrorFlash m) <=? index) then None
    else
      match ErrorFlash m !! Z.to_nat index with
      | None => None
      | Some flash =>
          let borderColor : string :=
            if (flash : bool) then "196" else GetBorderColor (Config m) in
          Some {| FrameWidth := innerW; FrameHeight := innerH;
                  FrameBorder := Some borderColor |}
      end
  else Some {| FrameWidth := innerW; FrameHeight := innerH;
               FrameBorder := None |}.

(** renderEmptyCell. *)
Definition renderEmptyCell (m : Model) (innerW innerH : Z) : CellFrame :=
  {| FrameWidth := innerW; FrameHeight := innerH;
     FrameBorder :=
       if Border (Style (Config m)) then Some (GetBorderColor (Config m))
       else None |}.

(** The first pass of View; the state of the inner loop is [appIndex]
    and the cells of the row so far, that of the outer loop [appIndex]
    and the rows so far. *)
Definition frameStep (m : Model) (innerW innerH : Z)
    (st : option (Z * list CellFrame)) (col : Z)
  : option (Z * list CellFrame) :=
  match st with
  | None => None
  | Some (appIndex, cells) =>
      if appIndex <? lenOf (DisplayApps m) then
        match renderCellFrame m appIndex innerW innerH with
        | None => None
        | Some cell => Some (int_add appIndex 1, cells ++ [cell])
        end
      else Some (appIndex, cells ++ [renderEmptyCell m innerW innerH])
  end.

Definition frameRow (m : Model) (innerW innerH : Z)
    (st : option (Z * list (list CellFrame))) (row : Z)
  : option (Z * list (list CellFrame)) :=
  match st with
  | None => None
  | Some (appIndex, rows) =>
      match fold_left (frameStep m innerW innerH)
              (seqZ 0 (Columns (Grid (Config m)))) (Some (appIndex, [])) with
      | None => None
      | Some (appIndex', cells) => Some (appIndex', rows ++ [cells])
      end
  end.

Definition renderFrames (m : Model) : option (list (list CellFrame)) :=
  let '(cellW, cellH) := GridCellSize m in
  let border := Border (Style (Config m)) in
  let innerW := if border then int_sub cellW 2 else cellW in
  let innerH := if border then int_sub cellH 2 else cellH in
  let innerW := if innerW <? 1 then 1 else innerW in
  let innerH := if innerH <? 1 then 1 else innerH in
  match fold_left (frameRow m innerW innerH)
          (seqZ 0 (Rows (Grid (Config m)))) (Some (0, [])) with
  | None => None
  | Some (_, rows) => Some rows
  end.

(** View has a value receiver: of what it does to its copy of the model
    only the writes to the shared cache map outlive the call, so the
    result is the model as the runtime holds it afterwards ([None] when
    the first pass or drawSixelsDirectly panics).  The text View returns
    is laid out by lipgloss from the cells of the first pass and is not
    modelled. *)
Definition View (m : Model) : option Model :=
  if negb (Ready m) then Some m
  else if lenOf (DisplayApps m) =? 0 then Some m
  else
    let '(cellW, cellH) := GridCellSize m in
    if (cellW <=? 0) || (cellH <=? 0) then Some m
    else
      match renderFrames m with
      | None => None
      | Some _ =>
          if SixelsDrawn m then Some m
          else
            match drawSixelsDirectly m with
            | None => None
            | Some (m', _) => Some (setSixelCache m (SixelCache m'))
            end
      end.

(** ** Update *)

Inductive MouseAction : Type :=
| MouseActionPress
| MouseActionRelease
| MouseActionMotion.

Inductive Msg : Type :=
| KeyMsg (key : string)
| WindowSizeMsg (width height : Z)
| terminalGeometryMsg (cellDim : CellDim)
| iconsLoadedMsg (icons : list (option Image))
| MouseMsg (action : MouseAction) (x y : Z)
| otherMsg.

Inductive Cmd : Type :=
| NoCmd
| Quit
| QueryTerminal
| ClearScreen.

(** What Update starts besides returning: the border flash written to
    the terminal and the launches handed to goroutines. *)
Inductive Effect : Type :=
| FlashCell (index : Z)
| RunCommand (command : string)
| LaunchApp (pkg activity : string).

Definition flashCell (m : Model) (index : Z) : list Effect :=
  if negb (Border (Style (Config m))) then []
  else
    let '(cellW, cellH) := GridCellSize m in
    if (cellW <=? 0) || (cellH <=? 0) then [] else [FlashCell index].

Definition isQuitKey (key : string) : bool :=
  String.eqb key "q" || String.eqb key "ctrl+c" || String.eqb key "esc".

Definition Update (m : Model) (msg : Msg) : Model * Cmd * list Effect :=
  match msg with
  | KeyMsg key =>
      if isQuitKey key then (m, Quit, []) else (m, NoCmd, [])
  | WindowSizeMsg width height =>
      if (TermWidth m =? 0) && (TermHeight m =? 0) then
        ({| Config := Config m; DisplayApps := DisplayApps m;
            TermWidth := width; TermHeight := height;
            CellPx := CellPx m; Icons := Icons m;
            SixelCache := SixelCache m; ErrorFlash := ErrorFlash m;
            Selected := Selected m; Ready := Ready m;
            NeedsFullRedraw := NeedsFullRedraw m;
            SixelsDrawn := SixelsDrawn m |}, QueryTerminal, [])
      else (m, NoCmd, [])
  | terminalGeometryMsg cellDim =>
      if (Width (CellPx m) =? Width cellDim)
         && (Height (CellPx m) =? Height cellDim) && Ready m
      then (m, NoCmd, [])
      else
        ({| Config := Config m; DisplayApps := DisplayApps m;
            TermWidth := TermWidth m; TermHeight := TermHeight m;
            CellPx := cellDim; Icons := Icons m;
            SixelCache := ∅; ErrorFlash := ErrorFlash m;
            Selected := Selected m; Ready := true;
            NeedsFullRedraw := NeedsFullRedraw m;
            SixelsDrawn := false |}, ClearScreen, [])
  | iconsLoadedMsg icons =>
      ({| Config := Config m; DisplayApps := DisplayApps m;
          TermWidth := TermWidth m; TermHeight := TermHeight m;
          CellPx := CellPx m; Icons := icons;
          SixelCache := SixelCache m; ErrorFlash := ErrorFlash m;
          Selected := Selected m; Ready := Ready m;
          NeedsFullRedraw := NeedsFullRedraw m;
          SixelsDrawn := SixelsDrawn m |}, NoCmd, [])
  | MouseMsg action x y =>
      match action with
      | MouseActionRelease =>
          let index := HitTest m x y in
          if (0 <=? index) && (index <? lenOf (DisplayApps m)) then
            match DisplayApps m !! Z.to_nat index with
            | Some app =>
                let launch :=
                  if IsCommand app then RunCommand (Command app)
                  else LaunchApp (Package app) (Activity app) in
                (m, if CloseOnLaunch (Behavior (Config m)) then Quit else NoCmd,
                 flashCell m index ++ [launch])
            | None => (m, NoCmd, [])
            end
          else (m, NoCmd, [])
      | _ => (m, NoCmd, [])
      end
  | otherMsg => (m, NoCmd, [])
  end.

(** The states the program runs through: NewModel, then Update and View
    in any order. *)
Inductive reachable (cfg : Config.Config) : Model -> Prop :=
| reach_new : reachable cfg (NewModel cfg)
| reach_update m msg :
    reachable cfg m -> reachable cfg (fst (fst (Update m msg)))
| reach_view m m' :
    reachable cfg m -> View m = Some m' -> reachable cfg m'.

(** The window size a WindowSizeMsg carries is what the terminal reports
    in its winsize structure (TIOCGWINSZ), whose fields are unsigned
    16-bit numbers. *)
Definition maxWinsize : Z := 65535.

Definition fromTerminal (msg : Msg) : Prop :=
  match msg with
  | WindowSizeMsg width height =>
      0 <= width <= maxWinsize /\ 0 <= height <= maxWinsize
  | _ => True
  end.

(** The states the program runs through on a terminal: as [reachable],
    with the window sizes a terminal can report. *)
Inductive runs (cfg : Config.Config) : Model -> Prop :=
| run_new : runs cfg (NewModel cfg)
| run_update m msg :
    runs cfg m -> fromTerminal msg -> runs cfg (fst (fst (Update m msg)))
| run_view m m' :
    runs cfg m -> View m = Some m' -> runs cfg m'.

End WithImages.

End App.

(** * Facts about the library model *)

Module GoFacts.

Lemma wrap_id z : in_int z -> wrap z = z.
Proof.
  unfold in_int, minInt, maxInt, wrap. intros H.
  rewrite Z.mod_small; lia.
Qed.

Lemma wrap_in_int z : in_int (wrap z).
Proof.
  unfold in_int, minInt, maxInt, wrap.
  pose proof (Z.mod_pos_bound (z + 2 ^ 63) (2 ^ 64) ltac:(lia)). lia.
Qed.

Lemma len_small s :
  Z.of_nat (String.length s) <= maxInt -> len s = Z.of_nat (String.length s).
Proof. intros H. apply wrap_id. unfold in_int, minInt, maxInt in *. lia. Qed.

Lemma HasPrefix_head s c sub :
  HasPrefix s (String c sub) = true -> exists s', s = String c s'.
Proof.
  destruct s as [|a s]; simpl; [discriminate|].
  intros [Hc _]%andb_true_iff. apply Ascii.eqb_eq in Hc. subst. eauto.
Qed.

(** A string that occurs in [s] starts with a byte of [s]. *)
Lemma Index_head s c sub :
  0 <= Index s (String c sub) -> In c (list_ascii_of_string s).
Proof.
  induction s as [|a s IH]; simpl.
  - lia.
  - destruct (Ascii.eqb a c && HasPrefix s sub) eqn:E.
    + apply andb_true_iff in E as [Hc _]. apply Ascii.eqb_eq in Hc. auto.
    + destruct (Index s (String c sub) <? 0) eqn:Hi; [lia|].
      intros _. right. apply IH. lia.
Qed.

Lemma isASCII_In s c :
  isASCII s = true -> In c (list_ascii_of_string s) -> byte_val c < 0x80.
Proof.
  unfold isASCII. rewrite forallb_forall. intros H Hin.
  specialize (H c Hin). lia.
Qed.

Lemma Contains_nonascii s c sub :
  isASCII s = true -> 0x80 <= byte_val c -> Contains s (String c sub) = false.
Proof.
  intros Hs Hc. unfold Contains.
  destruct (0 <=? Index s (String c sub)) eqn:E; [|reflexivity].
  apply Z.leb_le, Index_head in E.
  pose proof (isASCII_In _ _ Hs E). lia.
Qed.

Lemma replace_go_In old new k s c :
  new = "" ->
  In c (list_ascii_of_string (replace_go old new k s)) ->
  In c (list_ascii_of_string s).
Proof.
  intros ->. revert k. induction s as [|a s IH]; intros k; [simpl; tauto|].
  cbn [replace_go]. destruct k as [|k].
  - destruct (HasPrefix (String a s) old).
    + change ("" +:+ ?x) with x. intros H. right. eapply IH, H.
    + simpl. intros [->|H]; [auto|]. right. eapply IH, H.
  - intros H. right. eapply IH, H.
Qed.

Lemma isASCII_strip_dots s : isASCII s = true -> isASCII (ReplaceAll s "." "") = true.
Proof.
  unfold isASCII. rewrite !forallb_forall. intros H c Hc.
  apply H. simpl in Hc. eapply replace_go_In; [reflexivity|exact Hc].
Qed.

Lemma slice_to_length n s : (String.length (slice_to n s) <= n)%nat.
Proof.
  revert s. induction n as [|n IH]; intros [|a s]; simpl; try lia.
  specialize (IH s). lia.
Qed.

Lemma rune_size_le4 s : (rune_size s <= 4)%nat.
Proof.
  destruct s as [|c0 rest]; simpl; [lia|].
  repeat match goal with
         | |- context [if ?b then _ else _] => destruct b
         | |- context [match ?x with "" => _ | String _ _ => _ end] => destruct x
         end; lia.
Qed.

Lemma rune_size_pos c s : (1 <= rune_size (String c s))%nat.
Proof.
  simpl.
  repeat match goal with
         | |- context [if ?b then _ else _] => destruct b
         | |- context [match ?x with "" => _ | String _ _ => _ end] => destruct x
         end; lia.
Qed.

(** A sequence wider than two bytes starts with a byte of at least 0xE0. *)
Lemma rune_size_wide c s :
  (2 < rune_size (String c s))%nat -> 0x80 <= byte_val c.
Proof.
  simpl. destruct (byte_val c <? 128) eqn:E; [lia|]. intros _. lia.
Qed.

Lemma explode_go_parts fuel s part :
  In part (explode_go fuel s) ->
  exists c t, part = slice_to (rune_size (String c t)) (String c t).
Proof.
  revert s. induction fuel as [|fuel IH]; intros s; simpl; [tauto|].
  destruct s as [|c t]; [simpl; tauto|].
  intros [<-|H]; [eauto|]. eapply IH, H.
Qed.

Lemma explode_go_length fuel s : (List.length (explode_go fuel s) <= fuel)%nat.
Proof.
  revert s. induction fuel as [|fuel IH]; intros s; simpl; [lia|].
  destruct s; simpl; [lia|].
  match goal with |- (S (List.length (explode_go _ ?x)) <= _)%nat =>
    specialize (IH x) end. lia.
Qed.

(** Each piece of [Split s ""] is at most four bytes long, and a piece of
    more than two bytes starts with a non-ASCII byte. *)
Lemma explode_part_wide s part :
  In part (Split s "") -> (2 <? len part) = true ->
  exists c rest, part = String c rest /\ 0x80 <= byte_val c.
Proof.
  simpl. unfold explode. intros Hin Hlen.
  apply explode_go_parts in Hin as (c & t & ->).
  pose proof (slice_to_length (rune_size (String c t)) (String c t)) as Hle.
  pose proof (rune_size_le4 (String c t)) as H4.
  rewrite len_small in Hlen by (unfold maxInt; lia).
  apply Z.ltb_lt in Hlen.
  assert (2 < rune_size (String c t))%nat as Hw by lia.
  pose proof (rune_size_wide _ _ Hw).
  destruct (rune_size (String c t)) as [|n]; [lia|].
  simpl. eauto.
Qed.

End GoFacts.

(** * Properties of the identity resolver *)

Module SysFacts.
Import Sys GoFacts.

(** ** Selecting the first candidate of highest score *)

Section FirstBest.

Context {A : Type} (f : A -> Z).

Definition pick (best : A * Z) (x : A) : A * Z :=
  if snd best <? f x then (x, f x) else best.

(** [x] is the first element of [l] with the highest [f]. *)
Definition first_best (l : list A) (x : A) : Prop :=
  exists i, l !! i = Some x /\
    (forall j y, l !! j = Some y -> f y <= f x) /\
    (forall j y, (j < i)%nat -> l !! j = Some y -> f y < f x).

Lemma pick_fold l b0 s0 :
  let r := fold_left pick l (b0, s0) in
  (r = (b0, s0) /\ forall y, y ∈ l -> f y <= s0) \/
  (s0 < snd r /\ snd r = f (fst r) /\ first_best l (fst r)).
Proof.
  revert b0 s0. induction l as [|x l IH]; intros b0 s0; simpl.
  - left. split; [reflexivity|]. intros y Hy. inversion Hy.
  - change (pick (b0, s0) x) with (if s0 <? f x then (x, f x) else (b0, s0)).
    destruct (s0 <? f x) eqn:E.
    + apply Z.ltb_lt in E. right.
      destruct (IH x (f x)) as [[-> Hall]|(Hlt & Hs & i & Hi & Hmax & Hbefore)].
      * simpl. split; [lia|]. split; [reflexivity|].
        exists 0%nat. split; [reflexivity|]. split.
        -- intros [|j] y Hy; simpl in Hy.
           ++ inversion Hy; subst. lia.
           ++ apply Hall. eapply list_elem_of_lookup_2, Hy.
        -- intros j y Hj. lia.
      * split; [lia|]. split; [exact Hs|].
        exists (S i). split; [exact Hi|]. split.
        -- intros [|j] y Hy; simpl in Hy.
           ++ inversion Hy; subst. lia.
           ++ eapply Hmax, Hy.
        -- intros [|j] y Hj Hy; simpl in Hy.
           ++ inversion Hy; subst. lia.
           ++ eapply Hbefore; [|exact Hy]. lia.
    + apply Z.ltb_ge in E.
      destruct (IH b0 s0) as [[-> Hall]|(Hlt & Hs & i & Hi & Hmax & Hbefore)].
      * left. split; [reflexivity|]. intros y Hy.
        apply elem_of_cons in Hy as [->|Hy]; [lia|]. auto.
      * right. split; [lia|]. split; [exact Hs|].
        exists (S i). split; [exact Hi|]. split.
        -- intros [|j] y Hy; simpl in Hy.
           ++ inversion Hy; subst. lia.
           ++ eapply Hmax, Hy.
        -- intros [|j] y Hj Hy; simpl in Hy.
           ++ inversion Hy; subst. lia.
           ++ eapply Hbefore; [|exact Hy]. lia.
Qed.

End FirstBest.

Section Resolver.

Variable ToLower : string -> string.
Variable TrimSpace : string -> string.

Abbreviation normalizeName := (normalizeName ToLower).
Abbreviation scanLine := (scanLine ToLower TrimSpace).
Abbreviation AutoDetectPackage := (AutoDetectPackage ToLower TrimSpace).

(** The candidates of an inventory listing, in the order of the listing:
    its lines, trimmed, without the "package:" prefix, the empty ones
    dropped. *)
Definition candidate (line : string) : string :=
  TrimPrefix (TrimSpace line) "package:".

Definition candidates (output : string) : list string :=
  filter (fun l => l <> "") (map candidate (Split output (String "010" ""))).

(** The score the resolver gives a candidate. *)
Definition scoreOf (appName cand : string) : Z :=
  calculateMatchScore (ToLower cand) (normalizeName appName).

(** The resolver cache holds no unexpired package for [appName]. *)
Definition cache_miss (c : ResolverCache) (now : Time) (appName : string)
  : Prop :=
  packageCache c !! appName = None \/
  cacheDuration <= Since now (expiryOf c appName).

Lemma scan_is_pick searchName lines acc :
  fold_left (scanLine searchName) lines acc =
  fold_left (pick (fun cand => calculateMatchScore (ToLower cand) searchName))
    (filter (fun l => l <> "") (map candidate lines)) acc.
Proof.
  revert acc. induction lines as [|line lines IH]; intros [b s]; simpl.
  - reflexivity.
  - rewrite filter_cons. fold (candidate line).
    destruct (String.eqb (candidate line) "") eqn:E.
    + apply String.eqb_eq in E. rewrite decide_False by (intros H; apply H, E).
      apply IH.
    + apply String.eqb_neq in E. rewrite decide_True by exact E.
      simpl. rewrite IH. reflexivity.
Qed.

Lemma AutoDetectPackage_miss c now output stored appName :
  cache_miss c now appName ->
  fst (AutoDetectPackage c now (Ok output) stored appName) =
  let r := fold_left (pick (scoreOf appName)) (candidates output) ("", 0) in
  if String.eqb (fst r) "" || (snd r <? 2)
  then Err ("no matching package found for '" +:+ appName +:+ "'")
  else Ok (fst r).
Proof.
  intros Hmiss. unfold Sys.AutoDetectPackage.
  assert (match packageCache c !! appName with
          | Some cached =>
              if Since now (expiryOf c appName) <? cacheDuration
              then Some cached else None
          | None => None
          end = None) as ->.
  { destruct Hmiss as [->|Hexp]; [reflexivity|].
    destruct (packageCache c !! appName); [|reflexivity].
    apply Z.ltb_ge in Hexp. rewrite Hexp. reflexivity. }
  rewrite scan_is_pick. fold (candidates output).
  unfold scoreOf. cbv zeta.
  destruct (fold_left _ (candidates output) ("", 0)) as [b s]. simpl.
  destruct (String.eqb b "" || (s <? 2)); reflexivity.
Qed.



(** ** Score bounds *)

Lemma fold_left_id {A B} (g : A -> B -> A) (l : list B) (a : A) :
  (forall x, In x l -> forall a', g a' x = a') -> fold_left g l a = a.
Proof.
  revert a. induction l as [|x l IH]; intros a H; simpl; [reflexivity|].
  rewrite H by (left; reflexivity). apply IH. intros y Hy. apply H. right. exact Hy.
Qed.

(** Against an ASCII package id the per-character loop adds nothing. *)
Lemma charStep_ascii pkgNoDots search score :
  isASCII pkgNoDots = true ->
  fold_left (charStep pkgNoDots) (Split search "") score = score.
Proof.
  intros Hascii. apply fold_left_id. intros part Hin s. unfold charStep.
  destruct (2 <? len part) eqn:Hlen; [|reflexivity].
  destruct (explode_part_wide _ _ Hin Hlen) as (c & rest & -> & Hc).
  rewrite (Contains_nonascii _ _ _ Hascii Hc). reflexivity.
Qed.

Lemma penalty_range pkg :
  Z.of_nat (String.length pkg) <= maxInt ->
  0 <= int_quo (len pkg) 10 <= maxInt.
Proof.
  intros H. rewrite len_small by exact H. unfold int_quo.
  assert (0 <= Z.of_nat (String.length pkg) ÷ 10 <= Z.of_nat (String.length pkg)).
  { split; [apply Z.quot_pos; lia|].
    rewrite Z.quot_div_nonneg by lia.
    apply Z.div_le_upper_bound; lia. }
  rewrite wrap_id; unfold in_int, minInt, maxInt in *; lia.
Qed.

(** The score after the two containment checks. *)
Lemma containment_range p search :
  let s0 := if Contains p search then int_add 0 50 else 0 in
  let s1 := if Contains search p then int_add s0 30 else s0 in
  0 <= s1 <= 80 /\
  s1 = (if Contains p search then 50 else 0) +
       (if Contains search p then 30 else 0).
Proof.
  assert (int_add 0 50 = 50) as E1 by reflexivity.
  assert (int_add 50 30 = 80) as E2 by reflexivity.
  assert (int_add 0 30 = 30) as E3 by reflexivity.
  cbv zeta. destruct (Contains p search), (Contains search p);
    rewrite ?E1, ?E2, ?E3; lia.
Qed.

Lemma partial_score_ascii pkg search :
  ReplaceAll pkg "." "" <> search ->
  isASCII pkg = true ->
  Z.of_nat (String.length pkg) <= maxInt ->
  calculateMatchScore pkg search <= 80.
Proof.
  intros Hne Hascii Hlen. unfold calculateMatchScore.
  apply String.eqb_neq in Hne. rewrite Hne.
  rewrite charStep_ascii by (apply isASCII_strip_dots, Hascii).
  pose proof (penalty_range pkg Hlen) as Hq.
  set (q := int_quo (len pkg) 10) in *.
  pose proof (containment_range (ReplaceAll pkg "." "") search) as [Hs _].
  set (s := if Contains search (ReplaceAll pkg "." "") then _ else _) in *.
  unfold int_sub. rewrite wrap_id; unfold in_int, minInt, maxInt in *; lia.
Qed.

Lemma exact_score pkg search :
  ReplaceAll pkg "." "" = search -> calculateMatchScore pkg search = 100.
Proof.
  intros H. unfold calculateMatchScore. apply String.eqb_eq in H.
  rewrite H. reflexivity.
Qed.

Lemma candidates_nonempty output cand : cand ∈ candidates output -> cand <> "".
Proof. unfold candidates. intros [H _]%list_elem_of_filter. exact H. Qed.

(** C1.  On a resolver-cache miss AutoDetectPackage answers from the
    inventory listing with the first candidate of highest score: among
    the candidates none scores higher and none that scores as high
    stands earlier.  It answers so whenever a candidate reaches the
    minimum score of 2, and fails exactly when every candidate scores
    below it (or there is none).  An exact dot-stripped match scores
    100, and a candidate that matches only partially scores no more
    than that; package ids are ASCII, and of a length that fits an int
    as every Go string has. *)
Theorem AutoDetectPackage_first_best :
  (forall c now output stored appName,
     cache_miss c now appName ->
     match fst (AutoDetectPackage c now (Ok output) stored appName) with
     | Ok best =>
         first_best (scoreOf appName) (candidates output) best /\
         2 <= scoreOf appName best
     | Err _ =>
         forall cand, cand ∈ candidates output -> scoreOf appName cand < 2
     end) /\
  (forall exact partial search,
     ReplaceAll exact "." "" = search ->
     ReplaceAll partial "." "" <> search ->
     isASCII partial = true ->
     Z.of_nat (String.length partial) <= maxInt ->
     calculateMatchScore exact search = 100 /\
     calculateMatchScore partial search <= calculateMatchScore exact search).
Proof.
  split.
  - intros c now output stored appName Hmiss.
    rewrite (AutoDetectPackage_miss _ _ _ _ _ Hmiss). cbv zeta.
    pose proof (pick_fold (scoreOf appName) (candidates output) "" 0) as Hp.
    cbv zeta in Hp.
    destruct (fold_left (pick (scoreOf appName)) (candidates output) ("", 0))
      as [b s] eqn:Hfold.
    simpl in *.
    destruct Hp as [[Heq Hall]|(Hlt & Hs & Hbest)].
    + inversion Heq; subst. simpl. intros cand Hc. specialize (Hall cand Hc). lia.
    + destruct (String.eqb b "") eqn:Hb; simpl.
      * apply String.eqb_eq in Hb. subst b.
        destruct Hbest as (i & Hi & _).
        apply list_elem_of_lookup_2, candidates_nonempty in Hi. congruence.
      * destruct (s <? 2) eqn:H2.
        -- apply Z.ltb_lt in H2. intros cand Hc.
           destruct Hbest as (i & _ & Hmax & _).
           apply list_elem_of_lookup_1 in Hc as [j Hj].
           specialize (Hmax j cand Hj). lia.
        -- apply Z.ltb_ge in H2. split; [exact Hbest|lia].
  - intros exact partial search Hex Hne Hascii Hlen.
    rewrite (exact_score _ _ Hex). split; [reflexivity|].
    pose proof (partial_score_ascii _ _ Hne Hascii Hlen). lia.
Qed.

End Resolver.

(** ** Concrete runs of the resolver *)

Definition nl : string := String "010" "".

Definition chromeListing : string :=
  "package:com.android.chrome" +:+ nl +:+ "package:com.chrome.beta" +:+ nl.

Definition exampleListing : string := "package:com.example.app" +:+ nl.



Lemma AutoDetectPackage_first_best_witness :
  (cache_miss ClearAppInfoCache 0 "Chrome" /\
   first_best (scoreOf asciiToLower "Chrome")
     (candidates asciiTrimSpace chromeListing) "com.android.chrome" /\
   2 <= scoreOf asciiToLower "Chrome" "com.android.chrome") /\
  (calculateMatchScore "chrome" "chrome" = 100 /\
   calculateMatchScore "com.android.chrome" "chrome"
     <= calculateMatchScore "chrome" "chrome").
Proof.
  split.
  - assert (Hmiss : cache_miss ClearAppInfoCache 0 "Chrome")
      by (left; reflexivity).
    split; [exact Hmiss|].
    pose proof (proj1 (AutoDetectPackage_first_best asciiToLower asciiTrimSpace)
                  ClearAppInfoCache 0 chromeListing 0 "Chrome" Hmiss) as H.
    assert (fst (Sys.AutoDetectPackage asciiToLower asciiTrimSpace
                   ClearAppInfoCache 0 (Ok chromeListing) 0 "Chrome")
            = Ok "com.android.chrome") as E by (vm_compute; reflexivity).
    rewrite E in H. exact H.
  - apply (proj2 (AutoDetectPackage_first_best asciiToLower asciiTrimSpace)
             "chrome" "com.android.chrome" "chrome").
    + reflexivity.
    + vm_compute. discriminate.
    + reflexivity.
    + vm_compute. discriminate.
Defined.

(** ** The per-character contribution *)

Definition containmentScore (pkg search : string) : Z :=
  let pkgNoDots := ReplaceAll pkg "." "" in
  (if Contains pkgNoDots search then 50 else 0) +
  (if Contains search pkgNoDots then 30 else 0).

Definition lengthPenalty (pkg : string) : Z := int_quo (len pkg) 10.

(** The characters of the search name that are longer than two bytes and
    occur in the dot-stripped package id, counted with repetition. *)
Definition charHits (pkg search : string) : Z :=
  let pkgNoDots := ReplaceAll pkg "." "" in
  Z.of_nat (List.length
    (List.filter (fun part => (2 <? len part) && Contains pkgNoDots part)
       (Split search ""))).

Lemma charStep_fold pkgNoDots parts score :
  0 <= score ->
  score + 5 * Z.of_nat (List.length parts) <= maxInt ->
  fold_left (charStep pkgNoDots) parts score =
  score + 5 * Z.of_nat (List.length
    (List.filter (fun part => (2 <? len part) && Contains pkgNoDots part) parts)).
Proof.
  revert score. induction parts as [|part parts IH]; intros score H0 Hmax.
  - simpl. lia.
  - cbn [fold_left List.filter]. unfold charStep at 2.
    cbn [List.length] in Hmax.
    destruct ((2 <? len part) && Contains pkgNoDots part).
    + unfold int_add. rewrite wrap_id by (unfold in_int, minInt, maxInt in *; lia).
      rewrite IH by lia. cbn [List.length]. lia.
    + rewrite IH by lia. lia.
Qed.

Lemma calculateMatchScore_parts pkg search :
  ReplaceAll pkg "." "" <> search ->
  Z.of_nat (String.length pkg) <= maxInt ->
  Z.of_nat (String.length search) < 2 ^ 60 ->
  calculateMatchScore pkg search =
  containmentScore pkg search + 5 * charHits pkg search - lengthPenalty pkg.
Proof.
  intros Hne Hpkg Hsearch. unfold calculateMatchScore, containmentScore,
    charHits, lengthPenalty.
  apply String.eqb_neq in Hne. rewrite Hne. cbv zeta.
  pose proof (penalty_range pkg Hpkg) as Hq.
  set (q := int_quo (len pkg) 10) in *.
  set (p := ReplaceAll pkg "." "") in *.
  assert (Z.of_nat (List.length (Split search "")) < 2 ^ 60) as Hparts.
  { simpl. unfold explode.
    pose proof (explode_go_length (String.length search) search). lia. }
  set (parts := Split search "") in *.
  assert (Z.of_nat (List.length
            (List.filter (fun part => (2 <? len part) && Contains p part) parts))
          <= Z.of_nat (List.length parts)) as Hhits.
  { apply Nat2Z.inj_le, List.filter_length_le. }
  pose proof (containment_range p search) as [Hs Hval]. cbv zeta in Hs, Hval.
  set (s := if Contains search p then _ else _) in *.
  rewrite charStep_fold by (unfold maxInt; lia).
  unfold int_sub.
  rewrite wrap_id by (unfold in_int, minInt, maxInt in *; lia). lia.
Qed.



(** ** Entry-point discovery *)

Section EntryPoint.

Variable TrimSpace : string -> string.

(** The component blocks of a dump: a block starts at each line that,
    trimmed, begins with "Activity #", and runs to the next such line.
    Lines before the first declaration belong to no block. *)
Definition isDecl (line : string) : bool :=
  HasPrefix (TrimSpace line) "Activity #".

Fixpoint blocksFrom (cur : option (list string)) (lines : list string)
  : list (list string) :=
  match lines with
  | [] => match cur with Some b => [b] | None => [] end
  | line :: rest =>
      if isDecl line
      then match cur with Some b => [b] | None => [] end
           ++ blocksFrom (Some [line]) rest
      else blocksFrom (option_map (fun b => b ++ [line]) cur) rest
  end.

Definition componentBlocks (output : string) : list (list string) :=
  blocksFrom None (Split output (String "010" "")).

Definition hasMarker (marker : string) (block : list string) : bool :=
  existsb (fun line => Contains (TrimSpace line) marker) block.

(** Within a block whose activity name parsed, the scan answers with that
    name as soon as the launcher marker follows the main marker, and
    otherwise at the end of the input if the main marker was seen. *)
Lemma scanActivities_block pkg inMain activity lines :
  activity <> "" ->
  (forall line, In line lines -> isDecl line = false) ->
  scanActivities TrimSpace pkg (inMain, activity) lines =
  if inMain || hasMarker MAIN lines then activity else "".
Proof.
  intros Hact. apply String.eqb_neq in Hact.
  revert inMain. induction lines as [|line lines IH]; intros inMain Hno.
  - simpl. rewrite Hact. simpl. rewrite orb_false_r, andb_true_r. reflexivity.
  - cbn [scanActivities]. unfold scanActivityLine.
    pose proof (Hno line (or_introl eq_refl)) as Hd. unfold isDecl in Hd.
    rewrite Hd, Hact. cbn [negb andb].
    assert (Hrest : forall l, In l lines -> isDecl l = false)
      by (intros l Hl; apply Hno; right; exact Hl).
    cbn [hasMarker existsb]. fold (hasMarker MAIN lines).
    destruct (Contains (TrimSpace line) MAIN),
             (Contains (TrimSpace line) LAUNCHER), inMain;
      cbn [andb orb negb]; rewrite ?(IH _ Hrest); reflexivity.
Qed.

End EntryPoint.

(** A dump of two components: the first carries the main action only, the
    second the main action and the launcher category. *)
Definition dumpMainOnlyFirst : string :=
  "Activity #0: com.x/.A filter 1" +:+ nl +:+
  "  Action: android.intent.action.MAIN" +:+ nl +:+
  "Activity #1: com.x/.B filter 2" +:+ nl +:+
  "  Action: android.intent.action.MAIN" +:+ nl +:+
  "  Category: android.intent.category.LAUNCHER".

(** C4 (code defect).  On [dumpMainOnlyFirst] the first block lacks the
    launcher marker and the second block has both markers, yet
    parseMainActivity answers with the activity of the first block: the
    declaration line of the second component closes the first one on the
    main marker alone. *)
Theorem parseMainActivity_main_only_block :
  componentBlocks asciiTrimSpace dumpMainOnlyFirst =
    [ ["Activity #0: com.x/.A filter 1";
       "  Action: android.intent.action.MAIN"];
      ["Activity #1: com.x/.B filter 2";
       "  Action: android.intent.action.MAIN";
       "  Category: android.intent.category.LAUNCHER"] ] /\
  Forall2 (fun block both =>
             hasMarker asciiTrimSpace MAIN block
             && hasMarker asciiTrimSpace LAUNCHER block = both)
    (componentBlocks asciiTrimSpace dumpMainOnlyFirst) [false; true] /\
  parseMainActivity asciiTrimSpace dumpMainOnlyFirst "com.x" = "com.x.A".
Proof.
  split; [vm_compute; reflexivity|].
  split; [|vm_compute; reflexivity].
  repeat constructor.
Qed.

(** ** The resolver cache over time *)

Section ResolverCacheFacts.

Variable ToLower : string -> string.
Variable TrimSpace : string -> string.

Abbreviation AutoDetectPackage := (Sys.AutoDetectPackage ToLower TrimSpace).
Abbreviation AutoDetectActivity := (Sys.AutoDetectActivity TrimSpace).
Abbreviation GetAppInfo := (Sys.GetAppInfo ToLower TrimSpace).

(** What a detection that went to the inventory and succeeded leaves in
    the cache. *)
Lemma AutoDetectPackage_stores c now pm stored appName pkg c' :
  cache_miss c now appName ->
  AutoDetectPackage c now pm stored appName = (Ok pkg, c') ->
  packageCache c' !! appName = Some pkg /\
  expiryOf c' appName = stored /\
  activityCache c' = activityCache c /\
  (forall key, key <> appName ->
     packageCache c' !! key = packageCache c !! key /\
     cacheExpiry c' !! key = cacheExpiry c !! key).
Proof.
  intros Hmiss. unfold Sys.AutoDetectPackage.
  assert (match packageCache c !! appName with
          | Some cached =>
              if Since now (expiryOf c appName) <? cacheDuration
              then Some cached else None
          | None => None
          end = None) as ->.
  { destruct Hmiss as [->|Hexp]; [reflexivity|].
    destruct (packageCache c !! appName); [|reflexivity].
    apply Z.ltb_ge in Hexp. rewrite Hexp. reflexivity. }
  destruct pm as [output|e]; [|discriminate].
  destruct (fold_left _ _ _) as [b s].
  destruct (String.eqb b "" || (s <? 2)); [discriminate|].
  intros [= <- <-]. cbn [packageCache activityCache cacheExpiry].
  unfold expiryOf. cbn [cacheExpiry]. rewrite !lookup_insert_eq.
  repeat split; try reflexivity; rewrite lookup_insert_ne by congruence;
    reflexivity.
Qed.

(** X1.  A package found by querying the inventory is answered from the
    cache, without the inventory and without touching the cache, as long
    as less than 24 hours have passed since it was stored; from 24 hours
    on the inventory is queried again, so that a failing query then
    fails the detection. *)
Theorem AutoDetectPackage_served_from_cache :
  forall c now pm stored appName pkg c',
    cache_miss c now appName ->
    AutoDetectPackage c now pm stored appName = (Ok pkg, c') ->
    (forall later pm' stored',
       Since later stored < cacheDuration ->
       AutoDetectPackage c' later pm' stored' appName = (Ok pkg, c')) /\
    (forall later e stored',
       cacheDuration <= Since later stored ->
       AutoDetectPackage c' later (Err e) stored' appName =
       (Err ("failed to list packages: " +:+ e), c')).
Proof.
  intros c now pm stored appName pkg c' Hmiss Hrun.
  destruct (AutoDetectPackage_stores _ _ _ _ _ _ _ Hmiss Hrun)
    as (Hpkg & Hexp & _).
  split.
  - intros later pm' stored' Hfresh. unfold Sys.AutoDetectPackage.
    rewrite Hpkg, Hexp. apply Z.ltb_lt in Hfresh. rewrite Hfresh.
    reflexivity.
  - intros later e stored' Hstale. unfold Sys.AutoDetectPackage.
    rewrite Hpkg, Hexp. apply Z.ltb_ge in Hstale. rewrite Hstale.
    reflexivity.
Qed.

(** X2.  A detection that fails, of a package or of an activity, leaves
    the resolver cache as it was: failures are not remembered. *)
Theorem failed_detection_keeps_cache :
  (forall c now pm stored appName e c',
     AutoDetectPackage c now pm stored appName = (Err e, c') -> c' = c) /\
  (forall c now dump stored pkg e c',
     AutoDetectActivity c now dump stored pkg = (Err e, c') -> c' = c).
Proof.
  split.
  - intros c now pm stored appName e c'. unfold Sys.AutoDetectPackage.
    destruct (match packageCache c !! appName with
              | Some _ => _ | None => None end); [discriminate|].
    destruct pm as [output|e0]; [|intros [= _ <-]; reflexivity].
    destruct (fold_left _ _ _) as [b s].
    destruct (String.eqb b "" || (s <? 2)); [|discriminate].
    intros [= _ <-]. reflexivity.
  - intros c now dump stored pkg e c'. unfold Sys.AutoDetectActivity.
    destruct (match activityCache c !! pkg with
              | Some _ => _ | None => None end); [discriminate|].
    destruct dump as [output|e0]; [|intros [= _ <-]; reflexivity].
    destruct (String.eqb (parseMainActivity TrimSpace output pkg) "");
      [|discriminate].
    intros [= _ <-]. reflexivity.
Qed.

(** The answer of AutoDetectActivity depends on the cache only through
    the activity entry of the package and the expiry under its "_act"
    key. *)
Lemma AutoDetectActivity_reads c1 c2 now dump stored pkg :
  activityCache c1 !! pkg = activityCache c2 !! pkg ->
  cacheExpiry c1 !! (pkg +:+ "_act") = cacheExpiry c2 !! (pkg +:+ "_act") ->
  fst (AutoDetectActivity c1 now dump stored pkg) =
  fst (AutoDetectActivity c2 now dump stored pkg).
Proof.
  intros Ha He. unfold Sys.AutoDetectActivity, expiryOf. rewrite Ha, He.
  destruct (match activityCache c2 !! pkg with
            | Some _ => _ | None => None end); [reflexivity|].
  destruct dump as [output|e]; [|reflexivity].
  destruct (String.eqb (parseMainActivity TrimSpace output pkg) "");
    reflexivity.
Qed.

(** X3.  Detecting the package of an app does not change what
    AutoDetectActivity answers for a package, unless the app is named as
    that package followed by "_act": the two caches share one expiry map
    and keep apart only by that suffix. *)
Theorem AutoDetectPackage_keeps_activity_answers :
  forall c now pm stored appName now' dump stored' pkg,
    appName <> pkg +:+ "_act" ->
    fst (AutoDetectActivity (snd (AutoDetectPackage c now pm stored appName))
           now' dump stored' pkg) =
    fst (AutoDetectActivity c now' dump stored' pkg).
Proof.
  intros c now pm stored appName now' dump stored' pkg Hne.
  apply AutoDetectActivity_reads.
  - unfold Sys.AutoDetectPackage.
    destruct (match packageCache c !! appName with
              | Some _ => _ | None => None end); [reflexivity|].
    destruct pm as [output|e]; [|reflexivity].
    destruct (fold_left _ _ _) as [b s].
    destruct (String.eqb b "" || (s <? 2)); reflexivity.
  - unfold Sys.AutoDetectPackage.
    destruct (match packageCache c !! appName with
              | Some _ => _ | None => None end); [reflexivity|].
    destruct pm as [output|e]; [|reflexivity].
    destruct (fold_left _ _ _) as [b s].
    destruct (String.eqb b "" || (s <? 2)); [reflexivity|].
    cbn [snd cacheExpiry]. apply lookup_insert_ne. exact Hne.
Qed.

(** X4.  With the shared expiry map, a package detection for the app
    name [pkg_act] stamps the expiry that the activity of [pkg] is
    checked against: an activity entry of any age is then served again
    for the next 24 hours without a new dump. *)
Theorem activity_expiry_shared_with_app_name :
  forall c now pm stored pkg activity found c',
    activityCache c !! pkg = Some activity ->
    cache_miss c now (pkg +:+ "_act") ->
    AutoDetectPackage c now pm stored (pkg +:+ "_act") = (Ok found, c') ->
    forall later dump stored',
      Since later stored < cacheDuration ->
      AutoDetectActivity c' later dump stored' pkg = (Ok activity, c').
Proof.
  intros c now pm stored pkg activity found c' Hact Hmiss Hrun
    later dump stored' Hfresh.
  destruct (AutoDetectPackage_stores _ _ _ _ _ _ _ Hmiss Hrun)
    as (_ & Hexp & Hsame & _).
  unfold Sys.AutoDetectActivity. rewrite Hsame, Hact, Hexp.
  apply Z.ltb_lt in Hfresh. rewrite Hfresh. reflexivity.
Qed.

(** X5.  When GetCachedAppInfo reports valid cached info, GetAppInfo at
    the same clocks returns that package and activity with no error,
    whatever the inventory and the dump would say, and leaves the cache
    as it is. *)
Theorem GetCachedAppInfo_valid_GetAppInfo :
  forall c now1 now2 appName pkg activity,
    GetCachedAppInfo c now1 now2 appName = (pkg, activity, true) ->
    forall pm stored1 pm_dump stored2,
      GetAppInfo c now1 pm stored1 now2 pm_dump stored2 appName =
      (pkg, activity, None, c).
Proof.
  intros c now1 now2 appName pkg activity. unfold GetCachedAppInfo.
  destruct (packageCache c !! appName) as [p|] eqn:Hp; [|discriminate].
  destruct (cacheDuration <=? Since now1 (expiryOf c appName)) eqn:H1;
    [discriminate|].
  destruct (activityCache c !! p) as [a|] eqn:Ha; [|discriminate].
  destruct (cacheDuration <=? Since now2 (expiryOf c (p +:+ "_act"))) eqn:H2;
    [discriminate|].
  intros [= <- <-] pm stored1 pm_dump stored2.
  apply Z.leb_gt in H1, H2. apply Z.ltb_lt in H1, H2.
  unfold Sys.GetAppInfo, Sys.AutoDetectPackage. rewrite Hp, H1.
  unfold Sys.AutoDetectActivity. rewrite Ha, H2. reflexivity.
Qed.

End ResolverCacheFacts.

(** ** Concrete runs of the resolver cache *)

(** The cache after "Chrome" was detected from [chromeListing] and stored
    at clock 5. *)
Definition chromeCache : ResolverCache :=
  snd (Sys.AutoDetectPackage asciiToLower asciiTrimSpace ClearAppInfoCache 0
         (Ok chromeListing) 5 "Chrome").

Lemma AutoDetectPackage_served_from_cache_witness :
  Sys.AutoDetectPackage asciiToLower asciiTrimSpace chromeCache
    (5 + 23 * Hour) (Err "exit status 1") 9 "Chrome"
    = (Ok "com.android.chrome", chromeCache) /\
  Sys.AutoDetectPackage asciiToLower asciiTrimSpace chromeCache
    (5 + 24 * Hour) (Err "exit status 1") 9 "Chrome"
    = (Err "failed to list packages: exit status 1", chromeCache).
Proof.
  destruct (AutoDetectPackage_served_from_cache asciiToLower asciiTrimSpace
              ClearAppInfoCache 0 (Ok chromeListing) 5 "Chrome"
              "com.android.chrome" chromeCache
              (or_introl eq_refl) ltac:(vm_compute; reflexivity)) as [H1 H2].
  split.
  - apply H1. vm_compute. reflexivity.
  - apply (H2 (5 + 24 * Hour) "exit status 1" 9). vm_compute. discriminate.
Defined.

Lemma failed_detection_keeps_cache_witness :
  snd (Sys.AutoDetectPackage asciiToLower asciiTrimSpace chromeCache
         (5 + 24 * Hour) (Ok exampleListing) 9 "Chrome") = chromeCache /\
  snd (Sys.AutoDetectActivity asciiTrimSpace chromeCache 0
         (Ok "no activities") 9 "com.android.chrome") = chromeCache.
Proof.
  split.
  - apply (proj1 (failed_detection_keeps_cache asciiToLower asciiTrimSpace)
             chromeCache (5 + 24 * Hour) (Ok exampleListing) 9 "Chrome"
             "no matching package found for 'Chrome'").
    vm_compute. reflexivity.
  - apply (proj2 (failed_detection_keeps_cache asciiToLower asciiTrimSpace)
             chromeCache 0 (Ok "no activities") 9 "com.android.chrome"
             "no main activity found for package com.android.chrome").
    vm_compute. reflexivity.
Defined.

Lemma AutoDetectPackage_keeps_activity_answers_witness :
  fst (Sys.AutoDetectActivity asciiTrimSpace chromeCache 7
         (Ok dumpMainOnlyFirst) 8 "com.x") =
  fst (Sys.AutoDetectActivity asciiTrimSpace ClearAppInfoCache 7
         (Ok dumpMainOnlyFirst) 8 "com.x").
Proof.
  apply (AutoDetectPackage_keeps_activity_answers asciiToLower asciiTrimSpace
           ClearAppInfoCache 0 (Ok chromeListing) 5 "Chrome" 7
           (Ok dumpMainOnlyFirst) 8 "com.x").
  vm_compute. discriminate.
Defined.

(** A cache that holds only an activity for the package "shelf", stamped
    at clock 0. *)
Definition shelfActivityCache : ResolverCache :=
  {| packageCache := ∅;
     activityCache := {["shelf" := ".MainActivity"]};
     cacheExpiry := {["shelf_act" := 0]} |}.

Definition shelfActListing : string := "package:com.shelf_act.app" +:+ nl.

Lemma activity_expiry_shared_with_app_name_witness :
  Sys.AutoDetectActivity asciiTrimSpace shelfActivityCache (100 * 24 * Hour)
    (Err "exit status 1") 0 "shelf"
    = (Err "pm dump failed: exit status 1", shelfActivityCache) /\
  Sys.AutoDetectActivity asciiTrimSpace
    (snd (Sys.AutoDetectPackage asciiToLower asciiTrimSpace shelfActivityCache
            (100 * 24 * Hour) (Ok shelfActListing) (100 * 24 * Hour)
            "shelf_act"))
    (100 * 24 * Hour + 1) (Err "exit status 1") 0 "shelf"
    = (Ok ".MainActivity",
       snd (Sys.AutoDetectPackage asciiToLower asciiTrimSpace
              shelfActivityCache (100 * 24 * Hour) (Ok shelfActListing)
              (100 * 24 * Hour) "shelf_act")).
Proof.
  split; [vm_compute; reflexivity|].
  apply (activity_expiry_shared_with_app_name asciiToLower asciiTrimSpace
           shelfActivityCache (100 * 24 * Hour) (Ok shelfActListing)
           (100 * 24 * Hour) "shelf" ".MainActivity" "com.shelf_act.app").
  - vm_compute. reflexivity.
  - left. vm_compute. reflexivity.
  - vm_compute. reflexivity.
  - vm_compute. reflexivity.
Defined.

Definition chromeDump : string :=
  "Activity #0: com.android.chrome/com.google.android.apps.chrome.Main filter 1"
  +:+ nl +:+ "  Action: android.intent.action.MAIN"
  +:+ nl +:+ "  Category: android.intent.category.LAUNCHER".

(** The cache after GetAppInfo resolved "Chrome" at clocks 0 to 3. *)
Definition chromeInfoCache : ResolverCache :=
  snd (Sys.GetAppInfo asciiToLower asciiTrimSpace ClearAppInfoCache 0
         (Ok chromeListing) 1 2 (fun _ => Ok chromeDump) 3 "Chrome").

Lemma GetCachedAppInfo_valid_GetAppInfo_witness :
  Sys.GetAppInfo asciiToLower asciiTrimSpace chromeInfoCache 10
    (Err "exit status 1") 11 12 (fun _ => Err "exit status 1") 13 "Chrome"
  = ("com.android.chrome", "com.google.android.apps.chrome.Main", None,
     chromeInfoCache).
Proof.
  apply (GetCachedAppInfo_valid_GetAppInfo asciiToLower asciiTrimSpace
           chromeInfoCache 10 12 "Chrome").
  vm_compute. reflexivity.
Defined.

(** ** A name that normalizes to nothing *)

Lemma Contains_empty s : Contains s "" = true.
Proof. unfold Contains. destruct s; reflexivity. Qed.

Lemma Contains_in_empty s : s <> "" -> Contains "" s = false.
Proof. destruct s; [congruence|reflexivity]. Qed.

Lemma lengthPenalty_value pkg :
  Z.of_nat (String.length pkg) <= maxInt ->
  lengthPenalty pkg = Z.of_nat (String.length pkg) / 10.
Proof.
  intros H. unfold lengthPenalty, int_quo. rewrite len_small by exact H.
  rewrite Z.quot_div_nonneg by lia.
  assert (0 <= Z.of_nat (String.length pkg) / 10 <= Z.of_nat (String.length pkg)).
  { split; [apply Z.div_pos; lia|apply Z.div_le_upper_bound; lia]. }
  apply wrap_id. unfold in_int, minInt, maxInt in *. lia.
Qed.

(** Against the empty search name every package id with something
    besides dots scores 50 minus the length penalty. *)
Lemma calculateMatchScore_empty_search pkg :
  ReplaceAll pkg "." "" <> "" ->
  Z.of_nat (String.length pkg) <= maxInt ->
  calculateMatchScore pkg "" = 50 - Z.of_nat (String.length pkg) / 10.
Proof.
  intros Hne Hlen.
  rewrite calculateMatchScore_parts by (try assumption; simpl; lia).
  rewrite lengthPenalty_value by exact Hlen.
  unfold containmentScore, charHits.
  rewrite Contains_empty, Contains_in_empty by exact Hne.
  reflexivity.
Qed.

Section BlankName.

Variable ToLower : string -> string.
Variable TrimSpace : string -> string.

(** X6.  An app name that normalizes to the empty string (an empty name,
    or one of spaces and hyphens only) is contained in every package id,
    so every candidate shorter than 490 bytes scores at least 2: on a
    listing with such a candidate the detection succeeds instead of
    reporting that nothing matches. *)
Theorem AutoDetectPackage_blank_name :
  forall c now output stored appName cand,
    cache_miss c now appName ->
    normalizeName ToLower appName = "" ->
    cand ∈ candidates TrimSpace output ->
    Z.of_nat (String.length (ToLower cand)) < 490 ->
    2 <= scoreOf ToLower appName cand /\
    is_ok (fst (Sys.AutoDetectPackage ToLower TrimSpace c now (Ok output)
                  stored appName)) = true.
Proof.
  intros c now output stored appName cand Hmiss Hblank Hcand Hlen.
  assert (2 <= scoreOf ToLower appName cand) as Hscore.
  { unfold scoreOf. rewrite Hblank.
    destruct (String.eqb (ReplaceAll (ToLower cand) "." "") "") eqn:E.
    - apply String.eqb_eq in E. rewrite (exact_score _ _ E). lia.
    - apply String.eqb_neq in E.
      rewrite calculateMatchScore_empty_search
        by (try assumption; unfold maxInt; lia).
      assert (Z.of_nat (String.length (ToLower cand)) / 10 < 49)
        by (apply Z.div_lt_upper_bound; lia).
      lia. }
  split; [exact Hscore|].
  rewrite (AutoDetectPackage_miss ToLower TrimSpace _ _ _ _ _ Hmiss). cbv zeta.
  pose proof (pick_fold (scoreOf ToLower appName)
                (candidates TrimSpace output) "" 0) as Hp.
  cbv zeta in Hp.
  destruct (fold_left (pick (scoreOf ToLower appName))
              (candidates TrimSpace output) ("", 0)) as [b s].
  simpl in *.
  destruct Hp as [[Heq Hall]|(Hlt & Hs & i & Hi & Hmax & _)].
  - specialize (Hall cand Hcand). lia.
  - assert (String.eqb b "" = false) as ->.
    { apply String.eqb_neq.
      apply (candidates_nonempty TrimSpace output).
      eapply list_elem_of_lookup_2, Hi. }
    apply list_elem_of_lookup_1 in Hcand as [j Hj].
    specialize (Hmax j cand Hj).
    assert ((s <? 2) = false) as -> by (apply Z.ltb_ge; lia).
    reflexivity.
Qed.

End BlankName.

Lemma AutoDetectPackage_blank_name_witness :
  2 <= scoreOf asciiToLower " - " "com.example.app" /\
  is_ok (fst (Sys.AutoDetectPackage asciiToLower asciiTrimSpace
                ClearAppInfoCache 0 (Ok exampleListing) 0 " - ")) = true.
Proof.
  apply (AutoDetectPackage_blank_name asciiToLower asciiTrimSpace
           ClearAppInfoCache 0 exampleListing 0 " - " "com.example.app").
  - left. reflexivity.
  - vm_compute. reflexivity.
  - vm_compute. set_solver.
  - vm_compute. reflexivity.
Defined.

(** ** Which component the entry-point scan answers with *)

Section FirstMainBlock.

Variable TrimSpace : string -> string.

Abbreviation scanActivities := (Sys.scanActivities TrimSpace).
Abbreviation scanActivityLine := (Sys.scanActivityLine TrimSpace).
Abbreviation parseMainActivity := (Sys.parseMainActivity TrimSpace).

(** Lines without the main marker leave the scan going, with the flag
    still down. *)
Lemma scan_without_main pkg pre rest cur :
  (forall l, In l pre -> Contains (TrimSpace l) MAIN = false) ->
  exists cur', scanActivities pkg (false, cur) (pre ++ rest) =
               scanActivities pkg (false, cur') rest.
Proof.
  revert cur. induction pre as [|line pre IH]; intros cur Hno.
  - exists cur. reflexivity.
  - cbn [app Sys.scanActivities]. unfold Sys.scanActivityLine.
    rewrite (Hno line) by (left; reflexivity). cbn [andb].
    assert (Hrest : forall l, In l pre -> Contains (TrimSpace l) MAIN = false)
      by (intros l Hl; apply Hno; right; exact Hl).
    destruct (HasPrefix (TrimSpace line) "Activity #"); cbn [andb];
      rewrite andb_false_r; cbn [andb]; apply IH, Hrest.
Qed.

(** Once the main marker is seen in a block with a parsed name, the scan
    answers with that name: at the launcher marker, at the next
    declaration or at the end of the input. *)
Lemma scan_block_then_decl pkg inMain activity body rest :
  activity <> "" ->
  (forall l, In l body -> isDecl TrimSpace l = false) ->
  inMain || hasMarker TrimSpace MAIN body = true ->
  rest = [] \/ (exists d r, rest = d :: r /\ isDecl TrimSpace d = true) ->
  scanActivities pkg (inMain, activity) (body ++ rest) = activity.
Proof.
  intros Hact. apply String.eqb_neq in Hact.
  revert inMain. induction body as [|line body IH]; intros inMain Hno Hmain Hrest.
  - cbn [hasMarker existsb] in Hmain. rewrite orb_false_r in Hmain. subst inMain.
    cbn [app]. destruct Hrest as [->|(d & r & -> & Hd)].
    + simpl. rewrite Hact. reflexivity.
    + cbn [Sys.scanActivities]. unfold Sys.scanActivityLine.
      unfold isDecl in Hd. rewrite Hd, Hact. reflexivity.
  - cbn [app Sys.scanActivities]. unfold Sys.scanActivityLine.
    pose proof (Hno line (or_introl eq_refl)) as Hd. unfold isDecl in Hd.
    rewrite Hd, Hact. cbn [negb andb].
    assert (Hbody : forall l, In l body -> isDecl TrimSpace l = false)
      by (intros l Hl; apply Hno; right; exact Hl).
    cbn [hasMarker existsb] in Hmain. fold (hasMarker TrimSpace MAIN body) in Hmain.
    destruct (Contains (TrimSpace line) MAIN),
             (Contains (TrimSpace line) LAUNCHER), inMain;
      cbn [andb orb negb] in *; try reflexivity;
      apply IH; auto.
Qed.

(** X7.  Let no line before a component declaration carry the main
    marker, let the declaration name an activity, and let the marker
    occur on the declaration line or below it before the next
    declaration.  Then parseMainActivity answers with that activity,
    whether or not the launcher category occurs in its block: the first
    named component with the main action decides, wherever in the dump
    it is listed. *)
Theorem parseMainActivity_first_main_component :
  forall output pkg pre decl body rest,
    Split output (String "010" "") = pre ++ decl :: body ++ rest ->
    (forall l, In l pre -> Contains (TrimSpace l) MAIN = false) ->
    isDecl TrimSpace decl = true ->
    activityName (TrimSpace decl) pkg <> "" ->
    (forall l, In l body -> isDecl TrimSpace l = false) ->
    hasMarker TrimSpace MAIN (decl :: body) = true ->
    rest = [] \/ (exists d r, rest = d :: r /\ isDecl TrimSpace d = true) ->
    parseMainActivity output pkg = activityName (TrimSpace decl) pkg.
Proof.
  intros output pkg pre decl body rest Hsplit Hpre Hdecl Hname Hbody Hmain Hrest.
  unfold Sys.parseMainActivity. rewrite Hsplit.
  destruct (scan_without_main pkg pre (decl :: body ++ rest) "" Hpre)
    as [cur' ->].
  cbn [Sys.scanActivities]. unfold Sys.scanActivityLine.
  unfold isDecl in Hdecl. rewrite Hdecl. cbn [andb].
  pose proof Hname as Hname'. apply String.eqb_neq in Hname'.
  rewrite Hname'. cbn [negb].
  cbn [hasMarker existsb] in Hmain. fold (hasMarker TrimSpace MAIN body) in Hmain.
  destruct (Contains (TrimSpace decl) MAIN) eqn:Hm.
  - destruct (Contains (TrimSpace decl) LAUNCHER); cbn [andb]; [reflexivity|].
    apply scan_block_then_decl; auto.
  - rewrite andb_false_r. cbn [andb].
    apply scan_block_then_decl; auto.
Qed.

(** A dump without any line that carries the main marker has no entry
    point. *)
Lemma parseMainActivity_no_main output pkg :
  (forall l, In l (Split output (String "010" "")) ->
     Contains (TrimSpace l) MAIN = false) ->
  parseMainActivity output pkg = "".
Proof.
  intros Hno. unfold Sys.parseMainActivity.
  destruct (scan_without_main pkg (Split output (String "010" "")) [] "" Hno)
    as [cur' H].
  rewrite app_nil_r in H. rewrite H. reflexivity.
Qed.

End FirstMainBlock.

(** A dump whose only main/launcher component is listed last, with the
    category above the action. *)
Definition dumpLauncherLast : string :=
  "Activity #0: com.x/.Settings filter 1" +:+ nl +:+
  "  Action: android.intent.action.VIEW" +:+ nl +:+
  "Activity #1: com.x/.Home filter 2" +:+ nl +:+
  "  Category: android.intent.category.LAUNCHER" +:+ nl +:+
  "  Action: android.intent.action.MAIN".

Lemma parseMainActivity_first_main_component_witness :
  Sys.parseMainActivity asciiTrimSpace dumpLauncherLast "com.x" = "com.x.Home".
Proof.
  apply (parseMainActivity_first_main_component asciiTrimSpace
           dumpLauncherLast "com.x"
           ["Activity #0: com.x/.Settings filter 1";
            "  Action: android.intent.action.VIEW"]
           "Activity #1: com.x/.Home filter 2"
           ["  Category: android.intent.category.LAUNCHER";
            "  Action: android.intent.action.MAIN"]
           []).
  - vm_compute. reflexivity.
  - intros l [<-|[<-|[]]]; vm_compute; reflexivity.
  - vm_compute. reflexivity.
  - vm_compute. discriminate.
  - intros l [<-|[<-|[]]]; vm_compute; reflexivity.
  - vm_compute. reflexivity.
  - left. reflexivity.
Defined.

End SysFacts.

(** * Properties of the extraction pipeline and its caches *)

Module GraphicsFacts.
Import Graphics GoFacts.

(** ** The resource-path hint cache *)

Definition Day : Duration := 24 * Hour.

Section HintCache.

Variable home : string.
Variable Join : list string -> string.
Variable Dir : string -> string.
Variable TrimSpace : string -> string.

Abbreviation getIconPathCachePath := (getIconPathCachePath home Join).
Abbreviation getCachedIconPathWithTTL :=
  (getCachedIconPathWithTTL home Join TrimSpace).
Abbreviation saveIconPathCache := (saveIconPathCache home Join Dir).

Lemma saved_entry fs fs' t pkg hint :
  saveIconPathCache fs t pkg hint = (Ok tt, fs') ->
  entries fs' !! getIconPathCachePath pkg =
  Some {| data := hint; modTime := t; readable := true |}.
Proof.
  unfold Graphics.saveIconPathCache, WriteFile.
  destruct (decide (_ ∈ dirs _)); [|discriminate].
  destruct (decide (_ ∈ protected _)); [discriminate|].
  intros H. inversion H; subst. simpl. apply lookup_insert_eq.
Qed.

(** Reading [d] after the modification time [t], [d] being a Duration. *)
Lemma read_after fs t d pkg hint :
  entries fs !! getIconPathCachePath pkg =
    Some {| data := hint; modTime := t; readable := true |} ->
  in_int d ->
  getCachedIconPathWithTTL fs (t + d) pkg =
  if iconPathCacheTTL <? d then "" else TrimSpace hint.
Proof.
  intros He Hd. unfold Graphics.getCachedIconPathWithTTL, Stat, ReadFile.
  rewrite He. cbn [modTime readable data].
  unfold Since, Sub. replace (t + d - t) with d by lia.
  unfold clamp_int. unfold in_int in Hd.
  rewrite Z.min_r, Z.max_r by lia. reflexivity.
Qed.

(** C9.  A hint that is non-empty trimmed text, once saved at clock [t],
    is what the cache returns six days later, so that getIconPathViaADB
    answers with it without asking the tool; eight days later the cache
    returns the empty string, its sign of a miss.  A hint file that is
    missing or cannot be read gives the same miss. *)
Theorem hint_cache_ttl :
  forall fs fs' t pkg hint,
    hint <> "" ->
    TrimSpace hint = hint ->
    saveIconPathCache fs t pkg hint = (Ok tt, fs') ->
    (getCachedIconPathWithTTL fs' (t + 6 * Day) pkg = hint /\
     forall densityRange tools saved,
       getIconPathViaADB home Join Dir TrimSpace densityRange tools fs'
         (t + 6 * Day) saved pkg = (Ok hint, fs')) /\
    getCachedIconPathWithTTL fs' (t + 8 * Day) pkg = "" /\
    (forall fs0 now,
       Stat fs0 (getIconPathCachePath pkg) = None \/
       is_ok (ReadFile fs0 (getIconPathCachePath pkg)) = false ->
       getCachedIconPathWithTTL fs0 now pkg = "").
Proof.
  intros fs fs' t pkg hint Hne Htrim Hsave.
  pose proof (saved_entry _ _ _ _ _ Hsave) as He.
  assert (getCachedIconPathWithTTL fs' (t + 6 * Day) pkg = hint) as H6.
  { rewrite (read_after _ _ _ _ _ He) by (vm_compute; split; discriminate).
    rewrite Htrim. reflexivity. }
  split; [split; [exact H6|]|split].
  - intros densityRange tools saved. unfold getIconPathViaADB.
    rewrite H6. apply String.eqb_neq in Hne. rewrite Hne. reflexivity.
  - rewrite (read_after _ _ _ _ _ He) by (vm_compute; split; discriminate).
    reflexivity.
  - intros fs0 now [Hmissing|Hunreadable];
      unfold Graphics.getCachedIconPathWithTTL.
    + rewrite Hmissing. reflexivity.
    + destruct (Stat fs0 _); [|reflexivity].
      destruct (iconPathCacheTTL <? _); [reflexivity|].
      destruct (ReadFile fs0 _); [discriminate|reflexivity].
Qed.

End HintCache.

Definition slashJoin (parts : list string) : string := String.concat "/" parts.

(** filepath.Dir on slash-separated paths without a trailing slash. *)
Fixpoint lastSlash (s : string) (pos : nat) (found : option nat)
  : option nat :=
  match s with
  | EmptyString => found
  | String c rest =>
      lastSlash rest (S pos) (if Ascii.eqb c "/" then Some pos else found)
  end.

Definition slashDir (path : string) : string :=
  match lastSlash path 0 None with
  | None => "."
  | Some O => "/"
  | Some n => slice_to n path
  end.

Definition emptyFS : FS :=
  {| entries := ∅; protected := ∅; dirs := {[ "/"; "/home" ]} |}.

Definition exampleHint : string := "res/mipmap-hdpi/ic_launcher.png".

(** The file system after saving [exampleHint] for "com.x" at clock 0. *)
Definition savedFS : FS :=
  snd (saveIconPathCache "/home" slashJoin slashDir emptyFS 0 "com.x"
         exampleHint).

Lemma hint_cache_ttl_witness :
  getCachedIconPathWithTTL "/home" slashJoin asciiTrimSpace savedFS
    (0 + 6 * Day) "com.x" = exampleHint /\
  getCachedIconPathWithTTL "/home" slashJoin asciiTrimSpace savedFS
    (0 + 8 * Day) "com.x" = "".
Proof.
  pose proof (hint_cache_ttl "/home" slashJoin slashDir asciiTrimSpace emptyFS
                savedFS
                0 "com.x" exampleHint
                ltac:(discriminate) eq_refl eq_refl) as [[H6 _] [H8 _]].
  split; [exact H6|exact H8].
Defined.

(** ** The archive-tool query *)

(** The density-suffixed declarations of a badging dump, in order: the
    declared density and the quoted path. *)
Definition densityDecl (line : string) : option (Z * string) :=
  if negb (HasPrefix line "application-icon-") then None
  else
    match SplitN2 line ":" with
    | [p0; p1] => Some (Atoi (TrimPrefix p0 "application-icon-"), Trim1 p1 "'")
    | _ => None
    end.

Definition densityDecls (lines : list string) : list (Z * string) :=
  omap densityDecl lines.

(** The path returned for a declared path: a .png path itself, the .png
    beside a .xml path, nothing for any other path. *)
Definition iconOf (path : string) : option string :=
  if HasSuffix path ".png" then Some path
  else if HasSuffix path ".xml" then Some (TrimSuffix path ".xml" +:+ ".png")
  else None.

Definition declStep (st : string * Z) (d : Z * string) : string * Z :=
  let '(highestResIcon, highestRes) := st in
  let '(res, path) := d in
  if HasSuffix path ".png" then
    if highestRes <? res then (path, res) else st
  else if HasSuffix path ".xml" && String.eqb highestResIcon "" then
    (TrimSuffix path ".xml" +:+ ".png", res)
  else st.

Lemma densityStep_decl st line :
  densityStep st line =
  match densityDecl line with
  | Some d => declStep st d
  | None => st
  end.
Proof.
  unfold densityStep, densityDecl, declStep. destruct st as [icon res].
  destruct (HasPrefix line "application-icon-"); cbn [negb]; [|reflexivity].
  destruct (SplitN2 line ":") as [|p0 [|p1 [|? ?]]]; reflexivity.
Qed.

Lemma densityStep_fold lines st :
  fold_left densityStep lines st = fold_left declStep (densityDecls lines) st.
Proof.
  revert st. induction lines as [|line lines IH]; intros st; [reflexivity|].
  cbn [fold_left]. rewrite densityStep_decl, IH. unfold densityDecls.
  simpl. destruct (densityDecl line); reflexivity.
Qed.

Lemma HasSuffix_nonempty path suffix :
  suffix <> "" -> HasSuffix path suffix = true -> path <> "".
Proof.
  intros Hs H ->. unfold HasSuffix in H. destruct suffix; [congruence|].
  simpl in H. discriminate.
Qed.

Lemma append_nonempty a b : b <> "" -> a +:+ b <> "".
Proof. destruct a; simpl; [auto|discriminate]. Qed.

(** What the fallback scan holds after the declarations [seen]. *)
Definition scanned (seen : list (Z * string)) (st : string * Z) : Prop :=
  let '(icon, res) := st in
  if String.eqb icon "" then
    res = 0 /\
    forall r p, (r, p) ∈ seen ->
      iconOf p = None \/ (HasSuffix p ".png" = true /\ r <= 0)
  else
    (exists p, (res, p) ∈ seen /\ iconOf p = Some icon) /\
    forall r p, (r, p) ∈ seen -> HasSuffix p ".png" = true -> r <= Z.max res 0.

Lemma scanned_step seen st d :
  scanned seen st -> scanned (seen ++ [d]) (declStep st d).
Proof.
  destruct st as [icon res], d as [r p]. unfold scanned, declStep, iconOf.
  destruct (String.eqb icon "") eqn:Hicon.
  - intros [-> Hall].
    destruct (HasSuffix p ".png") eqn:Hpng.
    + destruct (0 <? r) eqn:Hr.
      * apply Z.ltb_lt in Hr.
        assert (String.eqb p "" = false) as ->
          by (apply String.eqb_neq, (HasSuffix_nonempty p ".png"); [discriminate|exact Hpng]).
        split.
        -- exists p. rewrite Hpng. split; [set_solver|reflexivity].
        -- intros r' p' [Hin|Hin]%elem_of_app Hp'.
           ++ destruct (Hall _ _ Hin) as [Hnone|[_ Hle]]; [|lia].
              rewrite Hp' in Hnone. discriminate.
           ++ apply list_elem_of_singleton in Hin. inversion Hin; subst. lia.
      * apply Z.ltb_ge in Hr. rewrite Hicon. split; [reflexivity|].
        intros r' p' [Hin|Hin]%elem_of_app; [auto|].
        apply list_elem_of_singleton in Hin. inversion Hin; subst.
        right. split; [exact Hpng|lia].
    + destruct (HasSuffix p ".xml") eqn:Hxml; cbn [andb].
      * assert (String.eqb (TrimSuffix p ".xml" +:+ ".png") "" = false) as ->
          by (apply String.eqb_neq, append_nonempty; discriminate).
        split.
        -- exists p. rewrite Hpng, Hxml. split; [set_solver|reflexivity].
        -- intros r' p' [Hin|Hin]%elem_of_app Hp'.
           ++ destruct (Hall _ _ Hin) as [Hnone|[_ Hle]]; [|lia].
              rewrite Hp' in Hnone. discriminate.
           ++ apply list_elem_of_singleton in Hin. inversion Hin; subst.
              congruence.
      * rewrite Hicon. split; [reflexivity|].
        intros r' p' [Hin|Hin]%elem_of_app; [auto|].
        apply list_elem_of_singleton in Hin. inversion Hin; subst.
        left. rewrite Hpng, Hxml. reflexivity.
  - intros [(p0 & Hin0 & Hp0) Hall].
    destruct (HasSuffix p ".png") eqn:Hpng.
    + destruct (res <? r) eqn:Hr.
      * apply Z.ltb_lt in Hr.
        assert (String.eqb p "" = false) as ->
          by (apply String.eqb_neq, (HasSuffix_nonempty p ".png"); [discriminate|exact Hpng]).
        split.
        -- exists p. rewrite Hpng. split; [set_solver|reflexivity].
        -- intros r' p' [Hin|Hin]%elem_of_app Hp'.
           ++ specialize (Hall _ _ Hin Hp'). lia.
           ++ apply list_elem_of_singleton in Hin. inversion Hin; subst. lia.
      * apply Z.ltb_ge in Hr. rewrite Hicon. split.
        -- exists p0. split; [set_solver|exact Hp0].
        -- intros r' p' [Hin|Hin]%elem_of_app Hp'; [eauto|].
           apply list_elem_of_singleton in Hin. inversion Hin; subst. lia.
    + rewrite andb_false_r. rewrite Hicon. split.
      * exists p0. split; [set_solver|exact Hp0].
      * intros r' p' [Hin|Hin]%elem_of_app Hp'; [eauto|].
        apply list_elem_of_singleton in Hin. inversion Hin; subst. congruence.
Qed.

Lemma scanned_fold decls seen st :
  scanned seen st -> scanned (seen ++ decls) (fold_left declStep decls st).
Proof.
  revert seen st. induction decls as [|d decls IH]; intros seen st H.
  - rewrite app_nil_r. exact H.
  - cbn [fold_left]. replace (seen ++ d :: decls) with ((seen ++ [d]) ++ decls)
      by (rewrite <- app_assoc; reflexivity).
    apply IH, scanned_step, H.
Qed.

Lemma firstApplicationIcon_none lines :
  Forall (fun l => applicationIcon l = None) lines ->
  firstApplicationIcon lines = None.
Proof.
  induction 1 as [|l lines Hl _ IH]; [reflexivity|].
  simpl. rewrite Hl. exact IH.
Qed.

Lemma firstApplicationIcon_first lines1 line lines2 p :
  Forall (fun l => applicationIcon l = None) lines1 ->
  applicationIcon line = Some p ->
  firstApplicationIcon (lines1 ++ line :: lines2) = Some p.
Proof.
  induction 1 as [|l lines Hl _ IH]; intros Hp; simpl.
  - rewrite Hp. reflexivity.
  - rewrite Hl. apply IH, Hp.
Qed.


(** *** The fallback scan, declaration by declaration *)

(** Declarations the scan passes over as long as nothing is chosen: no
    .xml path, and .png paths of a density that is not positive. *)
Definition idle (l : list (Z * string)) : Prop :=
  forall r p, (r, p) ∈ l ->
    (HasSuffix p ".png" = true -> r <= 0) /\
    (HasSuffix p ".png" = false -> HasSuffix p ".xml" = false).

(** A declaration the scan takes when nothing is chosen yet: a .png path
    of positive density, or a .xml path. *)
Definition takenFirst (d : Z * string) : Prop :=
  (HasSuffix (snd d) ".png" = true /\ 0 < fst d) \/
  (HasSuffix (snd d) ".png" = false /\ HasSuffix (snd d) ".xml" = true).

(** No .png declaration of [l] has a density above [bound], respectively
    of [bound] or above. *)
Definition noHigherPng (bound : Z) (l : list (Z * string)) : Prop :=
  forall r p, (r, p) ∈ l -> HasSuffix p ".png" = true -> r <= bound.

Definition lowerPng (bound : Z) (l : list (Z * string)) : Prop :=
  forall r p, (r, p) ∈ l -> HasSuffix p ".png" = true -> r < bound.

(** [icon] of density [res] is what the scan of [decls] settles on: the
    first declaration it takes is [base]; the answer is [base] itself
    while no later .png declaration has a higher density, and otherwise
    the first of the later .png declarations of highest density. *)
Definition settled (decls : list (Z * string)) (icon : string) (res : Z)
  : Prop :=
  exists pre base mid,
    decls = pre ++ base :: mid /\ idle pre /\ takenFirst base /\
    ((iconOf (snd base) = Some icon /\ res = fst base /\
      noHigherPng (fst base) mid) \/
     (exists m1 c m2,
        mid = m1 ++ c :: m2 /\
        HasSuffix (snd c) ".png" = true /\ icon = snd c /\ res = fst c /\
        fst base < fst c /\ lowerPng (fst c) m1 /\ noHigherPng (fst c) m2)).

Definition scanState (seen : list (Z * string)) (st : string * Z) : Prop :=
  if String.eqb (fst st) "" then snd st = 0 /\ idle seen
  else settled seen (fst st) (snd st).

Lemma idle_snoc l r p :
  idle l ->
  (HasSuffix p ".png" = true -> r <= 0) ->
  (HasSuffix p ".png" = false -> HasSuffix p ".xml" = false) ->
  idle (l ++ [(r, p)]).
Proof.
  intros Hl H1 H2 r' p' Hin. apply elem_of_app in Hin as [Hin|Hin].
  - exact (Hl _ _ Hin).
  - apply list_elem_of_singleton in Hin. injection Hin as -> ->. auto.
Qed.

Lemma noHigherPng_snoc bound l r p :
  noHigherPng bound l ->
  (HasSuffix p ".png" = true -> r <= bound) ->
  noHigherPng bound (l ++ [(r, p)]).
Proof.
  intros Hl H1 r' p' Hin Hp. apply elem_of_app in Hin as [Hin|Hin].
  - exact (Hl _ _ Hin Hp).
  - apply list_elem_of_singleton in Hin. injection Hin as -> ->. auto.
Qed.

Lemma noHigherPng_lower bound bound' l :
  noHigherPng bound l -> bound < bound' -> lowerPng bound' l.
Proof. intros Hl Hlt r p Hin Hp. specialize (Hl _ _ Hin Hp). lia. Qed.

Lemma lowerPng_app bound l1 l2 :
  lowerPng bound l1 -> lowerPng bound l2 -> lowerPng bound (l1 ++ l2).
Proof.
  intros H1 H2 r p Hin Hp. apply elem_of_app in Hin as [Hin|Hin]; eauto.
Qed.

Lemma lowerPng_weaken bound bound' l :
  lowerPng bound l -> bound <= bound' -> lowerPng bound' l.
Proof. intros Hl Hle r p Hin Hp. specialize (Hl _ _ Hin Hp). lia. Qed.

Lemma lowerPng_cons bound r p l :
  (HasSuffix p ".png" = true -> r < bound) -> lowerPng bound l ->
  lowerPng bound ((r, p) :: l).
Proof.
  intros H1 Hl r' p' Hin Hp. apply elem_of_cons in Hin as [Hin|Hin].
  - injection Hin as -> ->. auto.
  - exact (Hl _ _ Hin Hp).
Qed.

Lemma snoc_cons {A} (l : list A) x l' y :
  (l ++ x :: l') ++ [y] = l ++ x :: (l' ++ [y]).
Proof. rewrite <- app_assoc. reflexivity. Qed.

Lemma scanState_step seen st d :
  scanState seen st -> scanState (seen ++ [d]) (declStep st d).
Proof.
  destruct st as [icon hi], d as [r p]. unfold scanState, declStep.
  cbn [fst snd].
  destruct (String.eqb icon "") eqn:Hicon.
  - (* nothing chosen yet *)
    intros [-> Hidle].
    destruct (HasSuffix p ".png") eqn:Hpng.
    + destruct (0 <? r) eqn:Hr; cbn [fst snd].
      * apply Z.ltb_lt in Hr.
        assert (String.eqb p "" = false) as ->
          by (apply String.eqb_neq, (HasSuffix_nonempty p ".png");
              [discriminate|exact Hpng]).
        exists seen, (r, p), []. split; [reflexivity|].
        split; [exact Hidle|]. split; [left; cbn; auto|]. left.
        unfold iconOf. cbn [fst snd]. rewrite Hpng.
        split; [reflexivity|]. split; [reflexivity|].
        intros r' p' Hin. inversion Hin.
      * apply Z.ltb_ge in Hr. rewrite Hicon. split; [reflexivity|].
        apply idle_snoc; [exact Hidle|intros _; exact Hr|congruence].
    + destruct (HasSuffix p ".xml") eqn:Hxml; cbn [andb fst snd].
      * assert (String.eqb (TrimSuffix p ".xml" +:+ ".png") "" = false) as ->
          by (apply String.eqb_neq, append_nonempty; discriminate).
        exists seen, (r, p), []. split; [reflexivity|].
        split; [exact Hidle|]. split; [right; cbn; auto|]. left.
        unfold iconOf. cbn [fst snd]. rewrite Hpng, Hxml.
        split; [reflexivity|]. split; [reflexivity|].
        intros r' p' Hin. inversion Hin.
      * rewrite Hicon. split; [reflexivity|].
        apply idle_snoc; [exact Hidle|congruence|intros _; exact Hxml].
  - (* a declaration is chosen *)
    intros (pre & base & mid & -> & Hidle & Hbase & Hsettled).
    assert ((HasSuffix p ".png" = true -> r <= hi) ->
            settled ((pre ++ base :: mid) ++ [(r, p)]) icon hi) as Hkeep.
    { intros Hle. exists pre, base, (mid ++ [(r, p)]).
      split; [apply snoc_cons|]. split; [exact Hidle|].
      split; [exact Hbase|].
      destruct Hsettled as [(Hi & -> & Hmid)|
                            (m1 & c & m2 & -> & Hc & -> & -> & Hlt & Hm1 & Hm2)].
      - left. split; [exact Hi|]. split; [reflexivity|].
        apply noHigherPng_snoc; assumption.
      - right. exists m1, c, (m2 ++ [(r, p)]).
        split; [apply snoc_cons|]. split; [exact Hc|].
        split; [reflexivity|]. split; [reflexivity|].
        split; [exact Hlt|]. split; [exact Hm1|].
        apply noHigherPng_snoc; assumption. }
    destruct (HasSuffix p ".png") eqn:Hpng.
    + destruct (hi <? r) eqn:Hr; cbn [fst snd].
      * apply Z.ltb_lt in Hr.
        assert (String.eqb p "" = false) as ->
          by (apply String.eqb_neq, (HasSuffix_nonempty p ".png");
              [discriminate|exact Hpng]).
        exists pre, base, (mid ++ [(r, p)]).
        split; [apply snoc_cons|]. split; [exact Hidle|].
        split; [exact Hbase|]. right.
        exists mid, (r, p), []. cbn [fst snd].
        split; [reflexivity|]. split; [exact Hpng|].
        split; [reflexivity|]. split; [reflexivity|].
        destruct Hsettled as [(Hi & -> & Hmid)|
                              (m1 & c & m2 & -> & Hc & -> & -> & Hlt & Hm1 & Hm2)].
        -- split; [exact Hr|]. split.
           ++ eapply noHigherPng_lower; eassumption.
           ++ intros r' p' Hin. inversion Hin.
        -- split; [lia|]. split.
           ++ apply lowerPng_app.
              ** eapply lowerPng_weaken; [exact Hm1|lia].
              ** destruct c as [rc pc]. cbn [fst snd] in *.
                 apply lowerPng_cons; [intros _; exact Hr|].
                 eapply noHigherPng_lower; eassumption.
           ++ intros r' p' Hin. inversion Hin.
      * apply Z.ltb_ge in Hr. rewrite Hicon. apply Hkeep. intros _. exact Hr.
    + rewrite andb_false_r. cbn [fst snd]. rewrite Hicon. apply Hkeep.
      discriminate.
Qed.

Lemma scanState_fold decls seen st :
  scanState seen st -> scanState (seen ++ decls) (fold_left declStep decls st).
Proof.
  revert seen st. induction decls as [|d decls IH]; intros seen st H.
  - rewrite app_nil_r. exact H.
  - cbn [fold_left]. replace (seen ++ d :: decls) with ((seen ++ [d]) ++ decls)
      by (rewrite <- app_assoc; reflexivity).
    apply IH, scanState_step, H.
Qed.

(** With densities that are not negative the declaration the scan
    settles on has a density no .png declaration exceeds. *)
Lemma settled_highest decls icon res :
  Forall (fun d => 0 <= fst d) decls ->
  settled decls icon res ->
  exists path,
    (res, path) ∈ decls /\ iconOf path = Some icon /\
    noHigherPng res decls.
Proof.
  intros Hnn (pre & base & mid & -> & Hidle & Hbase & Hsettled).
  rewrite Forall_forall in Hnn.
  assert (0 <= fst base) as Hb.
  { apply Hnn. apply elem_of_app. right. left. }
  destruct Hsettled as [(Hi & -> & Hmid)|
                        (m1 & c & m2 & -> & Hc & -> & -> & Hlt & Hm1 & Hm2)].
  - exists (snd base). split.
    { apply elem_of_app. right. destruct base. left. }
    split; [exact Hi|].
    intros r p Hin Hp. apply elem_of_app in Hin as [Hin|Hin].
    + destruct (Hidle _ _ Hin) as [Hle _]. specialize (Hle Hp). lia.
    + apply elem_of_cons in Hin as [Hin|Hin].
      * rewrite <- Hin. cbn. lia.
      * exact (Hmid _ _ Hin Hp).
  - exists (snd c). split.
    { apply elem_of_app. right. right. apply elem_of_app. right.
      destruct c. left. }
    split; [unfold iconOf; rewrite Hc; reflexivity|].
    intros r p Hin Hp. apply elem_of_app in Hin as [Hin|Hin].
    + destruct (Hidle _ _ Hin) as [Hle _]. specialize (Hle Hp). lia.
    + apply elem_of_cons in Hin as [Hin|Hin].
      * rewrite <- Hin in Hlt. cbn in Hlt. lia.
      * apply elem_of_app in Hin as [Hin|Hin].
        -- specialize (Hm1 _ _ Hin Hp). lia.
        -- apply elem_of_cons in Hin as [Hin|Hin].
           ++ rewrite <- Hin. cbn. lia.
           ++ exact (Hm2 _ _ Hin Hp).
Qed.

(** C6 (as amended).  [applicationIcon] is what one "application:" line
    yields: the .png path of its icon assignment, or the .png beside its
    .xml path, and nothing for any other path.  The first line that
    yields a path decides, whatever the density-suffixed declarations
    say.  When no line yields one, the density-suffixed declarations
    decide, in their order: those before the first .xml path or .png
    path of positive density are passed over; that declaration is the
    answer (a .xml path replaced by the .png beside it) unless a later
    .png declaration has a strictly higher density, and then the answer
    is the first of the later .png declarations of highest density.  A
    .xml declaration is thus taken only while nothing has been chosen,
    and a later one is passed over whatever its density.  The query
    fails exactly when every declaration is passed over.  Where no
    declared density is negative, no .png declaration has a higher
    density than the declaration that is returned. *)
Theorem getIconPathFromAAPT2_choice :
  forall tools apkPath output,
    aapt2_dump_badging tools apkPath = Ok output ->
    let lines := Split output (String "010" "") in
    let decls := densityDecls lines in
    (forall lines1 line lines2 p,
       lines = lines1 ++ line :: lines2 ->
       Forall (fun l => applicationIcon l = None) lines1 ->
       applicationIcon line = Some p ->
       getIconPathFromAAPT2 tools apkPath = Ok p) /\
    (Forall (fun l => applicationIcon l = None) lines ->
     match getIconPathFromAAPT2 tools apkPath with
     | Ok p =>
         (exists pre base mid,
            decls = pre ++ base :: mid /\ idle pre /\ takenFirst base /\
            ((iconOf (snd base) = Some p /\ noHigherPng (fst base) mid) \/
             (exists m1 c m2,
                mid = m1 ++ c :: m2 /\
                HasSuffix (snd c) ".png" = true /\ p = snd c /\
                fst base < fst c /\
                lowerPng (fst c) m1 /\ noHigherPng (fst c) m2))) /\
         (Forall (fun d => 0 <= fst d) decls ->
          exists res path,
            (res, path) ∈ decls /\ iconOf path = Some p /\
            noHigherPng res decls)
     | Err _ => idle decls
     end).
Proof.
  intros tools apkPath output Hout lines decls. unfold getIconPathFromAAPT2.
  rewrite Hout. unfold parseBadging. fold lines. split.
  - intros lines1 line lines2 p -> Hnone Hp.
    rewrite (firstApplicationIcon_first _ _ _ _ Hnone Hp). reflexivity.
  - intros Hnone. rewrite (firstApplicationIcon_none _ Hnone).
    rewrite densityStep_fold. fold decls.
    assert (scanState [] ("", 0)) as H0.
    { split; [reflexivity|]. intros r p Hin. inversion Hin. }
    pose proof (scanState_fold decls [] ("", 0) H0) as Hs.
    rewrite app_nil_l in Hs.
    destruct (fold_left declStep decls ("", 0)) as [icon res].
    unfold scanState in Hs. cbn [fst snd] in Hs.
    destruct (String.eqb icon ""); [exact (proj2 Hs)|].
    split.
    + destruct Hs as (pre & base & mid & Hd & Hidle & Hbase & Hsettled).
      exists pre, base, mid. split; [exact Hd|]. split; [exact Hidle|].
      split; [exact Hbase|].
      destruct Hsettled as [(Hi & _ & Hmid)|
                            (m1 & c & m2 & Hm & Hc & Hp & _ & Hrest)].
      * left. auto.
      * right. exists m1, c, m2. auto.
    + intros Hnn. destruct (settled_highest _ _ _ Hnn Hs) as (path & H).
      exists res, path. exact H.
Qed.

(** ** The order of the extraction strategies *)

Section Extraction.

Variable home : string.
Variable Join : list string -> string.
Variable Dir : string -> string.
Variable TrimSpace : string -> string.
Variable densityRange : list (string * Z).
Variable rangeFiles : gmap string ZipFile -> list (string * ZipFile).
Variable Pixels : Type.
Variable image_Decode : string -> Result (Image Pixels).

Abbreviation openAndDecode := (openAndDecode Pixels image_Decode).
Abbreviation lookupPatterns := (lookupPatterns Pixels image_Decode).
Abbreviation getIconPathViaADB :=
  (getIconPathViaADB home Join Dir TrimSpace densityRange).
Abbreviation extractIconFromAPK :=
  (extractIconFromAPK home Join Dir TrimSpace densityRange rangeFiles Pixels
     image_Decode).




(** When no hint is cached and rish is missing or its query fails, the
    introspection query fails; when aapt2 cannot be run, so does the
    archive-tool query. *)
Lemma getIconPathViaADB_unavailable tools fs now saved pkg :
  getCachedIconPathWithTTL home Join TrimSpace fs now pkg = "" ->
  Stat fs (Join [home; ".rish"; "rish"]) = None \/
  is_ok (rish_pm_dump tools pkg) = false ->
  is_ok (fst (getIconPathViaADB tools fs now saved pkg)) = false.
Proof.
  intros Hmiss Hrish. unfold Graphics.getIconPathViaADB. rewrite Hmiss.
  cbn [String.eqb negb].
  destruct (Stat fs (Join [home; ".rish"; "rish"])); [|reflexivity].
  destruct Hrish as [Hr|Hr]; [discriminate|].
  destruct (rish_pm_dump tools pkg); [discriminate|reflexivity].
Qed.

Lemma getIconPathFromAAPT2_unavailable tools apkPath :
  is_ok (aapt2_dump_badging tools apkPath) = false ->
  is_ok (getIconPathFromAAPT2 tools apkPath) = false.
Proof.
  unfold getIconPathFromAAPT2.
  destruct (aapt2_dump_badging tools apkPath); [discriminate|reflexivity].
Qed.


Lemma drawablePatterns_no_mipmap :
  forallb (fun p => negb (Contains p "mipmap")) drawablePatterns = true.
Proof. vm_compute. reflexivity. Qed.


End Extraction.

(** ** Witnesses and counterexamples for the extraction *)

Definition noTools : Tools :=
  {| rish_pm_dump := fun _ => Err "exit status 1";
     aapt2_dump_badging := fun _ => Err "executable file not found";
     zip_OpenReader := fun _ => Err "no such file" |}.

Definition badgingTools (output : string) : Tools :=
  {| rish_pm_dump := fun _ => Err "exit status 1";
     aapt2_dump_badging := fun _ => Ok output;
     zip_OpenReader := fun _ => Err "no such file" |}.

Definition lf : string := String "010" "".

(** A dump with a usable top-level assignment. *)
Definition badgingTop : string :=
  "application-icon-160:'res/m.png'" +:+ lf +:+
  "application-icon-640:'res/x.png'" +:+ lf +:+
  "application: label='Shelf' icon='res/top.xml'".

(** A dump of density-suffixed declarations only, as aapt2 prints them
    for an adaptive icon. *)
Definition badgingDensities : string :=
  "application-icon-160:'res/m.png'" +:+ lf +:+
  "application-icon-640:'res/x.png'" +:+ lf +:+
  "application-icon-65534:'res/any.xml'".

(** A top-level assignment of a path that is neither .png nor .xml. *)
Definition badgingWebp : string :=
  "application: label='Shelf' icon='res/top.webp'" +:+ lf +:+
  "application-icon-160:'res/m.png'".

Lemma getIconPathFromAAPT2_choice_witness :
  getIconPathFromAAPT2 (badgingTools badgingTop) "base.apk" = Ok "res/top.png" /\
  exists res path,
    (res, path) ∈ densityDecls (Split badgingDensities lf) /\
    iconOf path = Some "res/x.png" /\
    noHigherPng res (densityDecls (Split badgingDensities lf)).
Proof.
  split.
  - apply (proj1 (getIconPathFromAAPT2_choice (badgingTools badgingTop)
                    "base.apk" badgingTop eq_refl)
             ["application-icon-160:'res/m.png'";
              "application-icon-640:'res/x.png'"]
             "application: label='Shelf' icon='res/top.xml'" []).
    + vm_compute. reflexivity.
    + repeat constructor.
    + vm_compute. reflexivity.
  - pose proof (proj2 (getIconPathFromAAPT2_choice
                         (badgingTools badgingDensities) "base.apk"
                         badgingDensities eq_refl)) as H.
    cbv zeta in H.
    assert (getIconPathFromAAPT2 (badgingTools badgingDensities) "base.apk"
            = Ok "res/x.png") as E by (vm_compute; reflexivity).
    rewrite E in H.
    assert (Split badgingDensities (String "010" "") =
            ["application-icon-160:'res/m.png'";
             "application-icon-640:'res/x.png'";
             "application-icon-65534:'res/any.xml'"]) as Hlines
      by (vm_compute; reflexivity).
    rewrite Hlines in H. apply H.
    + repeat (constructor; [vm_compute; reflexivity|]). constructor.
    + assert (densityDecls ["application-icon-160:'res/m.png'";
                            "application-icon-640:'res/x.png'";
                            "application-icon-65534:'res/any.xml'"] =
              [(160, "res/m.png"); (640, "res/x.png");
               (65534, "res/any.xml")]) as ->
        by (vm_compute; reflexivity).
      repeat (constructor; [cbn; lia|]). constructor.
Defined.

(** C6 as the specification words it fails twice.  A top-level icon
    assignment of a .webp path is passed over for a density-suffixed
    declaration, and the .xml declaration of density 65534 is passed over
    for the .png declaration of density 640. *)
Lemma getIconPathFromAAPT2_claim_counterexample :
  getIconPathFromAAPT2 (badgingTools badgingWebp) "base.apk" = Ok "res/m.png" /\
  densityDecls (Split badgingDensities lf) =
    [(160, "res/m.png"); (640, "res/x.png"); (65534, "res/any.xml")] /\
  getIconPathFromAAPT2 (badgingTools badgingDensities) "base.apk"
    = Ok "res/x.png".
Proof. repeat split; vm_compute; reflexivity. Qed.

(** An archive with one drawable launcher icon and nothing else of
    interest, and a decoder that accepts its bytes. *)
Definition drawableOnly : list ZipFile :=
  [ {| Name := "res/drawable-hdpi/ic_launcher.png";
       UncompressedSize64 := 4096; Open := Ok "PNG48" |} ].

Definition drawableTools : Tools :=
  {| rish_pm_dump := fun _ => Err "exit status 1";
     aapt2_dump_badging := fun _ => Err "executable file not found";
     zip_OpenReader := fun _ => Ok drawableOnly |}.

Definition decode48 (bytes : string) : Result (Image unit) :=
  if String.eqb bytes "PNG48" then Ok {| Dx := 48; Dy := 48; pixels := tt |}
  else Err "image: unknown format".

Definition rangeAll (m : gmap string ZipFile) : list (string * ZipFile) :=
  map_to_list m.


(** ** Aspect-fit scaling *)

Definition flat (w h : Z) : Image unit := {| Dx := w; Dy := h; pixels := tt |}.

Definition noResample (_ : Image unit) (_ _ : Z) : unit := tt.

(** The aspect ratios of [a] and [b] differ by at most [num/den] of the
    aspect ratio of [a]. *)
Definition aspectWithin (num den : Z) (a b : Image unit) : Prop :=
  den * Z.abs (Dx unit b * Dy unit a - Dx unit a * Dy unit b)
    <= num * (Dx unit a * Dy unit b).

(** C7 as the specification words it fails.  A 3x2 image fitted into 2x2
    becomes 2x1 and a 100x1 image fitted into 10x10 becomes 10x1: the
    aspect ratio moves by a third and by a factor of ten, which no
    rounding of float64 accounts for. *)
Lemma ScaleImageAspectFit_claim_counterexample :
  (ScaleImageAspectFit unit noResample (flat 3 2) 2 2 = Some (flat 2 1) /\
   ~ aspectWithin 1 4 (flat 3 2) (flat 2 1)) /\
  (ScaleImageAspectFit unit noResample (flat 100 1) 10 10
     = Some (flat 10 1) /\
   ~ aspectWithin 1 4 (flat 100 1) (flat 10 1)).
Proof.
  split; (split; [vm_compute; reflexivity|]);
    vm_compute; intros H; apply H; reflexivity.
Qed.


(** ** What the two path parsers can answer *)

Lemma slice_from_app a b : slice_from (String.length a) (a +:+ b) = b.
Proof. induction a as [|c a IH]; [destruct b; reflexivity|exact IH]. Qed.

Lemma length_app a b :
  String.length (a +:+ b) = (String.length a + String.length b)%nat.
Proof. induction a as [|c a IH]; simpl; [reflexivity|]. rewrite IH. reflexivity. Qed.

Lemma HasSuffix_app a b : HasSuffix (a +:+ b) b = true.
Proof.
  unfold HasSuffix. rewrite length_app.
  replace (String.length a + String.length b - String.length b)%nat
    with (String.length a) by lia.
  rewrite slice_from_app, String.eqb_refl.
  rewrite andb_true_r. apply Nat.leb_le. lia.
Qed.

Lemma iconOf_png path p : iconOf path = Some p -> HasSuffix p ".png" = true.
Proof.
  unfold iconOf. destruct (HasSuffix path ".png") eqn:Hpng.
  - intros [= <-]. exact Hpng.
  - destruct (HasSuffix path ".xml"); [|discriminate].
    intros [= <-]. apply HasSuffix_app.
Qed.

Lemma applicationIcon_png line p :
  applicationIcon line = Some p -> HasSuffix p ".png" = true.
Proof.
  unfold applicationIcon.
  destruct (negb (HasPrefix line "application:")); [discriminate|].
  destruct (Index line "icon='" <? 0); [discriminate|].
  destruct (Index _ "'" <? 0); [discriminate|].
  set (iconPath := slice_to _ _).
  destruct (HasSuffix iconPath ".xml").
  - intros [= <-]. apply HasSuffix_app.
  - destruct (HasSuffix iconPath ".png") eqn:Hpng; [|discriminate].
    intros [= <-]. exact Hpng.
Qed.

Lemma firstApplicationIcon_png lines p :
  firstApplicationIcon lines = Some p -> HasSuffix p ".png" = true.
Proof.
  induction lines as [|line lines IH]; simpl; [discriminate|].
  destruct (applicationIcon line) as [q|] eqn:Hq; [|exact IH].
  intros [= <-]. eapply applicationIcon_png, Hq.
Qed.

Lemma png_not_xml p : HasSuffix p ".png" = true -> HasSuffix p ".xml" = false.
Proof.
  unfold HasSuffix. change (String.length ".xml") with (String.length ".png").
  destruct (_ <=? _)%nat; [|reflexivity]. cbn [andb].
  intros Hpng. apply String.eqb_eq in Hpng. rewrite Hpng. reflexivity.
Qed.

Lemma fold_left_preserves {S X} (Q : S -> Prop) (step : S -> X -> S) l st :
  (forall st x, Q st -> Q (step st x)) -> Q st -> Q (fold_left step l st).
Proof.
  intros Hstep. revert st. induction l as [|x l IH]; intros st H; simpl;
    [exact H|]. apply IH, Hstep, H.
Qed.

Section PathParsers.

Variable TrimSpace : string -> string.
Variable densityRange : list (string * Z).

Abbreviation pmDumpStep := (pmDumpStep TrimSpace densityRange).
Abbreviation parseIconFromPMDump := (parseIconFromPMDump TrimSpace densityRange).

Definition emptyOrPng (s : string) : Prop :=
  s = "" \/ HasSuffix s ".png" = true.

Lemma pmDumpStep_png st line :
  emptyOrPng (fst st) -> emptyOrPng (fst (pmDumpStep st line)).
Proof.
  destruct st as [best res]. unfold Graphics.pmDumpStep. cbn [fst]. intros H.
  destruct (negb (Contains (TrimSpace line) "icon=")); [exact H|].
  destruct (Split (TrimSpace line) "icon=") as [|p0 [|p1 rest]]; try exact H.
  set (iconPart := if _ <? 0 then _ else _).
  destruct (HasSuffix iconPart ".png") eqn:Hpng.
  - destruct (res <? _); [right; exact Hpng|exact H].
  - destruct (HasSuffix iconPart ".xml" && String.eqb best ""); [|exact H].
    right. apply HasSuffix_app.
Qed.

(** X8.  Both parsers of tool output answer with .png paths only: a path
    from getIconPathFromAAPT2 always ends in ".png", and so does the
    path from parseIconFromPMDump unless it is empty.  What aapt2
    declares as .xml has been replaced before it is returned, so the
    second lookup that extractIconFromAPK keeps for a .xml answer of
    aapt2 finds nothing to do. *)
Theorem tool_paths_end_in_png :
  (forall tools apkPath p,
     getIconPathFromAAPT2 tools apkPath = Ok p ->
     HasSuffix p ".png" = true /\ HasSuffix p ".xml" = false) /\
  (forall output,
     parseIconFromPMDump output = "" \/
     HasSuffix (parseIconFromPMDump output) ".png" = true).
Proof.
  split.
  - intros tools apkPath p. unfold getIconPathFromAAPT2.
    destruct (aapt2_dump_badging tools apkPath) as [output|e]; [|discriminate].
    unfold parseBadging.
    assert (HasSuffix p ".png" = true -> 
            HasSuffix p ".png" = true /\ HasSuffix p ".xml" = false) as Hboth.
    { intros Hpng. split; [exact Hpng|]. apply png_not_xml, Hpng. }
    destruct (firstApplicationIcon _) as [q|] eqn:Hq.
    + intros [= <-]. eapply Hboth, firstApplicationIcon_png, Hq.
    + rewrite densityStep_fold.
      assert (scanned [] ("", 0)) as H0.
      { simpl. split; [reflexivity|]. intros r q Hin. inversion Hin. }
      pose proof (scanned_fold
                    (densityDecls (Split output (String "010" ""))) []
                    ("", 0) H0) as Hs.
      destruct (fold_left declStep _ _) as [icon res].
      unfold scanned in Hs. destruct (String.eqb icon ""); [discriminate|].
      intros [= <-]. destruct Hs as [(q & _ & Hq') _].
      eapply Hboth, iconOf_png, Hq'.
  - intros output. unfold Graphics.parseIconFromPMDump.
    apply (fold_left_preserves (fun st => emptyOrPng (fst st))).
    + intros st line. apply pmDumpStep_png.
    + left. reflexivity.
Qed.

End PathParsers.

Definition rishDump : string :=
  "    versionName=1.0" +:+ lf +:+
  "    icon=res/mipmap-mdpi/ic.png labelRes=0x7f" +:+ lf +:+
  "    icon=res/mipmap-xxhdpi/ic.png labelRes=0x7f" +:+ lf +:+
  "    icon=res/mipmap-anydpi/ic.xml".

Lemma tool_paths_end_in_png_witness :
  getIconPathFromAAPT2 (badgingTools badgingDensities) "base.apk"
    = Ok "res/x.png" /\
  HasSuffix "res/x.png" ".png" = true /\
  HasSuffix "res/x.png" ".xml" = false /\
  parseIconFromPMDump asciiTrimSpace densityMap rishDump
    = "res/mipmap-xxhdpi/ic.png".
Proof.
  assert (getIconPathFromAAPT2 (badgingTools badgingDensities) "base.apk"
            = Ok "res/x.png") as H by (vm_compute; reflexivity).
  split; [exact H|].
  pose proof (proj1 (tool_paths_end_in_png asciiTrimSpace densityMap)
                (badgingTools badgingDensities) "base.apk" "res/x.png" H)
    as [Hpng Hxml].
  split; [exact Hpng|]. split; [exact Hxml|]. vm_compute. reflexivity.
Defined.

(** ** The two disk caches across calls *)

(** [fs'] differs from [fs] in the files at the paths [ps] at most and
    in directories among [ds] that were made; no directory is removed
    and the protected paths are the same. *)
Definition changedWithin (ps ds : list string) (fs fs' : FS) : Prop :=
  protected fs' = protected fs /\
  (forall path, path ∉ ps -> entries fs' !! path = entries fs !! path) /\
  dirs fs ⊆ dirs fs' /\
  (forall d, d ∈ dirs fs' -> d ∈ dirs fs \/ d ∈ ds).

Lemma changedWithin_refl ps ds fs : changedWithin ps ds fs fs.
Proof.
  split; [reflexivity|]. split; [intros; reflexivity|].
  split; [reflexivity|]. intros d Hd. left. exact Hd.
Qed.

Lemma changedWithin_trans ps ds fs1 fs2 fs3 :
  changedWithin ps ds fs1 fs2 -> changedWithin ps ds fs2 fs3 ->
  changedWithin ps ds fs1 fs3.
Proof.
  intros (Hp1 & He1 & Hs1 & Hd1) (Hp2 & He2 & Hs2 & Hd2).
  split; [congruence|]. split.
  { intros path Hpath. rewrite He2, He1 by exact Hpath. reflexivity. }
  split; [set_solver|].
  intros d Hd. destruct (Hd2 d Hd) as [H|H]; [exact (Hd1 d H)|right; exact H].
Qed.

Lemma changedWithin_weaken ps ds qs es fs fs' :
  ps ⊆ qs -> ds ⊆ es -> changedWithin ps ds fs fs' ->
  changedWithin qs es fs fs'.
Proof.
  intros Hsub Hsub' (Hp & He & Hs & Hd). split; [exact Hp|]. split.
  { intros path Hpath. apply He. intros Hin. apply Hpath, Hsub, Hin. }
  split; [exact Hs|].
  intros d Hin. destruct (Hd d Hin) as [H|H]; [left; exact H|].
  right. apply Hsub', H.
Qed.

Section IconCaches.

Variable home : string.
Variable Join : list string -> string.
Variable Dir : string -> string.
Variable TrimSpace : string -> string.
Variable densityRange : list (string * Z).
Variable rangeFiles : gmap string ZipFile -> list (string * ZipFile).
Variable Pixels : Type.
Variable image_Decode : string -> Result (Image Pixels).
Variable png_Encode : Image Pixels -> Result string.

Abbreviation MkdirAll := (MkdirAll Dir).
Abbreviation WriteFile := (WriteFile Dir).
Abbreviation getCachedIconPath := (getCachedIconPath home Join).
Abbreviation getIconPathCachePath := (getIconPathCachePath home Join).
Abbreviation getCachedIconPathWithTTL :=
  (getCachedIconPathWithTTL home Join TrimSpace).
Abbreviation saveIconPathCache := (saveIconPathCache home Join Dir).
Abbreviation getIconPathViaADB :=
  (getIconPathViaADB home Join Dir TrimSpace densityRange).
Abbreviation extractIconFromAPK :=
  (extractIconFromAPK home Join Dir TrimSpace densityRange rangeFiles Pixels
     image_Decode).
Abbreviation LoadImage := (LoadImage Pixels image_Decode).
Abbreviation SaveImage := (SaveImage Dir Pixels png_Encode).
Abbreviation tryArchives :=
  (tryArchives home Join Dir TrimSpace densityRange rangeFiles Pixels
     image_Decode).
Abbreviation ExtractAPKIcon :=
  (ExtractAPKIcon home Join Dir TrimSpace densityRange rangeFiles Pixels
     image_Decode png_Encode).

(** The directories MkdirAll makes for the file at [path]. *)
Definition dirsTo (path : string) : list string :=
  withParents Dir (String.length (Dir path)) (Dir path).

Lemma withParents_head n dir : dir ∈ withParents Dir n dir.
Proof.
  destruct n; cbn [withParents]; [left|].
  destruct (String.eqb (Dir dir) dir); left.
Qed.

Lemma MkdirAll_within fs path :
  changedWithin [] (dirsTo path) fs (MkdirAll fs (Dir path)).
Proof.
  unfold Graphics.MkdirAll. split; [reflexivity|].
  split; [intros; reflexivity|]. cbn [dirs]. split; [set_solver|].
  intros d Hd. apply elem_of_union in Hd as [Hd|Hd]; [left; exact Hd|].
  right. apply elem_of_list_to_set in Hd. exact Hd.
Qed.

Lemma MkdirAll_made fs dir : dir ∈ dirs (MkdirAll fs dir).
Proof.
  unfold Graphics.MkdirAll. cbn [dirs]. apply elem_of_union. right.
  apply elem_of_list_to_set, withParents_head.
Qed.

Lemma MkdirAll_protected fs dir : protected (MkdirAll fs dir) = protected fs.
Proof. reflexivity. Qed.

Lemma WriteFile_within fs t path content fs' :
  WriteFile fs t path content = Ok fs' -> changedWithin [path] [] fs fs'.
Proof.
  unfold Graphics.WriteFile.
  destruct (decide (Dir path ∈ dirs fs)); [|discriminate].
  destruct (decide (path ∈ protected fs)); [discriminate|].
  intros [= <-]. split; [reflexivity|]. cbn [entries dirs]. split.
  { intros q Hq. apply lookup_insert_ne. intros ->. apply Hq. left. }
  split; [reflexivity|]. intros d Hd. left. exact Hd.
Qed.

Lemma WriteFile_entry fs t path content :
  Dir path ∈ dirs fs ->
  path ∉ protected fs ->
  exists fs',
    WriteFile fs t path content = Ok fs' /\
    protected fs' = protected fs /\
    dirs fs' = dirs fs /\
    entries fs' !! path =
      Some {| data := content; modTime := t; readable := true |}.
Proof.
  intros Hdir Hfree. unfold Graphics.WriteFile.
  destruct (decide (Dir path ∈ dirs fs)); [|contradiction].
  destruct (decide (path ∈ protected fs)); [contradiction|].
  eexists. split; [reflexivity|]. split; [reflexivity|].
  split; [reflexivity|]. apply lookup_insert_eq.
Qed.

Lemma saveIconPathCache_within fs t pkg iconPath :
  changedWithin [getIconPathCachePath pkg] (dirsTo (getIconPathCachePath pkg))
    fs (snd (saveIconPathCache fs t pkg iconPath)).
Proof.
  unfold Graphics.saveIconPathCache.
  pose proof (MkdirAll_within fs (getIconPathCachePath pkg)) as Hm.
  assert (changedWithin [getIconPathCachePath pkg]
            (dirsTo (getIconPathCachePath pkg)) fs
            (MkdirAll fs (Dir (getIconPathCachePath pkg)))) as Hm'.
  { eapply changedWithin_weaken; [| |exact Hm]; set_solver. }
  destruct (WriteFile _ t _ iconPath) as [fs'|] eqn:Hw; cbn [snd];
    [|exact Hm'].
  eapply changedWithin_trans; [exact Hm'|].
  eapply changedWithin_weaken; [| |exact (WriteFile_within _ _ _ _ _ Hw)];
    set_solver.
Qed.

(** X9.  An icon path obtained from a fresh introspection query is
    remembered: when no hint was cached, the query answered [p], the
    hint file can be written and [p] is trimmed text, every later call
    made within the TTL of the save answers [p] again from the hint
    file, whatever the tools would say by then, and leaves the file
    system as it is. *)
Theorem getIconPathViaADB_answer_is_remembered :
  forall tools fs now saved pkg p fs',
    getCachedIconPathWithTTL fs now pkg = "" ->
    getIconPathViaADB tools fs now saved pkg = (Ok p, fs') ->
    getIconPathCachePath pkg ∉ protected fs ->
    TrimSpace p = p ->
    forall tools' later saved',
      Since later saved <= iconPathCacheTTL ->
      getIconPathViaADB tools' fs' later saved' pkg = (Ok p, fs').
Proof.
  intros tools fs now saved pkg p fs' Hmiss Hrun Hfree Htrim
    tools' later saved' Hfresh.
  unfold Graphics.getIconPathViaADB in Hrun. rewrite Hmiss in Hrun.
  cbn [String.eqb negb] in Hrun.
  destruct (Stat fs _); [|discriminate].
  destruct (rish_pm_dump tools pkg) as [output|]; [|discriminate].
  destruct (String.eqb (parseIconFromPMDump _ _ output) "") eqn:Hne;
    [discriminate|].
  injection Hrun as Hp Hfs. rewrite Hp in Hne, Hfs. clear Hp output.
  unfold Graphics.saveIconPathCache in Hfs.
  destruct (WriteFile_entry (MkdirAll fs (Dir (getIconPathCachePath pkg)))
              saved (getIconPathCachePath pkg) p (MkdirAll_made _ _) Hfree)
    as (fs1 & Hw & _ & _ & He).
  rewrite Hw in Hfs. cbn [snd] in Hfs. subst fs1.
  unfold Graphics.getIconPathViaADB, Graphics.getCachedIconPathWithTTL,
    Stat, ReadFile.
  rewrite He. cbn [modTime readable data].
  assert ((iconPathCacheTTL <? Since later saved) = false) as ->
    by (apply Z.ltb_ge; exact Hfresh).
  rewrite Htrim, Hne. reflexivity.
Qed.

Lemma getIconPathViaADB_frame tools fs now saved pkg :
  changedWithin [getIconPathCachePath pkg]
    (dirsTo (getIconPathCachePath pkg)) fs
    (snd (getIconPathViaADB tools fs now saved pkg)).
Proof.
  unfold Graphics.getIconPathViaADB.
  destruct (negb _); [apply changedWithin_refl|].
  destruct (Stat fs _); [|apply changedWithin_refl].
  destruct (rish_pm_dump tools pkg); [|apply changedWithin_refl].
  destruct (String.eqb _ ""); [apply changedWithin_refl|].
  cbn [snd]. apply saveIconPathCache_within.
Qed.

Lemma extractIconFromAPK_frame tools fs now saved apkPath pkg :
  changedWithin [getIconPathCachePath pkg]
    (dirsTo (getIconPathCachePath pkg)) fs
    (snd (extractIconFromAPK tools fs now saved apkPath pkg)).
Proof.
  unfold Graphics.extractIconFromAPK.
  destruct (zip_OpenReader tools apkPath); [|apply changedWithin_refl].
  destruct (Graphics.lookupPatterns _ _ _ mipmapPatterns);
    [apply changedWithin_refl|].
  assert (changedWithin [getIconPathCachePath pkg]
    (dirsTo (getIconPathCachePath pkg)) fs
            (snd (if negb (String.eqb pkg "")
                  then getIconPathViaADB tools fs now saved pkg
                  else (Err "", fs)))) as Hadb.
  { destruct (negb _); [apply getIconPathViaADB_frame|apply changedWithin_refl]. }
  destruct (if negb (String.eqb pkg "") then _ else _) as [adb fs1].
  cbn [snd] in Hadb.
  destruct (fromTool _ _ _ adb); [exact Hadb|].
  destruct (fromTool _ _ _ (getIconPathFromAAPT2 tools apkPath));
    [exact Hadb|].
  destruct (Graphics.lookupPatterns _ _ _ drawablePatterns); [exact Hadb|].
  destruct (if negb (Contains apkPath "split_config.") then _ else _);
    exact Hadb.
Qed.

Lemma tryArchives_frame tools clock pkg apkPaths :
  forall fs i lastErr,
    changedWithin [getIconPathCachePath pkg]
    (dirsTo (getIconPathCachePath pkg)) fs
      (snd (tryArchives tools fs clock i apkPaths pkg lastErr)).
Proof.
  induction apkPaths as [|apkPath rest IH]; intros fs i lastErr;
    cbn [Graphics.tryArchives]; [apply changedWithin_refl|].
  pose proof (extractIconFromAPK_frame tools fs (fst (clock i))
                (snd (clock i)) apkPath pkg) as Hone.
  destruct (extractIconFromAPK tools fs _ _ apkPath pkg) as [[e|err] fs1];
    cbn [snd] in Hone; [exact Hone|].
  eapply changedWithin_trans; [exact Hone|apply IH].
Qed.

Lemma SaveImage_frame fs t img path :
  changedWithin [path] [] fs (snd (SaveImage fs t img path)).
Proof.
  unfold Graphics.SaveImage.
  destruct (WriteFile fs t path "") as [created|] eqn:Hc;
    [|apply changedWithin_refl].
  pose proof (WriteFile_within _ _ _ _ _ Hc) as H1.
  destruct (png_Encode img) as [bytes|]; [|exact H1].
  destruct (WriteFile created t path bytes) as [fs2|] eqn:Hw; [|exact H1].
  cbn [snd]. eapply changedWithin_trans; [exact H1|].
  eapply WriteFile_within, Hw.
Qed.

Lemma ExtractAPKIcon_frame tools pm_path fs clock written pkg :
  changedWithin [getIconPathCachePath pkg; getCachedIconPath pkg]
    (dirsTo (getIconPathCachePath pkg) ++ dirsTo (getCachedIconPath pkg))
    fs (snd (ExtractAPKIcon tools pm_path fs clock written pkg)).
Proof.
  unfold Graphics.ExtractAPKIcon.
  destruct (String.eqb pkg ""); [apply changedWithin_refl|].
  destruct (LoadImage fs _); [apply changedWithin_refl|].
  destruct (getAPKPaths _ _ _); [|apply changedWithin_refl].
  pose proof (tryArchives_frame tools clock pkg a fs 0%nat "") as Htry.
  destruct (tryArchives tools fs clock 0 a pkg "") as [[e|err] fs1];
    cbn [snd] in Htry |- *.
  - eapply changedWithin_trans.
    + eapply changedWithin_weaken; [| |exact Htry]; set_solver.
    + eapply changedWithin_trans.
      * eapply changedWithin_weaken;
          [| |exact (MkdirAll_within fs1 (getCachedIconPath pkg))];
          set_solver.
      * eapply changedWithin_weaken; [| |apply SaveImage_frame]; set_solver.
  - eapply changedWithin_weaken; [| |exact Htry]; set_solver.
Qed.

(** X10.  Whatever the tools answer and whether it succeeds or fails,
    ExtractAPKIcon changes at most two files, the hint file and the icon
    file of the package it was asked for: every other file, those of
    other packages included, is as before.  It removes no directory, and
    the directories it makes are among those that lead to these two
    files. *)
Theorem ExtractAPKIcon_touches_two_files :
  forall tools pm_path fs clock written pkg,
    let fs' := snd (ExtractAPKIcon tools pm_path fs clock written pkg) in
    (forall path,
       path <> getIconPathCachePath pkg -> path <> getCachedIconPath pkg ->
       entries fs' !! path = entries fs !! path) /\
    dirs fs ⊆ dirs fs' /\
    (forall d,
       d ∈ dirs fs' ->
       d ∈ dirs fs \/
       d ∈ withParents Dir (String.length (Dir (getIconPathCachePath pkg)))
             (Dir (getIconPathCachePath pkg)) \/
       d ∈ withParents Dir (String.length (Dir (getCachedIconPath pkg)))
             (Dir (getCachedIconPath pkg))).
Proof.
  intros tools pm_path fs clock written pkg fs'.
  destruct (ExtractAPKIcon_frame tools pm_path fs clock written pkg)
    as (_ & He & Hs & Hd).
  split; [|split; [exact Hs|]].
  - intros path H1 H2. apply He. intros Hin.
    apply elem_of_cons in Hin as [->|Hin]; [contradiction|].
    apply list_elem_of_singleton in Hin as ->. contradiction.
  - intros d Hin. destruct (Hd d Hin) as [H|H]; [left; exact H|right].
    apply elem_of_app in H. exact H.
Qed.

(** X11.  A successful extraction is served from the icon file from
    then on: when ExtractAPKIcon answered [img], the icon file can be
    written and the PNG encoding of [img] decodes to [img] again, every
    later call answers [img] without consulting pm, rish, aapt2 or any
    archive, and without changing the file system. *)
Theorem ExtractAPKIcon_second_call_from_cache :
  forall tools pm_path fs clock written pkg img fs',
    ExtractAPKIcon tools pm_path fs clock written pkg = (Ok img, fs') ->
    getCachedIconPath pkg ∉ protected fs ->
    (exists bytes, png_Encode img = Ok bytes /\ image_Decode bytes = Ok img) ->
    forall tools' pm_path' clock' written',
      ExtractAPKIcon tools' pm_path' fs' clock' written' pkg = (Ok img, fs').
Proof.
  intros tools pm_path fs clock written pkg img fs' Hrun Hfree
    (bytes & Henc & Hdec) tools' pm_path' clock' written'.
  unfold Graphics.ExtractAPKIcon in Hrun |- *.
  destruct (String.eqb pkg ""); [discriminate|].
  destruct (LoadImage fs (getCachedIconPath pkg)) as [cached|] eqn:Hload.
  { injection Hrun as -> ->. rewrite Hload. reflexivity. }
  destruct (getAPKPaths _ _ _) as [apkPaths|]; [|discriminate].
  pose proof (tryArchives_frame tools clock pkg apkPaths fs 0%nat "")
    as [Hprot _].
  destruct (tryArchives tools fs clock 0 apkPaths pkg "") as [[e|err] fs1];
    [|discriminate].
  cbn [snd] in Hprot. injection Hrun as Himg Hfs. rewrite Himg in Hfs.
  assert (getCachedIconPath pkg ∉ protected fs1) as Hfree1
    by (rewrite Hprot; exact Hfree).
  unfold Graphics.SaveImage in Hfs.
  destruct (WriteFile_entry (MkdirAll fs1 (Dir (getCachedIconPath pkg)))
              written (getCachedIconPath pkg) "" (MkdirAll_made _ _) Hfree1)
    as (created & Hc & Hpc & Hdc & _).
  rewrite Hc, Henc in Hfs.
  assert (getCachedIconPath pkg ∉ protected created) as Hfree2
    by (rewrite Hpc; exact Hfree1).
  assert (Dir (getCachedIconPath pkg) ∈ dirs created) as Hdir2
    by (rewrite Hdc; apply MkdirAll_made).
  destruct (WriteFile_entry created written (getCachedIconPath pkg) bytes
              Hdir2 Hfree2) as (fs2 & Hw & _ & _ & He).
  rewrite Hw in Hfs. cbn [snd] in Hfs. subst fs2.
  assert (LoadImage fs' (getCachedIconPath pkg) = Ok img) as ->.
  { unfold Graphics.LoadImage, ReadFile. rewrite He. cbn [readable data].
    exact Hdec. }
  reflexivity.
Qed.

End IconCaches.


(** ** The last resort of the extraction, the archive list, the square *)

Section LastResort.

Variable home : string.
Variable Join : list string -> string.
Variable Dir : string -> string.
Variable TrimSpace : string -> string.
Variable densityRange : list (string * Z).
Variable rangeFiles : gmap string ZipFile -> list (string * ZipFile).
Variable Pixels : Type.
Variable image_Decode : string -> Result (Image Pixels).

Abbreviation openAndDecode := (openAndDecode Pixels image_Decode).
Abbreviation largestMipmap := (largestMipmap rangeFiles Pixels image_Decode).
Abbreviation extractIconFromAPK :=
  (extractIconFromAPK home Join Dir TrimSpace densityRange rangeFiles Pixels
     image_Decode).

(** What the scan for the largest mipmap image holds after [seen]. *)
Definition largestOf (seen : list (string * ZipFile))
    (st : option (string * ZipFile) * Z) : Prop :=
  (forall name f, (name, f) ∈ seen -> isMipmapImage name = true ->
     UncompressedSize64 f <= snd st) /\
  0 <= snd st /\
  match fst st with
  | None => True
  | Some (name, f) =>
      (name, f) ∈ seen /\ isMipmapImage name = true /\
      snd st = UncompressedSize64 f /\ 0 < snd st
  end.

Lemma largestStep_largestOf seen st kv :
  largestOf seen st -> largestOf (seen ++ [kv]) (largestStep st kv).
Proof.
  destruct st as [best size], kv as [name f]. unfold largestOf, largestStep.
  cbn [fst snd]. intros (Hmax & Hpos & Hbest).
  destruct (isMipmapImage name) eqn:Hm; cbn [andb].
  - destruct (size <? UncompressedSize64 f) eqn:Hlt; cbn [fst snd].
    + apply Z.ltb_lt in Hlt. split; [|split; [lia|]].
      * intros n' f' Hin Hm'. apply elem_of_app in Hin as [Hin|Hin].
        -- specialize (Hmax _ _ Hin Hm'). lia.
        -- apply list_elem_of_singleton in Hin. injection Hin as -> ->. lia.
      * split; [apply elem_of_app; right; apply list_elem_of_singleton;
                reflexivity|].
        split; [exact Hm|]. split; [reflexivity|lia].
    + apply Z.ltb_ge in Hlt. split; [|split; [exact Hpos|]].
      * intros n' f' Hin Hm'. apply elem_of_app in Hin as [Hin|Hin].
        -- exact (Hmax _ _ Hin Hm').
        -- apply list_elem_of_singleton in Hin. injection Hin as -> ->.
           exact Hlt.
      * destruct best as [[n0 f0]|]; [|exact I].
        destruct Hbest as (Hin & Hrest). split; [|exact Hrest].
        apply elem_of_app. left. exact Hin.
  - split; [|split; [exact Hpos|]].
    + intros n' f' Hin Hm'. apply elem_of_app in Hin as [Hin|Hin].
      * exact (Hmax _ _ Hin Hm').
      * apply list_elem_of_singleton in Hin. injection Hin as -> ->.
        congruence.
    + destruct best as [[n0 f0]|]; [|exact I].
      destruct Hbest as (Hin & Hrest). split; [|exact Hrest].
      apply elem_of_app. left. exact Hin.
Qed.

Lemma largestStep_fold l :
  forall seen st,
    largestOf seen st -> largestOf (seen ++ l) (fold_left largestStep l st).
Proof.
  induction l as [|kv l IH]; intros seen st H; cbn [fold_left].
  - rewrite app_nil_r. exact H.
  - replace (seen ++ kv :: l) with ((seen ++ [kv]) ++ l)
      by (rewrite <- app_assoc; reflexivity).
    apply IH, largestStep_largestOf, H.
Qed.

Lemma largestMipmap_largest fileMap img name :
  rangeFiles fileMap ≡ₚ map_to_list fileMap ->
  largestMipmap fileMap = Some (img, name) ->
  exists f,
    fileMap !! name = Some f /\
    isMipmapImage name = true /\
    openAndDecode f = Some img /\
    0 < UncompressedSize64 f /\
    forall name' f',
      fileMap !! name' = Some f' -> isMipmapImage name' = true ->
      UncompressedSize64 f' <= UncompressedSize64 f.
Proof.
  intros Hperm. unfold Graphics.largestMipmap.
  assert (largestOf [] (None, 0)) as H0.
  { split; [|split; [reflexivity|exact I]].
    intros n f Hin. inversion Hin. }
  pose proof (largestStep_fold (rangeFiles fileMap) [] (None, 0) H0) as H.
  cbn [app] in H.
  destruct (fold_left largestStep (rangeFiles fileMap) (None, 0))
    as [best size].
  destruct H as (Hmax & _ & Hbest). cbn [fst snd] in *.
  destruct best as [[n f]|]; [|discriminate].
  destruct Hbest as (Hin & Hm & Hsize & Hpos).
  destruct (openAndDecode f) as [img0|] eqn:Hdec; [|discriminate].
  intros [= <- <-]. exists f.
  split. { apply elem_of_map_to_list. rewrite <- Hperm. exact Hin. }
  split; [exact Hm|]. split; [exact Hdec|]. split; [lia|].
  intros n' f' Hl Hm'. rewrite <- Hsize. apply (Hmax n' f'); [|exact Hm'].
  rewrite Hperm. apply elem_of_map_to_list. exact Hl.
Qed.

(** X12.  When the range over the archive index visits every entry
    once, an icon that extractIconFromAPK returns by its last strategy
    comes from an archive that is not a configuration split, and from
    the entry that is largest among the .png and .webp entries with
    "mipmap" in their name: that entry has a positive declared size and
    no such entry is larger. *)
Theorem extractIconFromAPK_largest_mipmap :
  forall tools fs now saved apkPath pkg files e fs',
    (forall m, rangeFiles m ≡ₚ map_to_list m) ->
    zip_OpenReader tools apkPath = Ok files ->
    extractIconFromAPK tools fs now saved apkPath pkg = (Ok e, fs') ->
    strategy Pixels e = LargestMipmap ->
    Contains apkPath "split_config." = false /\
    exists f,
      buildFileMap files !! iconSource Pixels e = Some f /\
      isMipmapImage (iconSource Pixels e) = true /\
      openAndDecode f = Some (icon Pixels e) /\
      0 < UncompressedSize64 f /\
      forall name' f',
        buildFileMap files !! name' = Some f' ->
        isMipmapImage name' = true ->
        UncompressedSize64 f' <= UncompressedSize64 f.
Proof.
  intros tools fs now saved apkPath pkg files e fs' Hperm Hzip Hrun Hstrat.
  unfold Graphics.extractIconFromAPK in Hrun. rewrite Hzip in Hrun.
  destruct (Graphics.lookupPatterns _ _ _ mipmapPatterns).
  { injection Hrun as <- _. discriminate. }
  destruct (if negb (String.eqb pkg "") then _ else _) as [adb fs1].
  destruct (fromTool _ _ _ adb).
  { injection Hrun as <- _. discriminate. }
  destruct (fromTool _ _ _ (getIconPathFromAAPT2 tools apkPath)).
  { injection Hrun as <- _. discriminate. }
  destruct (Graphics.lookupPatterns _ _ _ drawablePatterns).
  { injection Hrun as <- _. discriminate. }
  destruct (Contains apkPath "split_config.") eqn:Hsplit; cbn [negb] in Hrun;
    [discriminate|].
  split; [reflexivity|].
  destruct (largestMipmap (buildFileMap files)) as [[img name]|] eqn:Hl;
    [|discriminate].
  injection Hrun as <- _. cbn [found iconSource icon fst snd].
  eapply largestMipmap_largest; [apply Hperm|exact Hl].
Qed.

End LastResort.

(** An archive whose launcher images have names of their own. *)
Definition ownNames : list ZipFile :=
  [ {| Name := "res/mipmap-hdpi/logo.png";
       UncompressedSize64 := 2048; Open := Ok "PNG48" |};
    {| Name := "res/mipmap-xxhdpi/logo.png";
       UncompressedSize64 := 9216; Open := Ok "PNG48" |};
    {| Name := "res/raw/sound.ogg";
       UncompressedSize64 := 65536; Open := Ok "OggS" |} ].

Definition ownNamesTools : Tools :=
  {| rish_pm_dump := fun _ => Err "exit status 1";
     aapt2_dump_badging := fun _ => Err "executable file not found";
     zip_OpenReader := fun _ => Ok ownNames |}.

Lemma extractIconFromAPK_largest_mipmap_witness :
  Contains "base.apk" "split_config." = false /\
  exists f,
    buildFileMap ownNames !! "res/mipmap-xxhdpi/logo.png" = Some f /\
    isMipmapImage "res/mipmap-xxhdpi/logo.png" = true /\
    openAndDecode unit decode48 f = Some (flat 48 48) /\
    0 < UncompressedSize64 f /\
    forall name' f',
      buildFileMap ownNames !! name' = Some f' ->
      isMipmapImage name' = true ->
      UncompressedSize64 f' <= UncompressedSize64 f.
Proof.
  apply (extractIconFromAPK_largest_mipmap "/home" slashJoin slashDir asciiTrimSpace
           densityMap rangeAll unit decode48 ownNamesTools emptyFS 0 0
           "base.apk" "com.x" ownNames
           {| icon := flat 48 48; iconSource := "res/mipmap-xxhdpi/logo.png";
              strategy := LargestMipmap |} emptyFS).
  - intros m. reflexivity.
  - reflexivity.
  - vm_compute. reflexivity.
  - reflexivity.
Defined.

Section ArchiveList.

Variable TrimSpace : string -> string.

Abbreviation addPath := (addPath TrimSpace).
Abbreviation getAPKPaths := (getAPKPaths TrimSpace).

(** The path a line of [pm path] names. *)
Definition pathOf (line : string) : string :=
  TrimPrefix (TrimSpace line) "package:".

Definition named (p : string) : bool := negb (String.eqb p "").

Lemma addPath_fold lines :
  forall paths,
    fold_left addPath lines paths =
    paths ++ List.filter named (List.map pathOf lines).
Proof.
  induction lines as [|line lines IH]; intros paths; cbn [fold_left].
  - cbn. rewrite app_nil_r. reflexivity.
  - rewrite IH. unfold Graphics.addPath. cbn [List.map List.filter].
    fold (pathOf line). unfold named at 2.
    destruct (negb (String.eqb (pathOf line) "")).
    + rewrite <- app_assoc. reflexivity.
    + reflexivity.
Qed.

(** X13.  What getAPKPaths returns is the list of the lines of the
    [pm path] output in their order, each trimmed and without its
    "package:" prefix, blank ones left out; it is never empty and holds
    no empty path.  So the archive pm lists first is the one
    ExtractAPKIcon tries first. *)
Theorem getAPKPaths_lists_named_lines :
  forall pm_path pkg paths,
    getAPKPaths pm_path pkg = Ok paths ->
    paths <> [] /\
    Forall (fun p => p <> "") paths /\
    exists output,
      pm_path pkg = Ok output /\
      paths = List.filter named (List.map pathOf (Split output lf)).
Proof.
  intros pm_path pkg paths. unfold Graphics.getAPKPaths.
  destruct (pm_path pkg) as [output|]; [|discriminate].
  rewrite addPath_fold. cbn [app]. fold lf.
  destruct (List.filter named (List.map pathOf (Split output lf)))
    as [|p0 rest] eqn:Hf; [discriminate|].
  intros [= <-]. split; [discriminate|]. split.
  - rewrite <- Hf. apply Forall_forall. intros p Hin.
    apply list_elem_of_In, filter_In in Hin as [_ Hp].
    unfold named in Hp. intros ->. discriminate.
  - exists output. split; [reflexivity|]. symmetry. exact Hf.
Qed.

End ArchiveList.

Definition bundleListing : string :=
  "package:/data/app/com.x/base.apk" +:+ lf +:+
  "package:/data/app/com.x/split_config.xxhdpi.apk" +:+ lf.

Lemma getAPKPaths_lists_named_lines_witness :
  ["/data/app/com.x/base.apk"; "/data/app/com.x/split_config.xxhdpi.apk"]
    <> [] /\
  Forall (fun p => p <> "")
    ["/data/app/com.x/base.apk"; "/data/app/com.x/split_config.xxhdpi.apk"] /\
  exists output,
    Ok bundleListing = Ok output /\
    ["/data/app/com.x/base.apk"; "/data/app/com.x/split_config.xxhdpi.apk"] =
    List.filter named (List.map (pathOf asciiTrimSpace) (Split output lf)).
Proof.
  apply (getAPKPaths_lists_named_lines asciiTrimSpace
           (fun _ => Ok bundleListing) "com.x").
  vm_compute. reflexivity.
Defined.


(** A device where rish is installed and answers with [rishDump]. *)
Definition rishFS : FS :=
  {| entries :=
       {[ "/home/.rish/rish" :=
            {| data := "#!/system/bin/sh"; modTime := 0; readable := true |} ]};
     protected := ∅;
     dirs := {[ "/"; "/home"; "/home/.rish" ]} |}.

Definition rishTools : Tools :=
  {| rish_pm_dump := fun _ => Ok rishDump;
     aapt2_dump_badging := fun _ => Err "executable file not found";
     zip_OpenReader := fun _ => Err "no such file" |}.

Definition rishHint : string := "res/mipmap-xxhdpi/ic.png".

Definition rishSavedFS : FS :=
  snd (saveIconPathCache "/home" slashJoin slashDir rishFS 0 "com.x" rishHint).

Lemma getIconPathViaADB_answer_is_remembered_witness :
  getIconPathViaADB "/home" slashJoin slashDir asciiTrimSpace densityMap noTools
    rishSavedFS (5 * Day) (5 * Day) "com.x" = (Ok rishHint, rishSavedFS).
Proof.
  apply (getIconPathViaADB_answer_is_remembered "/home" slashJoin slashDir
           asciiTrimSpace densityMap rishTools rishFS 0 0 "com.x").
  - vm_compute. reflexivity.
  - vm_compute. reflexivity.
  - cbn [protected rishFS]. apply not_elem_of_empty.
  - vm_compute. reflexivity.
  - vm_compute. discriminate.
Defined.

(** A codec for one 48 x 48 image. *)
Definition encode48 (img : Image unit) : Result string :=
  if (Dx unit img =? 48) && (Dy unit img =? 48) then Ok "PNG48"
  else Err "png: unsupported image".

Definition bundlePath (_ : string) : Result string := Ok bundleListing.

Definition noClock (_ : nat) : Time * Time := (0, 0).

Definition iconSavedFS : FS :=
  snd (ExtractAPKIcon "/home" slashJoin slashDir asciiTrimSpace densityMap rangeAll
         unit decode48 encode48 drawableTools bundlePath emptyFS noClock 0
         "com.x").

Lemma ExtractAPKIcon_second_call_from_cache_witness :
  ExtractAPKIcon "/home" slashJoin slashDir asciiTrimSpace densityMap rangeAll
    unit decode48 encode48 noTools (fun _ => Err "exit status 1")
    iconSavedFS noClock 0 "com.x" = (Ok (flat 48 48), iconSavedFS).
Proof.
  apply (ExtractAPKIcon_second_call_from_cache "/home" slashJoin slashDir
           asciiTrimSpace densityMap rangeAll unit decode48 encode48
           drawableTools bundlePath emptyFS noClock 0 "com.x").
  - vm_compute. reflexivity.
  - cbn [protected emptyFS]. apply not_elem_of_empty.
  - exists "PNG48". split; reflexivity.
Defined.

(** ** StandardizeImage *)

Lemma int_of_float64_in_int f : in_int (int_of_float64 f).
Proof.
  unfold int_of_float64, in_int.
  assert (forall z, minInt <= clamp_int z <= maxInt) as Hc.
  { intros z. unfold clamp_int, minInt, maxInt. lia. }
  destruct (Prim2SF f) as [s|s| |s m e].
  - unfold minInt, maxInt. lia.
  - destruct s; unfold minInt, maxInt; lia.
  - unfold minInt, maxInt. lia.
  - apply Hc.
Qed.

Lemma atLeastOne_in_int n : in_int n -> 1 <= atLeastOne n <= maxInt.
Proof.
  unfold in_int, atLeastOne, minInt, maxInt.
  destruct (n <=? 0) eqn:E; lia.
Qed.

Lemma squareSize_range size : in_int size -> 1 <= squareSize size <= maxInt.
Proof.
  unfold in_int, squareSize, minInt, maxInt.
  destruct (size <=? 0) eqn:E; [lia|]. apply Z.leb_gt in E. lia.
Qed.

(** Half of the room left beside [w] in [n], as the code computes it. *)
Lemma centered_offset n w :
  1 <= n <= maxInt -> 1 <= w <= maxInt ->
  let x := int_quo (int_sub n w) 2 in
  Z.abs ((n - (x + w)) - x) <= 1.
Proof.
  intros Hn Hw. unfold int_quo, int_sub.
  assert (in_int (n - w)) as Hd.
  { unfold in_int, minInt, maxInt in *. lia. }
  rewrite (wrap_id _ Hd).
  pose proof (Z.quot_rem' (n - w) 2) as Hqr.
  assert (-1 <= Z.rem (n - w) 2 <= 1) as Hr.
  { pose proof (Z.rem_bound_abs (n - w) 2). lia. }
  assert (in_int (Z.quot (n - w) 2)) as Hq.
  { unfold in_int, minInt, maxInt in *. lia. }
  rewrite (wrap_id _ Hq). cbv zeta. lia.
Qed.

Section Square.

Variable Pixels : Type.
Variable CatmullRom_Scale : Image Pixels -> Z -> Z -> Pixels.
Variable draw_Over : Pixels -> Z * Z * Z * Z -> Image Pixels -> Pixels.
Variable transparent : Z -> Pixels.

Abbreviation pasteRect := (pasteRect Pixels).
Abbreviation StandardizeImage :=
  (StandardizeImage Pixels CatmullRom_Scale draw_Over transparent).

(** X14.  What StandardizeImage returns is a square of the requested
    side, 256 when the request is not positive, whatever the source is.
    The source is pasted at a size of at least 1 x 1 and centred: on
    each axis the margin before it and the margin after it differ by one
    pixel at most. *)
Theorem StandardizeImage_square_centered :
  forall (src : Image Pixels) size,
    in_int size ->
    let n := squareSize size in
    let '(x, y, w, h) := pasteRect src size in
    (forall result,
       StandardizeImage src size = Some result ->
       Dx Pixels result = n /\ Dy Pixels result = n) /\
    (0 < size -> n = size) /\ (size <= 0 -> n = 256) /\
    1 <= w /\ 1 <= h /\
    Z.abs ((n - (x + w)) - x) <= 1 /\
    Z.abs ((n - (y + h)) - y) <= 1.
Proof.
  intros src size Hsize. cbv zeta.
  unfold Graphics.StandardizeImage, Graphics.pasteRect, fitSize.
  set (w := atLeastOne _). set (h := atLeastOne _).
  pose proof (squareSize_range size Hsize) as Hn.
  assert (1 <= w <= maxInt) as Hw
    by (apply atLeastOne_in_int, int_of_float64_in_int).
  assert (1 <= h <= maxInt) as Hh
    by (apply atLeastOne_in_int, int_of_float64_in_int).
  split.
  { intros result. unfold NewRGBA.
    destruct (mul3NonNeg 4 (squareSize size) (squareSize size) <? 0);
      [discriminate|].
    destruct (ScaleImage _ _ _ _ _); [|discriminate].
    intros [= <-]. cbn [Dx Dy]. auto. }
  split. { intros Hp. unfold squareSize.
           destruct (size <=? 0) eqn:E; [lia|reflexivity]. }
  split. { intros Hp. unfold squareSize.
           destruct (size <=? 0) eqn:E; [reflexivity|lia]. }
  split; [lia|]. split; [lia|].
  split; [apply (centered_offset _ _ Hn Hw)|apply (centered_offset _ _ Hn Hh)].
Qed.

End Square.

Definition pasteAt (_ : unit) (_ : Z * Z * Z * Z) (_ : Image unit) : unit := tt.

Lemma StandardizeImage_square_centered_witness :
  StandardizeImage unit noResample pasteAt (fun _ => tt) (flat 300 120) 0
    = Some (flat 256 256) /\
  Dx unit (flat 256 256) = 256 /\
  pasteRect unit (flat 300 120) 0 = (0, 77, 256, 102).
Proof.
  pose proof (StandardizeImage_square_centered unit noResample pasteAt
                (fun _ => tt) (flat 300 120) 0) as H.
  assert (in_int 0) as H0 by (unfold in_int, minInt, maxInt; lia).
  specialize (H H0). cbv zeta in H.
  assert (pasteRect unit (flat 300 120) 0 = (0, 77, 256, 102)) as Hrect
    by (vm_compute; reflexivity).
  rewrite Hrect in H. destruct H as (Hdx & _).
  assert (StandardizeImage unit noResample pasteAt (fun _ => tt)
            (flat 300 120) 0 = Some (flat 256 256)) as Hrun
    by (vm_compute; reflexivity).
  split; [exact Hrun|]. split; [exact (proj1 (Hdx _ Hrun))|reflexivity].
Defined.

End GraphicsFacts.

(** * Properties of the model: render cache, geometry, hit testing *)

Module AppFacts.
Import Graphics Config App GoFacts GraphicsFacts.

(** ** The cache key *)

Lemma string_of_uint_digits d c :
  In c (list_ascii_of_string (NilEmpty.string_of_uint d)) ->
  c <> "_"%char /\ c <> "-"%char.
Proof.
  induction d; simpl; try tauto;
    (intros [<-|H]; [split; discriminate|auto]).
Qed.

Lemma fmt_d_no_underscore z :
  ~ In "_"%char (list_ascii_of_string (fmt_d z)).
Proof.
  unfold fmt_d, NilZero.string_of_int, NilZero.string_of_uint.
  intros H.
  assert (forall d, In "_"%char (list_ascii_of_string
            match d with
            | Decimal.Nil => "0"
            | _ => NilEmpty.string_of_uint d
            end) -> False) as Hu.
  { intros d Hd.
    assert (In "_"%char (list_ascii_of_string (NilEmpty.string_of_uint d)) \/
            d = Decimal.Nil) as [Hin| ->].
    { destruct d; auto. }
    - apply string_of_uint_digits in Hin. tauto.
    - simpl in Hd. destruct Hd as [Hd|[]]. discriminate. }
  destruct (Z.to_int z) as [d|d].
  - exact (Hu d H).
  - simpl in H. destruct H as [H|H]; [discriminate|exact (Hu d H)].
Qed.

Lemma to_int_nonnil z :
  Z.to_int z <> Decimal.Pos Decimal.Nil /\ Z.to_int z <> Decimal.Neg Decimal.Nil.
Proof.
  destruct z; simpl; split; try discriminate;
    intros [= H]; exact (DecimalPos.Unsigned.to_uint_nonnil _ H).
Qed.

Lemma fmt_d_inj a b : fmt_d a = fmt_d b -> a = b.
Proof.
  unfold fmt_d. intros H.
  apply (f_equal NilZero.int_of_string) in H.
  destruct (to_int_nonnil a) as [Ha1 Ha2], (to_int_nonnil b) as [Hb1 Hb2].
  rewrite !NilZero.isi in H by assumption.
  injection H as H. apply (f_equal Z.of_int) in H.
  rewrite !DecimalZ.of_to in H. exact H.
Qed.

(** Two strings without the separator, each followed by the separator,
    agree as soon as the whole texts agree. *)
Lemma field_inj a b r s :
  ~ In "_"%char (list_ascii_of_string a) ->
  ~ In "_"%char (list_ascii_of_string b) ->
  a +:+ "_" +:+ r = b +:+ "_" +:+ s -> a = b /\ r = s.
Proof.
  revert b. induction a as [|x a IH]; intros [|y b] Ha Hb; simpl; intros H.
  - injection H as H. auto.
  - injection H as Hx _. subst y. exfalso. apply Hb. simpl. auto.
  - injection H as Hx _. subst x. exfalso. apply Ha. simpl. auto.
  - injection H as -> H. simpl in Ha, Hb.
    destruct (IH b) as [-> ->]; [tauto|tauto|exact H|auto].
Qed.

Lemma cacheKey_inj i w h s i' w' h' s' :
  cacheKey i w h s = cacheKey i' w' h' s' ->
  i = i' /\ w = w' /\ h = h' /\ fmt_2f s = fmt_2f s'.
Proof.
  unfold cacheKey. intros H.
  apply field_inj in H as [Hi H]; try apply fmt_d_no_underscore.
  apply field_inj in H as [Hw H]; try apply fmt_d_no_underscore.
  apply field_inj in H as [Hh H]; try apply fmt_d_no_underscore.
  apply fmt_d_inj in Hi, Hw, Hh. auto.
Qed.

Lemma cacheKey_same i w h s s' :
  fmt_2f s = fmt_2f s' -> cacheKey i w h s = cacheKey i w h s'.
Proof. unfold cacheKey. intros ->. reflexivity. Qed.

Section RenderCache.

Variable Pixels : Type.
Variable CatmullRom_Scale : Image Pixels -> Z -> Z -> Pixels.
Variable sixel_Encode : Image Pixels -> Result string.

Abbreviation Model := (Model Pixels).
Abbreviation getSixelContentWithDimensions :=
  (getSixelContentWithDimensions Pixels CatmullRom_Scale sixel_Encode).
Abbreviation RenderSixelWithDimensions :=
  (Graphics.RenderSixelWithDimensions Pixels CatmullRom_Scale sixel_Encode).
Abbreviation Update := (Update Pixels).
Abbreviation View := (View Pixels CatmullRom_Scale sixel_Encode).
Abbreviation reachable := (reachable Pixels CatmullRom_Scale sixel_Encode).
Abbreviation SixelCache := (SixelCache Pixels).
Abbreviation CellPx := (CellPx Pixels).

Lemma RenderSixelWithDimensions_once icon w h cellPx r enc :
  RenderSixelWithDimensions icon w h cellPx = Some (r, enc) ->
  (List.length enc <= 1)%nat.
Proof.
  unfold Graphics.RenderSixelWithDimensions.
  destruct ((_ <=? 0) || (_ <=? 0)); [intros [= <- <-]; simpl; lia|].
  destruct (ScaleImageAspectFit _ _ _ _ _); [|discriminate].
  destruct (sixel_Encode _); intros [= <- <-]; simpl; lia.
Qed.

(** What a lookup does to the model: on a miss it enters the result
    under the key and changes nothing else. *)
Lemma lookup_effect (m : Model) i w h s r m' enc :
  getSixelContentWithDimensions m i w h s = Some (r, m', enc) ->
  (SixelCache m !! cacheKey i w h s = Some r /\ m' = m /\ enc = []) \/
  (SixelCache m !! cacheKey i w h s = None /\
   m' = setSixelCache Pixels m (<[cacheKey i w h s := r]> (SixelCache m)) /\
   (List.length enc <= 1)%nat /\
   (r = noSixel \/
    exists icon enc0,
      RenderSixelWithDimensions icon w h (CellPx m) = Some (r, enc0))).
Proof.
  unfold App.getSixelContentWithDimensions.
  destruct (SixelCache m !! cacheKey i w h s) as [cached|] eqn:Hc.
  - intros [= <- <- <-]. left. auto.
  - intros H. right. split; [reflexivity|].
    destruct (i <? lenOf (Icons Pixels m)).
    + destruct (i <? 0); [discriminate|].
      destruct (Icons Pixels m !! Z.to_nat i) as [[icon|]|].
      * destruct (RenderSixelWithDimensions icon w h (CellPx m))
          as [[res enc0]|] eqn:Hr; [|discriminate].
        injection H as <- <- <-. split; [reflexivity|].
        split; [exact (RenderSixelWithDimensions_once _ _ _ _ _ _ Hr)|].
        right. exists icon, enc0. exact Hr.
      * injection H as <- <- <-. simpl. auto with arith.
      * injection H as <- <- <-. simpl. auto with arith.
    + injection H as <- <- <-. simpl. auto with arith.
Qed.



(** C5.  A lookup followed by a lookup with the same index, the same
    size in cells and a scale of the same two-decimal text returns the
    same result, hands nothing to the encoder and leaves the model as it
    is, the first lookup itself having handed the encoder at most one
    image.  Lookups that differ in the index, in a size or in the
    two-decimal text of the scale have different keys, and a lookup
    leaves the cache entry of every such other key as it was, so that a
    first lookup never turns a miss of the second into a hit. *)
Theorem render_cache_key :
  (forall (m : Model) i w h s s' r m1 enc1,
     getSixelContentWithDimensions m i w h s = Some (r, m1, enc1) ->
     fmt_2f s' = fmt_2f s ->
     getSixelContentWithDimensions m1 i w h s' = Some (r, m1, []) /\
     (List.length enc1 <= 1)%nat) /\
  (forall i w h s i' w' h' s',
     (i, w, h, fmt_2f s) <> (i', w', h', fmt_2f s') ->
     cacheKey i w h s <> cacheKey i' w' h' s') /\
  (forall (m : Model) i w h s i' w' h' s' r m1 enc1,
     (i, w, h, fmt_2f s) <> (i', w', h', fmt_2f s') ->
     getSixelContentWithDimensions m i w h s = Some (r, m1, enc1) ->
     SixelCache m1 !! cacheKey i' w' h' s' =
     SixelCache m !! cacheKey i' w' h' s').
Proof.
  assert (Hdiff : forall i w h s i' w' h' s',
            (i, w, h, fmt_2f s) <> (i', w', h', fmt_2f s') ->
            cacheKey i w h s <> cacheKey i' w' h' s').
  { intros i w h s i' w' h' s' Hne Hkey. apply Hne.
    apply cacheKey_inj in Hkey as (-> & -> & -> & ->). reflexivity. }
  split; [|split; [exact Hdiff|]].
  - intros m i w h s s' r m1 enc1 Hget Hs.
    assert (SixelCache m1 !! cacheKey i w h s = Some r /\
            (List.length enc1 <= 1)%nat) as [Hhit Hlen].
    { destruct (lookup_effect _ _ _ _ _ _ _ _ Hget)
        as [(Hc & -> & ->)|(Hc & -> & Hl & _)].
      - split; [exact Hc|simpl; lia].
      - split; [apply lookup_insert_eq|exact Hl]. }
    split; [|exact Hlen].
    unfold App.getSixelContentWithDimensions.
    rewrite (cacheKey_same i w h s' s Hs), Hhit. reflexivity.
  - intros m i w h s i' w' h' s' r m1 enc1 Hne Hget.
    destruct (lookup_effect _ _ _ _ _ _ _ _ Hget)
      as [(_ & -> & _)|(_ & -> & _)]; [reflexivity|].
    apply lookup_insert_ne, Hdiff, Hne.
Qed.

(** ** The cache under a change of geometry *)

(** [r] under [key] is what the encoder path yields for that key at the
    cell size [cellPx]: the rendering of some icon at the size the key
    names, or the empty result of a missing icon. *)
Definition computedUnder (cellPx : CellDim) (key : string) (r : SixelResult)
  : Prop :=
  exists i w h s,
    key = cacheKey i w h s /\
    (r = noSixel \/
     exists icon enc,
       RenderSixelWithDimensions icon w h cellPx = Some (r, enc)).

Definition cacheCurrent (m : Model) : Prop :=
  forall key r, SixelCache m !! key = Some r -> computedUnder (CellPx m) key r.

Lemma cacheCurrent_lookup (m : Model) i w h s r m' enc :
  cacheCurrent m ->
  getSixelContentWithDimensions m i w h s = Some (r, m', enc) ->
  cacheCurrent m' /\ CellPx m' = CellPx m.
Proof.
  intros Hinv Hget.
  destruct (lookup_effect _ _ _ _ _ _ _ _ Hget)
    as [(_ & -> & _)|(_ & -> & _ & Hr)]; [auto|].
  split; [|reflexivity].
  intros key r0. cbn [App.SixelCache App.CellPx setSixelCache].
  destruct (decide (cacheKey i w h s = key)) as [<-|Hne].
  - rewrite lookup_insert_eq. intros [= <-]. exists i, w, h, s. auto.
  - rewrite lookup_insert_ne by exact Hne. apply Hinv.
Qed.

Lemma cacheCurrent_drawSlot (m : Model) row col idx m' out :
  cacheCurrent m ->
  drawSlot Pixels CatmullRom_Scale sixel_Encode m row col idx = Some (m', out) ->
  cacheCurrent m' /\ CellPx m' = CellPx m.
Proof.
  intros Hinv. unfold drawSlot.
  destruct (iconLoaded Pixels m idx) as [[|]|]; try discriminate.
  - destruct (IconCellSize Pixels m) as [iconW iconH].
    destruct (getSixelContentWithDimensions m idx _ _ _)
      as [[[r m1] enc]|] eqn:Hget; [|discriminate].
    destruct (cacheCurrent_lookup _ _ _ _ _ _ _ _ Hinv Hget) as [H1 H2].
    destruct (placeSixel Pixels m1 row col r); [|discriminate].
    intros [= <- <-]. auto.
  - intros [= <- <-]. auto.
Qed.

(** The loop invariant: the model in the loop state has a current cache
    and the cell size [c]. *)
Definition loopInv (c : CellDim) (st : option (LoopState Pixels)) : Prop :=
  match st with
  | Some (m, _, _) => cacheCurrent m /\ CellPx m = c
  | None => True
  end.

Lemma fold_left_inv {S X} (Q : S -> Prop) (step : S -> X -> S) l st :
  (forall st x, Q st -> Q (step st x)) -> Q st -> Q (fold_left step l st).
Proof.
  intros Hstep. revert st. induction l as [|x l IH]; intros st H; simpl; auto.
Qed.

Lemma loopInv_colStep c row st col :
  loopInv c st ->
  loopInv c (colStep Pixels CatmullRom_Scale sixel_Encode row st col).
Proof.
  destruct st as [[[m idx] out]|]; [|auto]. intros [Hinv Hc]. unfold colStep.
  destruct (idx <? lenOf (DisplayApps Pixels m)); [|split; assumption].
  destruct (drawSlot _ _ _ m row col idx) as [[m' drawn]|] eqn:Hd; [|exact I].
  destruct (cacheCurrent_drawSlot _ _ _ _ _ _ Hinv Hd) as [H1 H2].
  split; [exact H1|congruence].
Qed.

Lemma loopInv_rowStep c st row :
  loopInv c st ->
  loopInv c (rowStep Pixels CatmullRom_Scale sixel_Encode st row).
Proof.
  destruct st as [[[m idx] out]|]; [|auto]. intros H. unfold rowStep.
  destruct (idx <? lenOf (DisplayApps Pixels m)); [|exact H].
  apply fold_left_inv; [|exact H]. intros st x. apply loopInv_colStep.
Qed.

Lemma cacheCurrent_draw (m : Model) m' out :
  cacheCurrent m ->
  drawSixelsDirectly Pixels CatmullRom_Scale sixel_Encode m = Some (m', out) ->
  cacheCurrent m' /\ CellPx m' = CellPx m.
Proof.
  intros Hinv. unfold drawSixelsDirectly.
  destruct (negb _); [intros [= <- <-]; auto|].
  destruct (GridCellSize Pixels m) as [cellW cellH].
  destruct ((cellW <=? 0) || (cellH <=? 0)); [intros [= <- <-]; auto|].
  pose proof (fold_left_inv (loopInv (CellPx m))
                (rowStep Pixels CatmullRom_Scale sixel_Encode)
                (seqZ 0 (Rows (Grid (Config Pixels m)))) (Some (m, 0, []))
                (loopInv_rowStep (CellPx m)) (conj Hinv eq_refl)) as H.
  destruct (fold_left _ _ _) as [[[m1 idx] out1]|]; [|discriminate].
  intros [= <- <-]. exact H.
Qed.

Lemma cacheCurrent_View (m m' : Model) :
  cacheCurrent m -> View m = Some m' -> cacheCurrent m'.
Proof.
  intros Hinv. unfold App.View.
  destruct (negb (Ready Pixels m)); [intros [= <-]; exact Hinv|].
  destruct (lenOf (DisplayApps Pixels m) =? 0); [intros [= <-]; exact Hinv|].
  destruct (GridCellSize Pixels m) as [cellW cellH].
  destruct ((cellW <=? 0) || (cellH <=? 0)); [intros [= <-]; exact Hinv|].
  destruct (renderFrames Pixels m); [|discriminate].
  destruct (SixelsDrawn Pixels m); [intros [= <-]; exact Hinv|].
  destruct (drawSixelsDirectly _ _ _ m) as [[m1 out]|] eqn:Hd; [|discriminate].
  intros [= <-].
  destruct (cacheCurrent_draw _ _ _ Hinv Hd) as [H1 H2].
  intros key r. cbn [App.SixelCache App.CellPx setSixelCache].
  rewrite <- H2. apply H1.
Qed.

Lemma cacheCurrent_Update (m : Model) msg :
  cacheCurrent m -> cacheCurrent (fst (fst (Update m msg))).
Proof.
  intros Hinv. destruct msg as [key|w h|cellDim|icons|action x y|]; simpl.
  - destruct (isQuitKey key); exact Hinv.
  - destruct ((_ =? 0) && (_ =? 0)); exact Hinv.
  - destruct (_ && Ready Pixels m); [exact Hinv|].
    intros key r. simpl. rewrite lookup_empty. discriminate.
  - exact Hinv.
  - destruct action; try exact Hinv.
    destruct ((0 <=? _) && _); [|exact Hinv].
    destruct (DisplayApps Pixels m !! _); exact Hinv.
  - exact Hinv.
Qed.

(** C2.  A geometry message whose cell size differs from the one in
    force leaves the render cache empty, SixelsDrawn false and the new
    cell size in force, and asks for the screen to be cleared.  In every
    state the program reaches, each entry of the render cache is a
    rendering at the cell size in force. *)
Theorem geometry_change_clears_cache :
  (forall (m : Model) cellDim,
     Width cellDim <> Width (CellPx m) \/ Height cellDim <> Height (CellPx m) ->
     SixelCache (fst (fst (Update m (terminalGeometryMsg Pixels cellDim)))) = ∅ /\
     SixelsDrawn Pixels (fst (fst (Update m (terminalGeometryMsg Pixels cellDim))))
       = false /\
     CellPx (fst (fst (Update m (terminalGeometryMsg Pixels cellDim)))) = cellDim /\
     snd (fst (Update m (terminalGeometryMsg Pixels cellDim))) = ClearScreen) /\
  (forall cfg (m : Model), reachable cfg m -> cacheCurrent m).
Proof.
  split.
  - intros m cellDim Hne. simpl.
    assert ((Width (CellPx m) =? Width cellDim)
            && (Height (CellPx m) =? Height cellDim) = false) as ->.
    { apply andb_false_iff. destruct Hne as [H|H]; [left|right];
        apply Z.eqb_neq; congruence. }
    simpl. auto.
  - intros cfg m Hreach. induction Hreach as [|m msg _ IH|m m' _ IH Hview].
    + intros key r. simpl. rewrite lookup_empty. discriminate.
    + apply cacheCurrent_Update, IH.
    + eapply cacheCurrent_View; eassumption.
Qed.


(** ** Hit testing *)

(** As long as the grid has no more cells than an int can count, HitTest
    answers -1 or an index into DisplayApps. *)
Lemma HitTest_in_range (m : Model) x y :
  Rows (Grid (Config Pixels m)) * Columns (Grid (Config Pixels m)) <= maxInt ->
  Z.of_nat (List.length (DisplayApps Pixels m)) <= maxInt ->
  HitTest Pixels m x y = -1 \/
  0 <= HitTest Pixels m x y < Z.of_nat (List.length (DisplayApps Pixels m)).
Proof.
  intros Hgrid Hlen. unfold HitTest.
  destruct (GridCellSize Pixels m) as [cellW cellH].
  destruct ((cellW <=? 0) || (cellH <=? 0)); [auto|].
  set (col := int_quo x cellW). set (row := int_quo y cellH).
  set (R := Rows (Grid (Config Pixels m))) in *.
  set (C := Columns (Grid (Config Pixels m))) in *.
  destruct ((col <? 0) || (C <=? col)) eqn:Hcol; [auto|].
  destruct ((row <? 0) || (R <=? row)) eqn:Hrow; [auto|].
  apply orb_false_iff in Hcol as [Hc1 Hc2], Hrow as [Hr1 Hr2].
  apply Z.ltb_ge in Hc1, Hr1. apply Z.leb_gt in Hc2, Hr2.
  assert (0 <= row * C /\ row * C + col < R * C) as [H0 H1] by nia.
  unfold int_add, int_mul.
  rewrite (wrap_id (row * C)) by (unfold in_int, minInt, maxInt in *; lia).
  rewrite wrap_id by (unfold in_int, minInt, maxInt in *; lia).
  unfold lenOf. rewrite wrap_id by (unfold in_int, minInt, maxInt in *; lia).
  destruct (_ <=? row * C + col) eqn:E; [auto|].
  apply Z.leb_gt in E. right. lia.
Qed.

(** Whatever the grid, an answer that is not negative is an index into
    DisplayApps. *)
Lemma HitTest_nonneg_safe (m : Model) x y :
  Z.of_nat (List.length (DisplayApps Pixels m)) <= maxInt ->
  0 <= HitTest Pixels m x y ->
  HitTest Pixels m x y < Z.of_nat (List.length (DisplayApps Pixels m)).
Proof.
  intros Hlen. unfold HitTest.
  destruct (GridCellSize Pixels m) as [cellW cellH].
  destruct ((cellW <=? 0) || (cellH <=? 0)); [lia|].
  destruct ((_ <? 0) || (_ <=? _)); [lia|].
  destruct ((_ <? 0) || (_ <=? _)); [lia|].
  unfold lenOf. rewrite wrap_id by (unfold in_int, minInt, maxInt in *; lia).
  destruct (_ <=? _) eqn:E; [lia|]. apply Z.leb_gt in E. lia.
Qed.

End RenderCache.

(** ** Concrete runs of the model *)

Definition shelfApp : AppConfig :=
  {| Name := "Files"; Icon := ""; Package := "com.android.documentsui";
     Activity := ".LauncherActivity"; Command := ""; AppIconScale := 0 |}.

Definition shelfConfig (rows columns : Z) : Config.Config :=
  {| Display := [];
     Grid := {| Rows := rows; Columns := columns |};
     Style := {| Border := true; Padding := 1; IconScale := 1;
                 BorderColor := "240"; HighlightColor := "96" |};
     Behavior := {| CloseOnLaunch := false |};
     Apps := [shelfApp] |}.

Definition encodeStub (img : Image unit) : Result string :=
  Ok ("sixel:" +:+ fmt_d (Dx unit img) +:+ "x" +:+ fmt_d (Dy unit img)).

Definition after (m : App.Model unit) (msg : Msg unit) : App.Model unit :=
  fst (fst (Update unit m msg)).

(** A 1x5 shelf on an 80x24 terminal with cells of 10x20 pixels, its one
    icon loaded; then the same after a first View. *)
Definition started : App.Model unit :=
  after (after (after (NewModel unit (shelfConfig 1 5)) (WindowSizeMsg unit 80 24))
           (terminalGeometryMsg unit {| Width := 10; Height := 20 |}))
    (iconsLoadedMsg unit [Some (flat 64 64)]).

Definition viewed : App.Model unit :=
  default started (View unit noResample encodeStub started).

Lemma viewed_reachable :
  reachable unit noResample encodeStub (shelfConfig 1 5) viewed.
Proof.
  apply (reach_view _ _ _ _ started); [|vm_compute; reflexivity].
  unfold started, after. repeat apply reach_update. apply reach_new.
Defined.

Lemma viewed_cache :
  map_to_list (App.SixelCache unit viewed) =
  [("0_12_19_1.00",
    {| Sixel := "sixel:120x120"; PixelWidth := 120; PixelHeight := 120 |})].
Proof. vm_compute. reflexivity. Qed.

Lemma geometry_change_clears_cache_witness :
  (App.SixelCache unit (after viewed
      (terminalGeometryMsg unit {| Width := 12; Height := 24 |})) = ∅ /\
   SixelsDrawn unit (after viewed
      (terminalGeometryMsg unit {| Width := 12; Height := 24 |})) = false /\
   App.CellPx unit (after viewed
      (terminalGeometryMsg unit {| Width := 12; Height := 24 |}))
     = {| Width := 12; Height := 24 |} /\
   snd (fst (Update unit viewed
      (terminalGeometryMsg unit {| Width := 12; Height := 24 |}))) = ClearScreen) /\
  cacheCurrent unit noResample encodeStub viewed.
Proof.
  split.
  - apply (proj1 (geometry_change_clears_cache unit noResample encodeStub)
             viewed {| Width := 12; Height := 24 |}).
    left. vm_compute. discriminate.
  - apply (proj2 (geometry_change_clears_cache unit noResample encodeStub)
             (shelfConfig 1 5) viewed viewed_reachable).
Defined.

Lemma render_cache_key_witness :
  (getSixelContentWithDimensions unit noResample encodeStub viewed 0 12 19
     0x1.004p+0%float
   = Some ({| Sixel := "sixel:120x120"; PixelWidth := 120; PixelHeight := 120 |},
           viewed, []) /\
   (List.length [flat 120 120] <= 1)%nat) /\
  cacheKey 0 12 19 1%float <> cacheKey 0 12 18 1%float /\
  App.SixelCache unit viewed !! cacheKey 0 12 18 1%float =
  App.SixelCache unit started !! cacheKey 0 12 18 1%float.
Proof.
  pose proof (render_cache_key unit noResample encodeStub) as (H1 & H2 & H3).
  split; [|split].
  - apply (H1 started 0 12 19 1%float 0x1.004p+0%float _ viewed
             [flat 120 120]).
    + vm_compute. reflexivity.
    + vm_compute. reflexivity.
  - apply H2. vm_compute. discriminate.
  - apply (H3 started 0 12 19 1%float 0 12 18 1%float
             {| Sixel := "sixel:120x120"; PixelWidth := 120; PixelHeight := 120 |}
             viewed [flat 120 120]).
    + vm_compute. discriminate.
    + vm_compute. reflexivity.
Defined.

(** Integer division truncates toward zero: on [started], whose cells are
    16 columns wide, the coordinate x = -1 lies left of the grid and is
    still counted to column 0. *)
Lemma HitTest_negative_column :
  GridCellSize unit started = (16, 23) /\
  HitTest unit started (-1) 0 = 0 /\
  HitTest unit started (-16) 0 = -1.
Proof. repeat split; vm_compute; reflexivity. Qed.

(** A grid of 2^32 x 2^32 cells on a terminal of 2^32 columns and
    2^32 + 1 rows. *)
Definition hugeGrid : App.Model unit :=
  after (NewModel unit (shelfConfig (2 ^ 32) (2 ^ 32)))
    (WindowSizeMsg unit (2 ^ 32) (2 ^ 32 + 1)).

(** Beyond what a terminal reports the index can wrap around: on
    [hugeGrid], whose window is 2^32 columns wide, the click at column 0
    and row 2^31 passes both range checks and [row * Columns] overflows,
    so that HitTest answers -2^63.  The bound on the window size in
    [runs] is what rules this out. *)
Lemma HitTest_wraps_beyond_winsize :
  reachable unit noResample encodeStub (shelfConfig (2 ^ 32) (2 ^ 32)) hugeGrid /\
  GridCellSize unit hugeGrid = (1, 1) /\
  lenOf (DisplayApps unit hugeGrid) = 1 /\
  HitTest unit hugeGrid 0 (2 ^ 31) = - 2 ^ 63 /\
  ~ (HitTest unit hugeGrid 0 (2 ^ 31) = -1 \/
     0 <= HitTest unit hugeGrid 0 (2 ^ 31) < lenOf (DisplayApps unit hugeGrid)).
Proof.
  split; [unfold hugeGrid, after; apply reach_update, reach_new|].
  split; [vm_compute; reflexivity|].
  split; [vm_compute; reflexivity|].
  assert (HitTest unit hugeGrid 0 (2 ^ 31) = - 2 ^ 63) as E
    by (vm_compute; reflexivity).
  split; [exact E|]. rewrite E. vm_compute. intros [H|[H _]].
  - discriminate.
  - apply H. reflexivity.
Qed.


(** ** What holds in every state the program reaches *)

Section Reachable.

Variable Pixels : Type.
Variable CatmullRom_Scale : Image Pixels -> Z -> Z -> Pixels.
Variable sixel_Encode : Image Pixels -> Result string.

Abbreviation Model := (Model Pixels).
Abbreviation getSixelContentWithDimensions :=
  (getSixelContentWithDimensions Pixels CatmullRom_Scale sixel_Encode).
Abbreviation RenderSixelWithDimensions :=
  (Graphics.RenderSixelWithDimensions Pixels CatmullRom_Scale sixel_Encode).
Abbreviation drawSlot := (drawSlot Pixels CatmullRom_Scale sixel_Encode).
Abbreviation colStep := (colStep Pixels CatmullRom_Scale sixel_Encode).
Abbreviation rowStep := (rowStep Pixels CatmullRom_Scale sixel_Encode).
Abbreviation drawSixelsDirectly :=
  (drawSixelsDirectly Pixels CatmullRom_Scale sixel_Encode).
Abbreviation Update := (Update Pixels).
Abbreviation View := (View Pixels CatmullRom_Scale sixel_Encode).
Abbreviation reachable := (reachable Pixels CatmullRom_Scale sixel_Encode).
Abbreviation cacheCurrent :=
  (cacheCurrent Pixels CatmullRom_Scale sixel_Encode).

(** View gives back the model it was called on, up to the cache. *)
Lemma View_only_cache (m m' : Model) :
  View m = Some m' -> exists cache, m' = setSixelCache Pixels m cache.
Proof.
  assert (m = setSixelCache Pixels m (SixelCache Pixels m)) as Hsame
    by (destruct m; reflexivity).
  unfold App.View.
  destruct (negb (Ready Pixels m)); [intros [= <-]; eauto|].
  destruct (lenOf (DisplayApps Pixels m) =? 0); [intros [= <-]; eauto|].
  destruct (GridCellSize Pixels m) as [cellW cellH].
  destruct ((cellW <=? 0) || (cellH <=? 0)); [intros [= <-]; eauto|].
  destruct (renderFrames Pixels m); [|discriminate].
  destruct (SixelsDrawn Pixels m); [intros [= <-]; eauto|].
  destruct (drawSixelsDirectly m) as [[m1 out]|]; [|discriminate].
  intros [= <-]. eauto.
Qed.

(** The fields no message changes, and the flag no message sets. *)
Lemma Update_keeps (m : Model) msg :
  let m' := fst (fst (Update m msg)) in
  Config Pixels m' = Config Pixels m /\
  DisplayApps Pixels m' = DisplayApps Pixels m /\
  ErrorFlash Pixels m' = ErrorFlash Pixels m /\
  Selected Pixels m' = Selected Pixels m /\
  (SixelsDrawn Pixels m = false -> SixelsDrawn Pixels m' = false).
Proof.
  destruct msg as [key|w h|cellDim|icons|action x y|]; cbn [App.Update].
  - destruct (isQuitKey key); cbn; repeat split; auto.
  - destruct ((_ =? 0) && (_ =? 0)); cbn; repeat split; auto.
  - destruct (_ && Ready Pixels m); cbn; repeat split; auto.
  - cbn. repeat split; auto.
  - destruct action; cbn [fst]; try (repeat split; auto; fail).
    destruct ((0 <=? _) && _); cbn [fst]; try (repeat split; auto; fail).
    destruct (DisplayApps Pixels m !! _); cbn [fst]; repeat split; auto.
  - cbn. repeat split; auto.
Qed.

(** The displayed apps and their error flags stay as NewModel set
    them. *)
Lemma reachable_apps cfg (m : Model) :
  reachable cfg m ->
  DisplayApps Pixels m = GetDisplayApps cfg /\
  ErrorFlash Pixels m = replicate (List.length (DisplayApps Pixels m)) false.
Proof.
  intros Hreach. induction Hreach as [|m msg _ IH|m m' _ IH Hview].
  - cbn. auto.
  - destruct (Update_keeps m msg) as (_ & Hd & He & _).
    rewrite Hd, He. exact IH.
  - apply View_only_cache in Hview as [cache ->]. exact IH.
Qed.

(** X15.  In every state the program reaches, the configuration and
    the list of displayed apps are those it started with, no app is
    selected, no error flag is raised and there is one flag per
    displayed app.  SixelsDrawn is false: what View records about its
    drawing is lost with its copy of the model, so each View of a ready
    model draws the icons again. *)
Theorem reachable_fields_fixed :
  forall cfg (m : Model),
    reachable cfg m ->
    Config Pixels m = cfg /\
    DisplayApps Pixels m = GetDisplayApps cfg /\
    ErrorFlash Pixels m =
      replicate (List.length (DisplayApps Pixels m)) false /\
    Selected Pixels m = -1 /\
    SixelsDrawn Pixels m = false.
Proof.
  intros cfg m Hreach.
  induction Hreach as [|m msg _ IH|m m' _ IH Hview].
  - cbn. auto.
  - destruct (Update_keeps m msg) as (Hc & Hd & He & Hs & Hdrawn).
    destruct IH as (IHc & IHd & IHe & IHs & IHdrawn).
    rewrite Hc, Hd, He, Hs. repeat split; auto.
  - apply View_only_cache in Hview as [cache ->]. exact IH.
Qed.

(** *** View does not panic *)

Lemma reachable_cacheCurrent cfg (m : Model) :
  reachable cfg m -> cacheCurrent m.
Proof.
  intros Hreach. induction Hreach as [|m msg _ IH|m m' _ IH Hview].
  - intros key r. cbn. rewrite lookup_empty. discriminate.
  - apply cacheCurrent_Update, IH.
  - eapply cacheCurrent_View; eassumption.
Qed.

(** A rendering that is not empty was made for cells of a size that is
    not zero. *)
Lemma computedUnder_nonempty cellPx key r :
  computedUnder Pixels CatmullRom_Scale sixel_Encode cellPx key r ->
  Sixel r <> "" -> Width cellPx <> 0 /\ Height cellPx <> 0.
Proof.
  intros (i & w & h & s & _ & [->|(icon & enc & Hr)]) Hne;
    [exfalso; apply Hne; reflexivity|].
  unfold Graphics.RenderSixelWithDimensions in Hr.
  destruct ((int_mul w (Width cellPx) <=? 0)
            || (int_mul h (Height cellPx) <=? 0)) eqn:E.
  { injection Hr as <- _. exfalso. apply Hne. reflexivity. }
  apply orb_false_iff in E as [Ew Eh]. split; intros H0.
  - rewrite H0 in Ew. unfold int_mul in Ew. rewrite Z.mul_0_r in Ew.
    discriminate Ew.
  - rewrite H0 in Eh. unfold int_mul in Eh. rewrite Z.mul_0_r in Eh.
    discriminate Eh.
Qed.

Lemma placeSixel_safe (m : Model) row col r :
  (Sixel r <> "" ->
   Width (CellPx Pixels m) <> 0 /\ Height (CellPx Pixels m) <> 0) ->
  exists drawn, placeSixel Pixels m row col r = Some drawn.
Proof.
  intros H. unfold placeSixel.
  destruct (GridCellSize Pixels m) as [cellW cellH].
  destruct (IconCellSize Pixels m) as [iconW iconH].
  destruct (String.eqb (Sixel r) "") eqn:E; [eauto|].
  apply String.eqb_neq in E. destruct (H E) as [HW HH].
  apply Z.eqb_neq in HW, HH. rewrite HW, HH. cbn [orb]. eauto.
Qed.

Lemma iconLoaded_safe (m : Model) idx :
  0 <= idx -> exists b, iconLoaded Pixels m idx = Some b.
Proof.
  intros H. unfold iconLoaded.
  destruct (idx <? lenOf (Icons Pixels m)); [|eauto].
  assert ((idx <? 0) = false) as -> by (apply Z.ltb_ge; exact H).
  destruct (Icons Pixels m !! Z.to_nat idx) as [[icon|]|]; eauto.
Qed.

Lemma lookup_safe (m : Model) i w h s :
  0 <= i ->
  (forall icon,
     Icons Pixels m !! Z.to_nat i = Some (Some icon) ->
     RenderSixelWithDimensions icon w h (CellPx Pixels m) <> None) ->
  exists r m' enc, getSixelContentWithDimensions m i w h s = Some (r, m', enc).
Proof.
  intros H Hrender. unfold App.getSixelContentWithDimensions.
  destruct (SixelCache Pixels m !! cacheKey i w h s); [eauto|].
  destruct (i <? lenOf (Icons Pixels m)); [|eauto].
  assert ((i <? 0) = false) as -> by (apply Z.ltb_ge; exact H).
  destruct (Icons Pixels m !! Z.to_nat i) as [[icon|]|]; [|eauto|eauto].
  specialize (Hrender icon eq_refl).
  destruct (RenderSixelWithDimensions icon w h (CellPx Pixels m))
    as [[r enc]|]; [eauto|contradiction].
Qed.

(** The images View would scale in [m] have a pixel buffer whose length
    fits an int: no rendering of a loaded icon, at the size of its cell,
    panics. *)
Definition renderable (m : Model) : Prop :=
  forall (i : nat) icon,
    Icons Pixels m !! i = Some (Some icon) ->
    let '(iconW, iconH) := IconCellSize Pixels m in
    let scale := GetIconScale Pixels m (Z.of_nat i) in
    RenderSixelWithDimensions icon (scaledCells iconW scale)
      (scaledCells iconH scale) (CellPx Pixels m) <> None.

Lemma renderable_setSixelCache (m : Model) cache :
  renderable m -> renderable (setSixelCache Pixels m cache).
Proof. intros H. exact H. Qed.

Lemma drawSlot_safe (m : Model) row col idx :
  cacheCurrent m -> renderable m -> 0 <= idx ->
  exists m' drawn,
    drawSlot m row col idx = Some (m', drawn) /\ renderable m'.
Proof.
  intros Hinv Hall Hidx. unfold App.drawSlot.
  destruct (iconLoaded_safe m idx Hidx) as [[|] ->]; [|eauto].
  pose proof (Hall (Z.to_nat idx)) as Hrender.
  rewrite Z2Nat.id in Hrender by exact Hidx.
  destruct (IconCellSize Pixels m) as [iconW iconH].
  set (scale := GetIconScale Pixels m idx) in *.
  destruct (lookup_safe m idx (scaledCells iconW scale)
              (scaledCells iconH scale) scale Hidx Hrender)
    as (r & m1 & enc & Hget).
  rewrite Hget.
  destruct (cacheCurrent_lookup _ _ _ _ _ _ _ _ _ _ _ Hinv Hget)
    as [Hinv1 _].
  assert (SixelCache Pixels m1 !!
            cacheKey idx (scaledCells iconW scale) (scaledCells iconH scale)
              scale = Some r /\ renderable m1) as [Hin Hr1].
  { destruct (lookup_effect _ _ _ _ _ _ _ _ _ _ _ Hget)
      as [(Hc & -> & _)|(_ & -> & _)].
    - split; [exact Hc|exact Hall].
    - split; [|apply renderable_setSixelCache, Hall].
      cbn [App.SixelCache setSixelCache]. apply lookup_insert_eq. }
  destruct (placeSixel_safe m1 row col r) as [drawn ->]; [|eauto].
  apply (computedUnder_nonempty _ _ _ (Hinv1 _ _ Hin)).
Qed.

(** The loop runs on: its state has a current cache, the cell size [c],
    images that can be rendered and an index that is not negative. *)
Definition loopSafe (c : CellDim) (st : option (LoopState Pixels)) : Prop :=
  match st with
  | Some (m, idx, _) =>
      cacheCurrent m /\ CellPx Pixels m = c /\ 0 <= idx /\ renderable m
  | None => False
  end.

Lemma next_index (l : list AppConfig) idx :
  0 <= idx -> idx < lenOf l -> 0 <= int_add idx 1.
Proof.
  intros Hidx Hlt.
  pose proof (wrap_in_int (Z.of_nat (List.length l))) as Hlen.
  fold (lenOf l) in Hlen.
  unfold int_add. rewrite wrap_id; [lia|].
  unfold in_int, minInt, maxInt in *. lia.
Qed.

Lemma loopSafe_colStep c row st col :
  loopSafe c st -> loopSafe c (colStep row st col).
Proof.
  destruct st as [[[m idx] out]|]; [|auto]. intros (Hinv & Hc & Hidx & Hall).
  unfold App.colStep.
  destruct (idx <? lenOf (DisplayApps Pixels m)) eqn:E;
    [|repeat split; assumption].
  destruct (drawSlot_safe m row col idx Hinv Hall Hidx)
    as (m' & drawn & Hd & Hall').
  rewrite Hd.
  destruct (cacheCurrent_drawSlot _ _ _ _ _ _ _ _ _ Hinv Hd) as [H1 H2].
  split; [exact H1|]. split; [congruence|]. split; [|exact Hall'].
  apply Z.ltb_lt in E. eapply next_index; eassumption.
Qed.

Lemma loopSafe_rowStep c st row :
  loopSafe c st -> loopSafe c (rowStep st row).
Proof.
  destruct st as [[[m idx] out]|]; [|auto]. intros H. unfold App.rowStep.
  destruct (idx <? lenOf (DisplayApps Pixels m)); [|exact H].
  apply fold_left_inv; [|exact H]. intros st x. apply loopSafe_colStep.
Qed.

Lemma drawSixelsDirectly_safe (m : Model) :
  cacheCurrent m -> renderable m ->
  exists m' out, drawSixelsDirectly m = Some (m', out).
Proof.
  intros Hinv Hall. unfold App.drawSixelsDirectly.
  destruct (negb _); [eauto|].
  destruct (GridCellSize Pixels m) as [cellW cellH].
  destruct ((cellW <=? 0) || (cellH <=? 0)); [eauto|].
  assert (loopSafe (CellPx Pixels m) (Some (m, 0, []))) as H0
    by (repeat split; [exact Hinv|lia|exact Hall]).
  pose proof (fold_left_inv (loopSafe (CellPx Pixels m)) rowStep
                (seqZ 0 (Rows (Grid (Config Pixels m)))) (Some (m, 0, []))
                (loopSafe_rowStep (CellPx Pixels m)) H0) as H.
  destruct (fold_left _ _ _) as [[[m1 idx] out1]|]; [eauto|contradiction].
Qed.

(** *** The first pass *)

Lemma wrap_le z : 0 <= z -> wrap z <= z.
Proof.
  intros Hz. unfold wrap.
  pose proof (Z.mod_le (z + 2 ^ 63) (2 ^ 64) ltac:(lia) ltac:(lia)). lia.
Qed.

Lemma renderCellFrame_safe (m : Model) idx w h :
  List.length (ErrorFlash Pixels m) = List.length (DisplayApps Pixels m) ->
  0 <= idx -> idx < lenOf (DisplayApps Pixels m) ->
  exists cell, renderCellFrame Pixels m idx w h = Some cell.
Proof.
  intros Hlen Hidx Hlt. unfold renderCellFrame.
  destruct (Border (Style (Config Pixels m))); [|eauto].
  assert (lenOf (ErrorFlash Pixels m) = lenOf (DisplayApps Pixels m)) as ->
    by (unfold lenOf; rewrite Hlen; reflexivity).
  assert ((idx <? 0) = false) as -> by (apply Z.ltb_ge; exact Hidx).
  assert ((lenOf (DisplayApps Pixels m) <=? idx) = false) as ->
    by (apply Z.leb_gt; exact Hlt).
  cbn [orb].
  destruct (ErrorFlash Pixels m !! Z.to_nat idx) as [flash|] eqn:E; [eauto|].
  exfalso. apply lookup_ge_None in E.
  pose proof (wrap_le (Z.of_nat (List.length (DisplayApps Pixels m)))
                ltac:(lia)) as Hw.
  fold (lenOf (DisplayApps Pixels m)) in Hw. lia.
Qed.

Definition frameSafe {A} (st : option (Z * A)) : Prop :=
  match st with
  | Some (idx, _) => 0 <= idx
  | None => False
  end.

Lemma frameSafe_frameStep (m : Model) w h st col :
  List.length (ErrorFlash Pixels m) = List.length (DisplayApps Pixels m) ->
  frameSafe st -> frameSafe (frameStep Pixels m w h st col).
Proof.
  intros Hlen. destruct st as [[idx cells]|]; [|auto]. intros Hidx.
  unfold frameStep.
  destruct (idx <? lenOf (DisplayApps Pixels m)) eqn:E; [|exact Hidx].
  apply Z.ltb_lt in E.
  destruct (renderCellFrame_safe m idx w h Hlen Hidx E) as [cell ->].
  eapply next_index; eassumption.
Qed.

Lemma frameSafe_frameRow (m : Model) w h st row :
  List.length (ErrorFlash Pixels m) = List.length (DisplayApps Pixels m) ->
  frameSafe st -> frameSafe (frameRow Pixels m w h st row).
Proof.
  intros Hlen. destruct st as [[idx rows]|]; [|auto]. intros Hidx.
  unfold frameRow.
  pose proof (fold_left_inv frameSafe (frameStep Pixels m w h)
                (seqZ 0 (Columns (Grid (Config Pixels m))))
                (Some (idx, []))
                (fun st x => frameSafe_frameStep m w h st x Hlen) Hidx) as H.
  destruct (fold_left _ _ _) as [[idx' cells]|]; [exact H|contradiction].
Qed.

Lemma renderFrames_safe (m : Model) :
  List.length (ErrorFlash Pixels m) = List.length (DisplayApps Pixels m) ->
  exists rows, renderFrames Pixels m = Some rows.
Proof.
  intros Hlen. unfold renderFrames.
  destruct (GridCellSize Pixels m) as [cellW cellH].
  set (w := if (_ <? 1) then 1 else _). set (h := if (_ <? 1) then 1 else _).
  pose proof (fold_left_inv frameSafe (frameRow Pixels m w h)
                (seqZ 0 (Rows (Grid (Config Pixels m)))) (Some (0, []))
                (fun st x => frameSafe_frameRow m w h st x Hlen)
                ltac:(cbn; lia)) as H.
  destruct (fold_left _ _ _) as [[idx rows]|]; [eauto|contradiction].
Qed.

(** X16.  In every state the program reaches, View returns whenever the
    images it would scale have a pixel buffer whose length fits an int.
    Its first pass finds the error flag of every displayed app, and its
    drawing pass never indexes Icons below zero and never divides by a
    cell size of zero: a sixel that is not empty is in the cache only
    when it was rendered for the cell size in force, which then is not
    zero. *)
Theorem View_returns_when_reachable :
  forall cfg (m : Model),
    reachable cfg m ->
    renderable m ->
    (forall i, (i < List.length (DisplayApps Pixels m))%nat ->
       ErrorFlash Pixels m !! i = Some false) /\
    (exists rows, renderFrames Pixels m = Some rows) /\
    exists m', View m = Some m' /\ reachable cfg m'.
Proof.
  intros cfg m Hreach Hall.
  destruct (reachable_apps cfg m Hreach) as [_ Hflash].
  assert (List.length (ErrorFlash Pixels m)
          = List.length (DisplayApps Pixels m)) as Hlen
    by (rewrite Hflash at 1; apply length_replicate).
  destruct (renderFrames_safe m Hlen) as [rows Hrows].
  split.
  { rewrite Hflash. intros i Hi. apply lookup_replicate_2. exact Hi. }
  split; [eauto|].
  assert (exists m', View m = Some m') as [m' Hview].
  { pose proof (reachable_cacheCurrent cfg m Hreach) as Hinv.
    unfold App.View.
    destruct (negb (Ready Pixels m)); [eauto|].
    destruct (lenOf (DisplayApps Pixels m) =? 0); [eauto|].
    destruct (GridCellSize Pixels m) as [cellW cellH].
    destruct ((cellW <=? 0) || (cellH <=? 0)); [eauto|].
    rewrite Hrows.
    destruct (SixelsDrawn Pixels m); [eauto|].
    destruct (drawSixelsDirectly_safe m Hinv Hall) as (m1 & out & ->). eauto. }
  exists m'. split; [exact Hview|].
  eapply reach_view; eassumption.
Qed.

End Reachable.

Lemma reachable_fields_fixed_witness :
  App.Config unit viewed = shelfConfig 1 5 /\
  DisplayApps unit viewed = GetDisplayApps (shelfConfig 1 5) /\
  ErrorFlash unit viewed =
    replicate (List.length (DisplayApps unit viewed)) false /\
  Selected unit viewed = -1 /\
  SixelsDrawn unit viewed = false.
Proof.
  apply (reachable_fields_fixed unit noResample encodeStub (shelfConfig 1 5)
           viewed viewed_reachable).
Defined.

Lemma viewed_renderable : renderable unit noResample encodeStub viewed.
Proof.
  assert (Icons unit viewed = [Some (flat 64 64)]) as Hicons
    by (vm_compute; reflexivity).
  intros i icon Hi. rewrite Hicons in Hi.
  destruct i as [|i]; [|discriminate Hi].
  injection Hi as <-. vm_compute. discriminate.
Defined.

Lemma View_returns_when_reachable_witness :
  (forall i, (i < List.length (DisplayApps unit viewed))%nat ->
     ErrorFlash unit viewed !! i = Some false) /\
  (exists rows, renderFrames unit viewed = Some rows) /\
  exists m',
    View unit noResample encodeStub viewed = Some m' /\
    reachable unit noResample encodeStub (shelfConfig 1 5) m'.
Proof.
  apply (View_returns_when_reachable unit noResample encodeStub
           (shelfConfig 1 5) viewed viewed_reachable viewed_renderable).
Defined.


(** ** Hit testing on a terminal *)

Section OnTerminal.

Variable Pixels : Type.
Variable CatmullRom_Scale : Image Pixels -> Z -> Z -> Pixels.
Variable sixel_Encode : Image Pixels -> Result string.

Abbreviation Model := (Model Pixels).
Abbreviation Update := (Update Pixels).
Abbreviation View := (View Pixels CatmullRom_Scale sixel_Encode).
Abbreviation reachable := (reachable Pixels CatmullRom_Scale sixel_Encode).
Abbreviation runs := (runs Pixels CatmullRom_Scale sixel_Encode).
Abbreviation HitTest := (HitTest Pixels).

Lemma runs_reachable cfg (m : Model) : runs cfg m -> reachable cfg m.
Proof.
  induction 1 as [|m msg _ IH _|m m' _ IH Hview].
  - apply reach_new.
  - apply reach_update, IH.
  - eapply reach_view; eassumption.
Qed.




End OnTerminal.




(** ** From a click to a launch *)

Section Click.

Variable Pixels : Type.

Abbreviation Model := (Model Pixels).
Abbreviation Update := (Update Pixels).
Abbreviation HitTest := (HitTest Pixels).

Lemma quot_cell k size d :
  0 <= k -> 0 < size -> 0 <= d < size -> in_int (k * size + d) ->
  int_quo (k * size + d) size = k.
Proof.
  intros Hk Hsize Hd Hint. unfold int_quo.
  rewrite Z.quot_div_nonneg by nia.
  rewrite Z.div_add_l by lia. rewrite Z.div_small by lia.
  rewrite Z.add_0_r. apply wrap_id.
  unfold in_int, minInt, maxInt in *. nia.
Qed.

(** A point of the cell in row [r] and column [c] hits the app that
    View put there. *)
Lemma HitTest_cell (m : Model) cellW cellH r c dx dy :
  GridCellSize Pixels m = (cellW, cellH) ->
  0 < cellW -> 0 < cellH ->
  0 <= r < Rows (Grid (Config Pixels m)) ->
  0 <= c < Columns (Grid (Config Pixels m)) ->
  0 <= dx < cellW -> 0 <= dy < cellH ->
  in_int (c * cellW + dx) -> in_int (r * cellH + dy) ->
  r * Columns (Grid (Config Pixels m)) + c
    < Z.of_nat (List.length (DisplayApps Pixels m)) <= maxInt ->
  HitTest m (c * cellW + dx) (r * cellH + dy) =
  r * Columns (Grid (Config Pixels m)) + c.
Proof.
  intros HG HW HH Hr Hc Hdx Hdy Hx Hy Hlen. unfold App.HitTest. rewrite HG.
  assert ((cellW <=? 0) || (cellH <=? 0) = false) as ->.
  { apply orb_false_iff. split; apply Z.leb_gt; lia. }
  rewrite (quot_cell c cellW dx), (quot_cell r cellH dy)
    by (assumption || lia).
  set (C := Columns (Grid (Config Pixels m))) in *.
  set (R := Rows (Grid (Config Pixels m))) in *.
  assert ((c <? 0) || (C <=? c) = false) as ->.
  { apply orb_false_iff. split; [apply Z.ltb_ge|apply Z.leb_gt]; lia. }
  assert ((r <? 0) || (R <=? r) = false) as ->.
  { apply orb_false_iff. split; [apply Z.ltb_ge|apply Z.leb_gt]; lia. }
  assert (0 <= r * C) as Hrc by nia.
  unfold int_add, int_mul.
  rewrite (wrap_id (r * C)) by (unfold in_int, minInt, maxInt in *; lia).
  rewrite wrap_id by (unfold in_int, minInt, maxInt in *; lia).
  unfold lenOf. rewrite wrap_id by (unfold in_int, minInt, maxInt in *; lia).
  assert ((Z.of_nat (List.length (DisplayApps Pixels m)) <=? r * C + c)
          = false) as -> by (apply Z.leb_gt; lia).
  reflexivity.
Qed.

(** What a launch of [app] starts. *)
Definition launchOf (app : AppConfig) : Effect :=
  if IsCommand app then RunCommand (Command app)
  else LaunchApp (Package app) (Activity app).

(** X17.  Releasing the mouse button anywhere inside the grid cell in
    row [r] and column [c] launches the app at position
    [r * Columns + c] of the display order and no other: its command
    through the shell when it has one, otherwise its package and
    activity.  The model is left as it is, the program quits exactly
    when CloseOnLaunch is set, and pressing the button or moving the
    mouse at the same place starts nothing. *)
Theorem release_in_cell_launches_its_app :
  forall (m : Model) cellW cellH r c dx dy app,
    GridCellSize Pixels m = (cellW, cellH) ->
    0 < cellW -> 0 < cellH ->
    0 <= r < Rows (Grid (Config Pixels m)) ->
    0 <= c < Columns (Grid (Config Pixels m)) ->
    0 <= dx < cellW -> 0 <= dy < cellH ->
    in_int (c * cellW + dx) -> in_int (r * cellH + dy) ->
    Z.of_nat (List.length (DisplayApps Pixels m)) <= maxInt ->
    DisplayApps Pixels m
      !! Z.to_nat (r * Columns (Grid (Config Pixels m)) + c) = Some app ->
    let x := c * cellW + dx in
    let y := r * cellH + dy in
    let index := r * Columns (Grid (Config Pixels m)) + c in
    HitTest m x y = index /\
    Update m (MouseMsg Pixels MouseActionRelease x y) =
      (m,
       if CloseOnLaunch (Behavior (Config Pixels m)) then Quit else NoCmd,
       flashCell Pixels m index ++ [launchOf app]) /\
    Update m (MouseMsg Pixels MouseActionPress x y) = (m, NoCmd, []) /\
    Update m (MouseMsg Pixels MouseActionMotion x y) = (m, NoCmd, []).
Proof.
  intros m cellW cellH r c dx dy app HG HW HH Hr Hc Hdx Hdy Hx Hy Hmax Happ.
  cbv zeta.
  set (C := Columns (Grid (Config Pixels m))) in *.
  assert (0 <= r * C + c) as Hnn by nia.
  assert (r * C + c < Z.of_nat (List.length (DisplayApps Pixels m))) as Hlt.
  { apply lookup_lt_Some in Happ. lia. }
  assert (HitTest m (c * cellW + dx) (r * cellH + dy) = r * C + c) as Hhit.
  { apply HitTest_cell; auto. }
  split; [exact Hhit|]. split; [|split; reflexivity].
  cbn [App.Update]. rewrite Hhit.
  assert ((0 <=? r * C + c) && (r * C + c <? lenOf (DisplayApps Pixels m))
          = true) as ->.
  { apply andb_true_iff. split; [apply Z.leb_le; lia|]. apply Z.ltb_lt.
    unfold lenOf. rewrite wrap_id; [lia|].
    unfold in_int, minInt, maxInt in *. lia. }
  rewrite Happ. reflexivity.
Qed.

End Click.

Lemma release_in_cell_launches_its_app_witness :
  App.HitTest unit started (0 * 16 + 3) (0 * 23 + 4) = 0 * 5 + 0 /\
  Update unit started (MouseMsg unit MouseActionRelease (0 * 16 + 3) (0 * 23 + 4)) =
    (started, NoCmd,
     flashCell unit started (0 * 5 + 0) ++
       [LaunchApp "com.android.documentsui" ".LauncherActivity"]) /\
  Update unit started (MouseMsg unit MouseActionPress (0 * 16 + 3) (0 * 23 + 4)) =
    (started, NoCmd, []) /\
  Update unit started (MouseMsg unit MouseActionMotion (0 * 16 + 3) (0 * 23 + 4)) =
    (started, NoCmd, []).
Proof.
  apply (release_in_cell_launches_its_app unit started 16 23 0 0 3 4 shelfApp).
  - vm_compute. reflexivity.
  - lia.
  - lia.
  - vm_compute. split; [discriminate|reflexivity].
  - vm_compute. split; [discriminate|reflexivity].
  - lia.
  - lia.
  - unfold in_int, minInt, maxInt. lia.
  - unfold in_int, minInt, maxInt. lia.
  - vm_compute. discriminate.
  - vm_compute. reflexivity.
Defined.


(** ** The display order and the icon scale *)

(** The index GetDisplayApps builds: a later app of the same name
    replaces an earlier one. *)
Definition appIndex (apps : list AppConfig) (start : gmap string AppConfig)
  : gmap string AppConfig :=
  fold_left (fun m app => <[Name app := app]> m) apps start.

Lemma appIndex_lookup apps :
  forall start name app,
    appIndex apps start !! name = Some app ->
    (app ∈ apps /\ Name app = name) \/ start !! name = Some app.
Proof.
  induction apps as [|a apps IH]; intros start name app; cbn; [auto|].
  intros H. apply IH in H as [[Hin Hn]|H].
  - left. split; [right; exact Hin|exact Hn].
  - apply lookup_insert_Some in H as [[<- <-]|[_ H]]; [|auto].
    left. split; [left|reflexivity].
Qed.

Lemma appIndex_defined apps :
  forall start name,
    name ∈ map Name apps \/ is_Some (start !! name) ->
    is_Some (appIndex apps start !! name).
Proof.
  induction apps as [|a apps IH]; intros start name; cbn [map].
  - intros [H|H]; [inversion H|exact H].
  - intros H. apply IH.
    destruct (decide (Name a = name)) as [<-|Hne].
    + right. rewrite lookup_insert_eq. eauto.
    + destruct H as [H|H].
      * apply elem_of_cons in H as [H|H]; [congruence|left; exact H].
      * right. rewrite lookup_insert_ne by exact Hne. exact H.
Qed.

Lemma appIndex_last before app after :
  forall start,
    (forall a, a ∈ after -> Name a <> Name app) ->
    appIndex (before ++ app :: after) start !! Name app = Some app.
Proof.
  intros start Hafter. unfold appIndex. rewrite fold_left_app. cbn.
  set (m1 := <[Name app := app]> _).
  assert (m1 !! Name app = Some app) as H1 by apply lookup_insert_eq.
  clearbody m1. revert m1 H1.
  induction after as [|a after IH]; intros m1 H1; cbn; [exact H1|].
  apply IH.
  - intros a' Ha'. apply Hafter. right. exact Ha'.
  - rewrite lookup_insert_ne; [exact H1|]. apply Hafter. left.
Qed.

Definition known (cfg : Config.Config) (name : string) : bool :=
  bool_decide (name ∈ map Name (Apps cfg)).

Lemma omap_names cfg names :
  map Name (omap (fun name => appIndex (Apps cfg) ∅ !! name) names) =
  List.filter (known cfg) names.
Proof.
  induction names as [|n names IH]; [reflexivity|].
  cbn [omap list_omap List.filter]. unfold known at 1.
  destruct (appIndex (Apps cfg) ∅ !! n) as [a|] eqn:Ha.
  - pose proof Ha as Hin.
    apply appIndex_lookup in Hin as [[Hin Hn]|Hin];
      [|rewrite lookup_empty in Hin; discriminate].
    rewrite bool_decide_true.
    + cbn [map]. rewrite Hn. f_equal. exact IH.
    + rewrite <- Hn. apply list_elem_of_In, in_map, list_elem_of_In, Hin.
  - rewrite bool_decide_false; [exact IH|].
    intros Hin.
    destruct (appIndex_defined (Apps cfg) ∅ n (or_introl Hin)) as [a Ha'].
    congruence.
Qed.

(** X18.  GetDisplayApps with an empty display list gives the
    configured apps as they are.  Otherwise it gives, in the order of
    the display list and as often as a name is listed there, the app of
    every listed name that is configured; names that are not configured
    are passed over without an error.  Every app it gives is a
    configured one, and where two configured apps share a name, it is
    the later one. *)
Theorem GetDisplayApps_follows_display :
  forall cfg,
    (Display cfg = [] -> GetDisplayApps cfg = Apps cfg) /\
    (Display cfg <> [] ->
     map Name (GetDisplayApps cfg) = List.filter (known cfg) (Display cfg)) /\
    (forall app, app ∈ GetDisplayApps cfg -> app ∈ Apps cfg) /\
    (forall before app after a,
       Display cfg <> [] ->
       Apps cfg = before ++ app :: after ->
       (forall a', a' ∈ after -> Name a' <> Name app) ->
       a ∈ GetDisplayApps cfg -> Name a = Name app -> a = app).
Proof.
  intros cfg. unfold GetDisplayApps. fold (appIndex (Apps cfg) ∅).
  destruct (Display cfg) as [|n names] eqn:Hd.
  - split; [reflexivity|]. split; [intros H; contradiction|].
    split; [auto|]. intros before app after a H. contradiction.
  - split; [discriminate|]. split; [intros _; apply omap_names|].
    split.
    + intros app Hin. apply list_elem_of_omap in Hin as (name & _ & Hl).
      apply appIndex_lookup in Hl as [[Hin _]|Hl]; [exact Hin|].
      rewrite lookup_empty in Hl. discriminate.
    + intros before app after a _ Happs Hafter Hin Hname.
      apply list_elem_of_omap in Hin as (name & _ & Hl).
      pose proof Hl as Hl'.
      apply appIndex_lookup in Hl' as [[_ Hn]|Hl'];
        [|rewrite lookup_empty in Hl'; discriminate].
      rewrite Happs in Hl. rewrite <- Hn, Hname in Hl.
      rewrite (appIndex_last before app after ∅ Hafter) in Hl.
      congruence.
Qed.

Definition filesApp (pkg : string) : AppConfig :=
  {| Name := "Files"; Icon := ""; Package := pkg;
     Activity := ".Main"; Command := ""; AppIconScale := 0 |}.

Definition termApp : AppConfig :=
  {| Name := "Term"; Icon := ""; Package := ""; Activity := "";
     Command := "tmux new-window"; AppIconScale := 0 |}.

(** Two apps named "Files", and a display list that names "Term" first,
    then "Files", then an app that is not configured. *)
Definition orderedConfig : Config.Config :=
  {| Display := ["Term"; "Files"; "Camera"];
     Grid := {| Rows := 1; Columns := 5 |};
     Style := {| Border := true; Padding := 1; IconScale := 1;
                 BorderColor := "240"; HighlightColor := "96" |};
     Behavior := {| CloseOnLaunch := false |};
     Apps := [filesApp "com.old.files"; termApp; filesApp "com.new.files"] |}.

Lemma GetDisplayApps_follows_display_witness :
  map Name (GetDisplayApps orderedConfig) = ["Term"; "Files"] /\
  (forall a, a ∈ GetDisplayApps orderedConfig -> Name a = "Files" ->
     a = filesApp "com.new.files").
Proof.
  destruct (GetDisplayApps_follows_display orderedConfig)
    as (_ & Hnames & _ & Hlast).
  split.
  - rewrite Hnames by discriminate. vm_compute. reflexivity.
  - intros a Hin Hname.
    apply (Hlast [filesApp "com.old.files"; termApp]
             (filesApp "com.new.files") [] a).
    + discriminate.
    + reflexivity.
    + intros a' Ha'. inversion Ha'.
    + exact Hin.
    + exact Hname.
Defined.

(** *** The effective icon scale *)

Lemma SFcompare_antisym x y :
  SFcompare y x = option_map CompOpp (SFcompare x y).
Proof.
  destruct x as [sx|sx| |sx mx ex], y as [sy|sy| |sy my ey];
    cbn; try reflexivity;
    try (destruct sx; reflexivity); try (destruct sy; reflexivity);
    try (destruct sx, sy; reflexivity).
  destruct sx, sy; cbn; try reflexivity.
  - rewrite (Z.compare_antisym ex ey).
    destruct (ex ?= ey)%Z; cbn; try reflexivity.
    change (Pos.compare_cont Eq my mx) with (my ?= mx)%positive.
    change (Pos.compare_cont Eq mx my) with (mx ?= my)%positive.
    rewrite (Pos.compare_antisym mx my). reflexivity.
  - rewrite (Z.compare_antisym ex ey).
    destruct (ex ?= ey)%Z; cbn; try reflexivity.
    change (Pos.compare_cont Eq my mx) with (my ?= mx)%positive.
    change (Pos.compare_cont Eq mx my) with (mx ?= my)%positive.
    rewrite (Pos.compare_antisym mx my). reflexivity.
Qed.

Lemma SFcompare_none x y :
  SFcompare x y = None -> x = S754_nan \/ y = S754_nan.
Proof.
  destruct x as [sx|sx| |sx mx ex], y as [sy|sy| |sy my ey]; cbn;
    auto; discriminate.
Qed.

(** Among numbers, "not below" is "at or above": [x] is above some [z],
    so it is a number, and [y] equals itself, so it is one. *)
Lemma not_ltb_leb x y z :
  PrimFloat.ltb z x = true ->
  PrimFloat.ltb x y = false ->
  PrimFloat.eqb y y = true ->
  PrimFloat.leb y x = true.
Proof.
  rewrite !FloatAxioms.ltb_spec, FloatAxioms.leb_spec, FloatAxioms.eqb_spec.
  unfold SFltb, SFleb, SFeqb. intros Hzx Hxy Hy.
  rewrite (SFcompare_antisym (Prim2SF x) (Prim2SF y)).
  destruct (SFcompare (Prim2SF x) (Prim2SF y)) as [[| |]|] eqn:E;
    try reflexivity; try discriminate.
  exfalso. apply SFcompare_none in E as [E|E].
  - rewrite E in Hzx. destruct (Prim2SF z); discriminate.
  - rewrite E in Hy. discriminate.
Qed.

(** The clamp gives a number between a tenth and one for every number
    above zero. *)
Lemma clampScale_bounds s :
  PrimFloat.ltb 0 s = true ->
  PrimFloat.leb tenth (clampScale s) = true /\
  PrimFloat.leb (clampScale s) 1 = true.
Proof.
  intros Hpos. unfold clampScale.
  destruct (PrimFloat.ltb s tenth) eqn:Hlow; [split; reflexivity|].
  destruct (PrimFloat.ltb 1 s) eqn:Hhigh; [split; reflexivity|].
  split.
  - apply (not_ltb_leb s tenth 0 Hpos Hlow). reflexivity.
  - rewrite FloatAxioms.leb_spec. rewrite FloatAxioms.ltb_spec in Hhigh, Hpos.
    unfold SFleb, SFltb in *.
    rewrite (SFcompare_antisym (Prim2SF 1) (Prim2SF s)).
    destruct (SFcompare (Prim2SF 1) (Prim2SF s)) as [[| |]|] eqn:E;
      try reflexivity; try discriminate.
    exfalso. apply SFcompare_none in E as [E|E]; [discriminate|].
    rewrite E in Hpos. discriminate.
Qed.

Section Scale.

Variable Pixels : Type.

(** X19.  The scale an icon is drawn at is always a number between
    0.1 and 1.0, whatever the configuration says: a per-app scale above
    zero is clamped to that range, otherwise a global scale above zero
    is, and when neither is above zero, or one is not a number, the
    scale is 1.0.  The same holds for the scale the model hands out for
    any index, in range or not. *)
Theorem GetIconScale_between_tenth_and_one :
  (forall cfg app,
     PrimFloat.leb tenth (Config.GetIconScale cfg app) = true /\
     PrimFloat.leb (Config.GetIconScale cfg app) 1 = true) /\
  (forall (m : App.Model Pixels) index,
     PrimFloat.leb tenth (App.GetIconScale Pixels m index) = true /\
     PrimFloat.leb (App.GetIconScale Pixels m index) 1 = true).
Proof.
  assert (forall cfg app,
            PrimFloat.leb tenth (Config.GetIconScale cfg app) = true /\
            PrimFloat.leb (Config.GetIconScale cfg app) 1 = true) as Hcfg.
  { intros cfg app. unfold Config.GetIconScale.
    destruct (PrimFloat.ltb 0 (AppIconScale app)) eqn:Happ;
      [apply clampScale_bounds, Happ|].
    destruct (PrimFloat.ltb 0 (IconScale (Style cfg))) eqn:Hglobal;
      [apply clampScale_bounds, Hglobal|].
    split; reflexivity. }
  split; [exact Hcfg|].
  intros m index. unfold App.GetIconScale.
  destruct ((index <? 0) || _); [split; reflexivity|].
  destruct (DisplayApps Pixels m !! Z.to_nat index);
    [apply Hcfg|split; reflexivity].
Qed.

End Scale.


(** ** From the configuration file to a launch *)

(** The resolver cache holds no empty answer. *)
Definition cacheSound (c : Sys.ResolverCache) : Prop :=
  (forall key pkg, Sys.packageCache c !! key = Some pkg -> pkg <> "") /\
  (forall key activity,
     Sys.activityCache c !! key = Some activity -> activity <> "").

Lemma cacheSound_empty : cacheSound Sys.ClearAppInfoCache.
Proof.
  split; intros key v; cbn; rewrite lookup_empty; discriminate.
Qed.

(** An app that can be launched: it has a command, or both a package
    and an activity. *)
Definition launchable (app : AppConfig) : Prop :=
  Command app <> "" \/ (Package app <> "" /\ Activity app <> "").

Section Loader.

Variable ToLower : string -> string.
Variable TrimSpace : string -> string.
Variable Join : list string -> string.
Variable UserHomeDir : Result string.
Variable Unmarshal : string -> Config.Config -> Config.Config * option string.
Variable Pixels : Type.
Variable CatmullRom_Scale : Image Pixels -> Z -> Z -> Pixels.
Variable sixel_Encode : Image Pixels -> Result string.

Abbreviation AutoDetectPackage := (Sys.AutoDetectPackage ToLower TrimSpace).
Abbreviation AutoDetectActivity := (Sys.AutoDetectActivity TrimSpace).
Abbreviation autoDetectAppInfo := (autoDetectAppInfo ToLower TrimSpace).
Abbreviation Load :=
  (Load ToLower TrimSpace Join UserHomeDir Unmarshal).
Abbreviation Model := (Model Pixels).
Abbreviation Update := (Update Pixels).
Abbreviation reachable := (reachable Pixels CatmullRom_Scale sixel_Encode).

Lemma AutoDetectPackage_sound c now pm stored appName r c' :
  cacheSound c ->
  AutoDetectPackage c now pm stored appName = (r, c') ->
  cacheSound c' /\ forall pkg, r = Ok pkg -> pkg <> "".
Proof.
  intros [Hp Ha]. unfold Sys.AutoDetectPackage.
  destruct (Sys.packageCache c !! appName) as [cached|] eqn:Hc.
  - destruct (Since now (Sys.expiryOf c appName) <? Sys.cacheDuration).
    { intros [= <- <-]. split; [split; assumption|].
      intros pkg [= <-]. eapply Hp, Hc. }
    destruct pm as [output|e];
      [|intros [= <- <-]; split; [split; assumption|discriminate]].
    destruct (fold_left _ _ _) as [b s].
    destruct (String.eqb b "") eqn:Hb; cbn [orb];
      [intros [= <- <-]; split; [split; assumption|discriminate]|].
    apply String.eqb_neq in Hb.
    destruct (s <? 2);
      [intros [= <- <-]; split; [split; assumption|discriminate]|].
    intros [= <- <-]. split; [|intros pkg [= <-]; exact Hb].
    split; cbn; [|exact Ha].
    intros key pkg Hl. apply lookup_insert_Some in Hl as [[_ <-]|[_ Hl]];
      [exact Hb|eapply Hp, Hl].
  - destruct pm as [output|e];
      [|intros [= <- <-]; split; [split; assumption|discriminate]].
    destruct (fold_left _ _ _) as [b s].
    destruct (String.eqb b "") eqn:Hb; cbn [orb];
      [intros [= <- <-]; split; [split; assumption|discriminate]|].
    apply String.eqb_neq in Hb.
    destruct (s <? 2);
      [intros [= <- <-]; split; [split; assumption|discriminate]|].
    intros [= <- <-]. split; [|intros pkg [= <-]; exact Hb].
    split; cbn; [|exact Ha].
    intros key pkg Hl. apply lookup_insert_Some in Hl as [[_ <-]|[_ Hl]];
      [exact Hb|eapply Hp, Hl].
Qed.

Lemma AutoDetectActivity_sound c now dump stored pkg r c' :
  cacheSound c ->
  AutoDetectActivity c now dump stored pkg = (r, c') ->
  cacheSound c' /\ forall activity, r = Ok activity -> activity <> "".
Proof.
  intros [Hp Ha]. unfold Sys.AutoDetectActivity.
  assert (forall r c',
    match dump with
    | Ok output =>
        if String.eqb (Sys.parseMainActivity TrimSpace output pkg) ""
        then (Err ("no main activity found for package " +:+ pkg), c)
        else
          (Ok (Sys.parseMainActivity TrimSpace output pkg),
           {| Sys.packageCache := Sys.packageCache c;
              Sys.activityCache :=
                <[pkg := Sys.parseMainActivity TrimSpace output pkg]>
                  (Sys.activityCache c);
              Sys.cacheExpiry :=
                <[pkg +:+ "_act" := stored]> (Sys.cacheExpiry c) |})
    | Err e => (Err ("pm dump failed: " +:+ e), c)
    end = (r, c') ->
    cacheSound c' /\ forall activity, r = Ok activity -> activity <> "")
    as Hquery.
  { intros r0 c0.
    destruct dump as [output|e];
      [|intros [= <- <-]; split; [split; assumption|discriminate]].
    destruct (String.eqb _ "") eqn:Hb;
      [intros [= <- <-]; split; [split; assumption|discriminate]|].
    apply String.eqb_neq in Hb.
    intros [= <- <-]. split; [|intros activity [= <-]; exact Hb].
    split; cbn; [exact Hp|].
    intros key activity Hl.
    apply lookup_insert_Some in Hl as [[_ <-]|[_ Hl]];
      [exact Hb|eapply Ha, Hl]. }
  destruct (Sys.activityCache c !! pkg) as [cached|] eqn:Hc; [|apply Hquery].
  destruct (Since now _ <? Sys.cacheDuration); [|apply Hquery].
  intros [= <- <-]. split; [split; assumption|].
  intros activity [= <-]. eapply Ha, Hc.
Qed.

(** X20.  autoDetectAppInfo fills gaps only.  It never changes the
    name, icon, command or scale of an app, never replaces a package or
    an activity that is configured, and leaves an app with a command
    alone without asking the device.  When it reports no error for an
    app without a command, the app has both a package and an activity
    afterwards, given a resolver cache without empty answers, which is
    what it leaves behind in turn. *)
Theorem autoDetectAppInfo_fills_only_gaps :
  forall c p app app' err c',
    cacheSound c ->
    autoDetectAppInfo c p app = (app', err, c') ->
    cacheSound c' /\
    (Name app' = Name app /\ Icon app' = Icon app /\
     Command app' = Command app /\ AppIconScale app' = AppIconScale app) /\
    (Package app <> "" -> Package app' = Package app) /\
    (Activity app <> "" -> Activity app' = Activity app) /\
    (Command app <> "" -> app' = app /\ c' = c /\ err = None) /\
    (Command app = "" -> err = None ->
     Package app' <> "" /\ Activity app' <> "").
Proof.
  intros c p app app' err c' Hsound. unfold Config.autoDetectAppInfo.
  destruct (String.eqb (Package app) "") eqn:Epkg;
    destruct (String.eqb (Activity app) "") eqn:Eact;
    destruct (String.eqb (Command app) "") eqn:Ecmd;
    cbn [negb andb];
    pose proof Epkg as Hpkg; pose proof Eact as Hact; pose proof Ecmd as Hcmd;
    first [apply String.eqb_eq in Hpkg|apply String.eqb_neq in Hpkg];
    first [apply String.eqb_eq in Hact|apply String.eqb_neq in Hact];
    first [apply String.eqb_eq in Hcmd|apply String.eqb_neq in Hcmd];
    try (intros [= <- <- <-]; split; [assumption|];
         repeat split; auto; congruence).
  - (* no package, no activity *)
    destruct (AutoDetectPackage c _ _ _ _) as [[pkg|e] c1] eqn:H1;
      destruct (AutoDetectPackage_sound _ _ _ _ _ _ _ Hsound H1)
        as [Hs1 Hpkg1].
    + specialize (Hpkg1 pkg eq_refl).
      change (Activity (setPackage app pkg)) with (Activity app).
      rewrite Eact.
      destruct (AutoDetectActivity c1 _ _ _ _) as [[activity|e] c2] eqn:H2;
        destruct (AutoDetectActivity_sound _ _ _ _ _ _ _ Hs1 H2)
          as [Hs2 Hact2];
        intros [= <- <- <-]; cbn; (split; [assumption|]);
        repeat split; auto; try congruence;
        try (apply Hact2; reflexivity).
    + intros [= <- <- <-]. split; [assumption|].
      repeat split; auto; congruence.
  - (* no package, an activity *)
    destruct (AutoDetectPackage c _ _ _ _) as [[pkg|e] c1] eqn:H1;
      destruct (AutoDetectPackage_sound _ _ _ _ _ _ _ Hsound H1)
        as [Hs1 Hpkg1].
    + specialize (Hpkg1 pkg eq_refl).
      change (Activity (setPackage app pkg)) with (Activity app).
      rewrite Eact.
      intros [= <- <- <-]. cbn. split; [assumption|].
      repeat split; auto; congruence.
    + intros [= <- <- <-]. split; [assumption|].
      repeat split; auto; congruence.
  - (* a package, no activity *)
    destruct (AutoDetectActivity c _ _ _ _) as [[activity|e] c2] eqn:H2;
      destruct (AutoDetectActivity_sound _ _ _ _ _ _ _ Hsound H2)
        as [Hs2 Hact2];
      intros [= <- <- <-]; cbn; (split; [assumption|]);
      repeat split; auto; try congruence;
      try (apply Hact2; reflexivity).
Qed.

(** *** What validate lets through *)

Lemma validateApp_launchable fs i app :
  validateApp fs i app = None -> launchable app.
Proof.
  unfold validateApp, launchable.
  destruct (String.eqb (Command app) "") eqn:Hcmd; cbn [andb].
  - destruct (String.eqb (Package app) "") eqn:Hpkg; [discriminate|].
    destruct (String.eqb (Activity app) "") eqn:Hact; [discriminate|].
    intros _. right. split; apply String.eqb_neq; assumption.
  - intros _. left. apply String.eqb_neq. exact Hcmd.
Qed.

Lemma validateApps_launchable fs apps :
  forall i, validateApps fs i apps = None -> Forall launchable apps.
Proof.
  induction apps as [|app apps IH]; intros i; cbn [validateApps];
    [constructor|].
  destruct (validateApp fs i app) eqn:Happ; [discriminate|].
  intros H. constructor; [eapply validateApp_launchable, Happ|].
  eapply IH, H.
Qed.

Lemma validate_launchable fs cfg :
  validate fs cfg = None ->
  1 <= Rows (Grid cfg) /\ 1 <= Columns (Grid cfg) /\
  Forall launchable (Apps cfg).
Proof.
  unfold validate.
  destruct (Rows (Grid cfg) <? 1) eqn:Hr; [discriminate|].
  destruct (Columns (Grid cfg) <? 1) eqn:Hc; [discriminate|].
  apply Z.ltb_ge in Hr, Hc. intros H.
  split; [exact Hr|]. split; [exact Hc|].
  eapply validateApps_launchable, H.
Qed.

Lemma Load_launchable fs c probes path cfg c' :
  (Load fs c probes path) = (cfg, None, c') ->
  1 <= Rows (Grid cfg) /\ 1 <= Columns (Grid cfg) /\
  Forall launchable (Apps cfg).
Proof.
  unfold Config.Load.
  destruct (entries fs !! path).
  - destruct (ReadFile fs path) as [data|e]; [|discriminate].
    destruct (Unmarshal data DefaultConfig) as [cfg0 [e|]]; [discriminate|].
    destruct (prepareApps _ _ _ _ _ _ _ _) as [apps c1].
    intros [= <- Hv _]. apply validate_launchable in Hv. exact Hv.
  - intros [= <- _]. cbn. split; [lia|]. split; [lia|constructor].
Qed.

Lemma GetDisplayApps_configured cfg app :
  app ∈ GetDisplayApps cfg -> app ∈ Apps cfg.
Proof.
  unfold GetDisplayApps. fold (appIndex (Apps cfg) ∅).
  destruct (Display cfg) as [|n names]; [auto|].
  intros Hin. apply list_elem_of_omap in Hin as (name & _ & Hl).
  apply appIndex_lookup in Hl as [[Hin _]|Hl]; [exact Hin|].
  rewrite lookup_empty in Hl. discriminate.
Qed.

(** What an effect of Update must look like to reach the device in
    good order. *)
Definition wellFormed (m : Model) (effect : Effect) : Prop :=
  match effect with
  | LaunchApp pkg activity => pkg <> "" /\ activity <> ""
  | RunCommand command => command <> ""
  | FlashCell index => 0 <= index < lenOf (DisplayApps Pixels m)
  end.

Lemma Update_wellFormed (m : Model) msg effect :
  Forall launchable (DisplayApps Pixels m) ->
  effect ∈ snd (Update m msg) -> wellFormed m effect.
Proof.
  intros Hall.
  destruct msg as [key|w h|cellDim|icons|action x y|]; cbn [App.Update].
  - destruct (isQuitKey key); intros H; inversion H.
  - destruct ((_ =? 0) && (_ =? 0)); intros H; inversion H.
  - destruct (_ && Ready Pixels m); intros H; inversion H.
  - intros H; inversion H.
  - destruct action; try (intros H; inversion H; fail).
    set (index := HitTest Pixels m x y).
    destruct ((0 <=? index) && (index <? lenOf (DisplayApps Pixels m)))
      eqn:Hidx; [|intros H; inversion H].
    apply andb_true_iff in Hidx as [H0 H1].
    apply Z.leb_le in H0. apply Z.ltb_lt in H1.
    destruct (DisplayApps Pixels m !! Z.to_nat index) as [app|] eqn:Happ;
      [|intros H; inversion H].
    cbn [snd]. intros Hin. apply elem_of_app in Hin as [Hin|Hin].
    + unfold flashCell in Hin.
      destruct (negb _); [inversion Hin|].
      destruct (GridCellSize Pixels m) as [cellW cellH].
      destruct ((cellW <=? 0) || (cellH <=? 0)); [inversion Hin|].
      apply list_elem_of_singleton in Hin as ->. cbn. lia.
    + apply list_elem_of_singleton in Hin as ->.
      apply list_elem_of_lookup_2 in Happ.
      rewrite Forall_forall in Hall. specialize (Hall app Happ).
      unfold IsCommand.
      destruct (String.eqb (Command app) "") eqn:Hcmd; cbn [negb].
      * apply String.eqb_eq in Hcmd.
        destruct Hall as [Hc|Hpa]; [contradiction|exact Hpa].
      * apply String.eqb_neq in Hcmd. exact Hcmd.
  - intros H; inversion H.
Qed.

(** X21.  A configuration that Load returns without an error has a
    grid of at least one row and one column, and whatever the program
    does with it, every launch is in good order: a command that is run
    is not empty, an app that is started has both a package and an
    activity, so that [am start] is always given a full component name,
    and a border that is flashed is that of a displayed app. *)
Theorem loaded_config_launches_in_good_order :
  forall fs c probes path cfg c',
    (Load fs c probes path) = (cfg, None, c') ->
    (1 <= Rows (Grid cfg) /\ 1 <= Columns (Grid cfg)) /\
    forall (m : Model) msg effect,
      reachable cfg m ->
      effect ∈ snd (Update m msg) ->
      wellFormed m effect.
Proof.
  intros fs c probes path cfg c' Hload.
  apply Load_launchable in Hload as (Hr & Hc & Hall).
  split; [split; assumption|].
  intros m msg effect Hreach.
  apply Update_wellFormed.
  destruct (reachable_apps _ _ _ _ _ Hreach) as [-> _].
  apply Forall_forall. intros app Hin.
  rewrite Forall_forall in Hall.
  apply Hall, GetDisplayApps_configured, Hin.
Qed.

End Loader.


(** An app given by its name only, and a device that lists Chrome. *)
Definition chromeApp : AppConfig :=
  {| Name := "Chrome"; Icon := ""; Package := ""; Activity := "";
     Command := ""; AppIconScale := 0 |}.

Definition chromeProbe : Probe :=
  {| packagesRead := 0; packagesList := Ok SysFacts.chromeListing;
     packagesStored := 0; activityRead := 0;
     activityDump := fun _ => Ok SysFacts.chromeDump;
     activityStored := 0 |}.

Definition chromeDetected : AppConfig * option string * Sys.ResolverCache :=
  autoDetectAppInfo asciiToLower asciiTrimSpace Sys.ClearAppInfoCache
    chromeProbe chromeApp.

Lemma autoDetectAppInfo_fills_only_gaps_witness :
  cacheSound (snd chromeDetected) /\
  Package (fst (fst chromeDetected)) = "com.android.chrome" /\
  Activity (fst (fst chromeDetected)) <> "".
Proof.
  destruct (autoDetectAppInfo_fills_only_gaps asciiToLower asciiTrimSpace
              Sys.ClearAppInfoCache chromeProbe chromeApp
              (fst (fst chromeDetected)) None (snd chromeDetected)
              cacheSound_empty ltac:(vm_compute; reflexivity))
    as (Hsound & _ & _ & _ & _ & Hfull).
  split; [exact Hsound|]. split; [vm_compute; reflexivity|].
  apply Hfull; reflexivity.
Defined.

(** A configuration file that names Chrome and nothing else about it. *)
Definition configPath : string := "/home/.config/tooie-shelf/config.yaml".

Definition configFS : FS :=
  {| entries :=
       {[ configPath :=
            {| data := "apps: [{name: Chrome}]"; modTime := 0;
               readable := true |} ]};
     protected := ∅;
     dirs := {[ "/"; "/home"; "/home/.config";
                "/home/.config/tooie-shelf" ]} |}.

Definition decodeChrome (_ : string) (cfg : Config.Config)
  : Config.Config * option string :=
  (setApps cfg [chromeApp], None).

Definition loaded : Config.Config * option string * Sys.ResolverCache :=
  Config.Load asciiToLower asciiTrimSpace slashJoin (Ok "/home") decodeChrome
    configFS Sys.ClearAppInfoCache (fun _ => chromeProbe) configPath.

Definition loadedModel : App.Model unit :=
  after (NewModel unit (fst (fst loaded))) (WindowSizeMsg unit 80 24).

Lemma loaded_config_launches_in_good_order_witness :
  (1 <= Rows (Grid (fst (fst loaded))) /\
   1 <= Columns (Grid (fst (fst loaded)))) /\
  wellFormed unit loadedModel
    (LaunchApp "com.android.chrome" "com.google.android.apps.chrome.Main").
Proof.
  destruct (loaded_config_launches_in_good_order asciiToLower asciiTrimSpace
              slashJoin (Ok "/home") decodeChrome unit noResample encodeStub
              configFS Sys.ClearAppInfoCache (fun _ => chromeProbe) configPath
              (fst (fst loaded)) (snd loaded)
              ltac:(vm_compute; reflexivity)) as [Hgrid Hgood].
  split; [exact Hgrid|].
  apply (Hgood loadedModel (MouseMsg unit MouseActionRelease 3 4)).
  - unfold loadedModel, after. apply reach_update, reach_new.
  - assert (snd (Update unit loadedModel (MouseMsg unit MouseActionRelease 3 4))
            = [FlashCell 0;
               LaunchApp "com.android.chrome"
                 "com.google.android.apps.chrome.Main"]) as ->
      by (vm_compute; reflexivity).
    right. left.
Defined.

End AppFacts.
